(** * Two-stage scraping pipeline (sxsapi.com and yuanjisong.com)

    A shallow embedding of [src/scrapers/base_scraper.py],
    [src/scrapers/sxsapi_scraper.py] and [src/scrapers/yuanjisong_scraper.py],
    and the properties of discovery, enrichment, pagination, persistence and
    retry that hold of it.

    Conventions.
    - A Python [str] is a list of Unicode code points ([list N]).
    - A Python [dict] with string keys is a [gmap string value].
    - An exception that a function lets escape is the result [None] of an
      [option], or a constructor of its own where the caller tells the
      exceptions apart.
    - What the libraries compute from markup ([crawl4ai]'s fetch, the element
      queries of [BeautifulSoup]) is input data of the model; the regular
      expressions of the sxsapi scraper are interpreted by a small
      backtracking matcher. *)

From Stdlib Require Import ZArith NArith Lia Ascii String.
From stdpp Require Import base option gmap strings list.

Abbreviation str := (list N).

(** ** Python built-ins on strings *)

Module Py.

Definition bytes_of (s : string) : list N :=
  map (fun a => N_of_ascii a) (String.list_ascii_of_string s).

(** String literals are written as UTF-8 text and decoded to code points. *)
Fixpoint utf8 (bs : list N) : str :=
  match bs with
  | [] => []
  | b :: r =>
      if (b <? 128)%N then b :: utf8 r
      else if (b <? 224)%N then
        match r with
        | b1 :: r1 => ((b - 192) * 64 + (b1 - 128))%N :: utf8 r1
        | _ => []
        end
      else if (b <? 240)%N then
        match r with
        | b1 :: b2 :: r2 =>
            ((b - 224) * 4096 + (b1 - 128) * 64 + (b2 - 128))%N :: utf8 r2
        | _ => []
        end
      else
        match r with
        | b1 :: b2 :: b3 :: r3 =>
            ((b - 240) * 262144 + (b1 - 128) * 4096 + (b2 - 128) * 64
             + (b3 - 128))%N :: utf8 r3
        | _ => []
        end
  end.

Definition u (s : string) : str := utf8 (bytes_of s).

(** [Py_UNICODE_ISSPACE]: the characters [str.split()], [str.strip()] and the
    regular-expression class [\s] treat as whitespace. *)
Definition isspace (c : N) : bool :=
  ((9 <=? c) && (c <=? 13) || (28 <=? c) && (c <=? 32)
   || (c =? 133) || (c =? 160) || (c =? 5760)
   || (8192 <=? c) && (c <=? 8202)
   || (c =? 8232) || (c =? 8233) || (c =? 8239) || (c =? 8287)
   || (c =? 12288))%N.

(** [s.startswith(p)] *)
Fixpoint startswith (s p : str) : bool :=
  match p with
  | [] => true
  | c :: p' =>
      match s with
      | [] => false
      | d :: s' => (c =? d)%N && startswith s' p'
      end
  end.

(** [sub in s] *)
Fixpoint contains (sub s : str) : bool :=
  startswith s sub
  || match s with
     | [] => false
     | _ :: s' => contains sub s'
     end.

(** [s.replace(old, new)] for a non-empty [old]: occurrences are replaced from
    the left and do not overlap; [skip] counts the characters of an occurrence
    still to be passed over. *)
Fixpoint replace_from (skip : nat) (old new s : str) : str :=
  match s with
  | [] => []
  | c :: s' =>
      match skip with
      | S k => replace_from k old new s'
      | O =>
          if startswith s old
          then new ++ replace_from (length old - 1) old new s'
          else c :: replace_from 0 old new s'
      end
  end.

Definition replace (old new s : str) : str := replace_from 0 old new s.

Fixpoint drop_while (p : N -> bool) (s : str) : str :=
  match s with
  | [] => []
  | c :: s' => if p c then drop_while p s' else s
  end.

Fixpoint take_while (p : N -> bool) (s : str) : str :=
  match s with
  | [] => []
  | c :: s' => if p c then c :: take_while p s' else []
  end.

Definition lstrip (s : str) : str := drop_while isspace s.
Definition rstrip (s : str) : str := rev (drop_while isspace (rev s)).
(** [s.strip()] *)
Definition strip (s : str) : str := rstrip (lstrip s).

(** [s.rstrip(chars)] *)
Definition rstrip_chars (chars s : str) : str :=
  rev (drop_while (fun c => existsb (N.eqb c) chars) (rev s)).

(** [s.split()]: the maximal runs of non-whitespace characters. [cur] is the
    run being read, reversed. *)
Fixpoint tokens (cur : str) (s : str) : list str :=
  match s with
  | [] => match cur with [] => [] | _ => [rev cur] end
  | c :: s' =>
      if isspace c
      then match cur with
           | [] => tokens [] s'
           | _ => rev cur :: tokens [] s'
           end
      else tokens (c :: cur) s'
  end.

Definition split_ws (s : str) : list str := tokens [] s.

(** [s.split(c)] for a one-character separator: empty pieces are kept. *)
Fixpoint split_char (c : N) (s : str) : list str :=
  match s with
  | [] => [[]]
  | d :: s' =>
      if (d =? c)%N then [] :: split_char c s'
      else match split_char c s' with
           | cur :: rest => (d :: cur) :: rest
           | [] => [[d]]
           end
  end.

(** [s.split(sep, 1)] when [sep in s]: the text before and after the first
    occurrence of [sep]; [None] when [sep] does not occur. *)
Fixpoint split_once (sep s : str) : option (str * str) :=
  if startswith s sep then Some ([], drop (length sep) s)
  else match s with
       | [] => None
       | c :: s' =>
           match split_once sep s' with
           | Some (a, b) => Some (c :: a, b)
           | None => None
           end
       end.

(** The part of the interpreter's Unicode database the scrapers reach:
    [decimal c] is the value of [c] when it is a decimal digit (category Nd,
    [Py_UNICODE_TODECIMAL]), [isdigit] is [str.isdigit] on one character and
    [lower] is [str.lower]. The tables depend on the interpreter's Unicode
    version, so the model takes them as a parameter. *)
Record Unicode := {
  decimal : N -> option N;
  isdigit : N -> bool;
  lower : str -> str;
}.

(** The tables restricted to ASCII. They agree with every version of the
    database on text whose digits and cased letters are ASCII (CJK text has
    neither), and serve to evaluate the model on such text. *)
Definition ascii_unicode : Unicode := {|
  decimal c := if ((48 <=? c) && (c <=? 57))%N then Some (c - 48)%N else None;
  isdigit c := ((48 <=? c) && (c <=? 57))%N;
  lower s := map (fun c => if ((65 <=? c) && (c <=? 90))%N then (c + 32)%N else c) s;
|}.

(** [int(s)] for a [str]: surrounding whitespace is skipped (an ASCII string
    is read by the C parser, whose whitespace is tab to carriage return and the
    space; in any other string every Unicode whitespace character counts),
    then an optional sign, then decimal digits, single underscores allowed
    between digits. [None] is [ValueError]. *)
Definition c_isspace (c : N) : bool :=
  ((9 <=? c) && (c <=? 13) || (c =? 32))%N.

Definition int_strip (s : str) : str :=
  let sp := if forallb (fun c => (c <? 128)%N) s then c_isspace else isspace in
  rev (drop_while sp (rev (drop_while sp s))).

Fixpoint int_digits (U : Unicode) (acc : N) (prev_digit : bool) (s : str)
  : option N :=
  match s with
  | [] => if prev_digit then Some acc else None
  | c :: s' =>
      match decimal U c with
      | Some d => int_digits U (acc * 10 + d)%N true s'
      | None =>
          if (c =? 95)%N && prev_digit
          then match s' with
               | [] => None
               | _ => int_digits U acc false s'
               end
          else None
      end
  end.

Definition int (U : Unicode) (s : str) : option Z :=
  match int_strip s with
  | [] => None
  | c :: r =>
      if (c =? 45)%N then
        match int_digits U 0 false r with
        | Some n => Some (- Z.of_N n)%Z
        | None => None
        end
      else if (c =? 43)%N then
        match int_digits U 0 false r with
        | Some n => Some (Z.of_N n)
        | None => None
        end
      else
        match int_digits U 0 false (c :: r) with
        | Some n => Some (Z.of_N n)
        | None => None
        end
  end.

(** Values stored in the records the scrapers build. *)
Inductive value :=
  | VNone
  | VStr (s : str)
  | VInt (z : Z).

#[global] Instance value_eq_dec : EqDecision value.
Proof. solve_decision. Defined.

(** Truth value of an object in a condition. *)
Definition truthy (v : value) : bool :=
  match v with
  | VNone => false
  | VStr s => negb (bool_decide (s = []))
  | VInt z => negb (z =? 0)%Z
  end.

End Py.

Abbreviation dict := (gmap string Py.value).

(** [d.update(e)]: the keys of [e] are written over [d]. *)
Definition dict_update (d e : dict) : dict := e ∪ d.

(** [bool(d)] for a dict. *)
Definition dict_truthy (d : dict) : bool := negb (bool_decide (d = ∅)).

(** ** Regular expressions ([re.search])

    The patterns of the sxsapi scraper use literal text, character classes,
    repetition of a class (greedy or lazy), alternation, capturing groups and
    [$]. [search] is a backtracking matcher with Python's priorities: the
    leftmost start, and at each choice the alternative the pattern prefers. *)

Module Re.

Inductive atom :=
  | AChar (c : N)
  | ASpace            (* \s *)
  | ADigit.           (* \d *)

(** One pattern item that consumes one character. *)
Inductive cls :=
  | One (a : atom)
  | AnyOf (l : list atom)      (* [...] *)
  | NoneOf (l : list atom).    (* [^...] *)

Inductive re :=
  | Str (s : str)                                   (* literal text *)
  | Chr (c : cls)
  | Rep (c : cls) (lo : nat) (hi : option nat) (greedy : bool)
  | Seq (r1 r2 : re)
  | Alt (r1 r2 : re)
  | Group (i : nat) (r : re)                        (* i-th capturing group *)
  | NonCapture (r : re)                             (* (?:...) *)
  | Eol.                                            (* $ *)

Definition captures := list (nat * str).

Section Matcher.
Variable U : Py.Unicode.

Definition atom_matches (a : atom) (c : N) : bool :=
  match a with
  | AChar d => (c =? d)%N
  | ASpace => Py.isspace c
  | ADigit => bool_decide (is_Some (Py.decimal U c))
  end.

Definition cls_matches (k : cls) (c : N) : bool :=
  match k with
  | One a => atom_matches a c
  | AnyOf l => existsb (fun a => atom_matches a c) l
  | NoneOf l => negb (existsb (fun a => atom_matches a c) l)
  end.

(** [rep k greedy lo hi s cont]: between [lo] and [hi] characters of class
    [k] at the front of [s], then [cont] on the rest. A greedy repetition
    tries one more character first, a lazy one tries to stop first. *)
Fixpoint rep {A} (k : cls) (greedy : bool) (lo : nat) (hi : option nat)
  (s : str) (cont : str -> option A) : option A :=
  let stop := match lo with O => cont s | S _ => None end in
  let more :=
    match s with
    | c :: s' =>
        if cls_matches k c && negb (bool_decide (hi = Some O))
        then rep k greedy (pred lo) (pred <$> hi) s' cont
        else None
    | [] => None
    end in
  if greedy
  then match more with Some r => Some r | None => stop end
  else match stop with Some r => Some r | None => more end.

(** [m r s caps cont]: match [r] at the front of [s]; [cont] receives the
    rest of the text and the groups captured so far, and answers [None] to ask
    for the next way of matching. *)
Fixpoint m {A} (r : re) (s : str) (caps : captures)
  (cont : str -> captures -> option A) : option A :=
  match r with
  | Str lit =>
      if Py.startswith s lit then cont (drop (length lit) s) caps else None
  | Chr k =>
      match s with
      | c :: s' => if cls_matches k c then cont s' caps else None
      | [] => None
      end
  | Rep k lo hi greedy => rep k greedy lo hi s (fun rest => cont rest caps)
  | Seq r1 r2 => m r1 s caps (fun rest caps1 => m r2 rest caps1 cont)
  | Alt r1 r2 =>
      match m r1 s caps cont with
      | Some x => Some x
      | None => m r2 s caps cont
      end
  | Group i r1 =>
      m r1 s caps
        (fun rest caps1 =>
           cont rest ((i, take (length s - length rest) s) :: caps1))
  | NonCapture r1 => m r1 s caps cont
  | Eol =>
      match s with
      | [] => cont s caps
      | [c] => if (c =? 10)%N then cont s caps else None
      | _ => None
      end
  end.

(** [re.search(r, s)]: the groups of the first match, scanning start
    positions from the left. *)
Fixpoint search (r : re) (s : str) : option captures :=
  match m r s [] (fun _ caps => Some caps) with
  | Some caps => Some caps
  | None =>
      match s with
      | [] => None
      | _ :: s' => search r s'
      end
  end.

End Matcher.

(** [match.group(i)] of a group that took part in the match. *)
Fixpoint group (i : nat) (caps : captures) : str :=
  match caps with
  | [] => []
  | (j, s) :: rest => if Nat.eqb i j then s else group i rest
  end.

(** [k*] and [k+] *)
Definition star (k : cls) : re := Rep k 0 None true.
Definition plus (k : cls) : re := Rep k 1 None true.
Definition chr (s : string) : atom :=
  match Py.u s with c :: _ => AChar c | [] => AChar 0 end.
Definition chars (s : string) : list atom := map AChar (Py.u s).
Definition lit (s : string) : re := Str (Py.u s).

End Re.

Infix "+++" := Re.Seq (at level 60, right associativity).

(** ** URL clean-up (both scrapers)

    [clean_url] is defined once per scraper module in the source; the two
    copies differ in the site they prefix. [None] is the [IndexError] of
    [url.split()[0]]. *)

Definition clean_url_for (base : str) (url : str) : option str :=
  match head (Py.split_ws url) with
  | None => None
  | Some tok =>
      let url := Py.replace (Py.u ">") [] (Py.replace (Py.u "</") [] tok) in
      if Py.contains (Py.u "javascript:") url then Some []
      else if negb (Py.startswith url (Py.u "http")) then Some (base ++ url)
      else Some url
  end.

(** ** base_scraper.py: persistence and the request helper; the pagination
    loop the two scrapers share *)

Module Base.

(** What a run can observe of its surroundings: the JSON document in the
    platform's output file ([None] until it is first written) and the list
    pages requested so far, oldest first. *)
Record state := {
  output_file : option (list dict);
  requested : list nat;
}.

Definition initial : state := {| output_file := None; requested := [] |}.

Definition request (page : nat) (st : state) : state :=
  {| output_file := output_file st; requested := requested st ++ [page] |}.

(** [save_results]: the file is opened for writing and the whole list dumped
    into it. [writable = false] is the case where opening the file raises: the
    error is logged and the file stays as it was. *)
Definition save_results (writable : bool) (results : list dict) (st : state)
  : state :=
  if writable
  then {| output_file := Some results; requested := requested st |}
  else st.

(** *** [_make_request] *)

(** What one attempt meets: a response with status 200 and its text, a
    response with another status, or an exception raised inside the [try]
    (by connecting, sending or reading). *)
Inductive outcome :=
  | Ok200 (text : str)
  | BadStatus (status : N)
  | TransportError (e : str).

Inductive event :=
  | EvInit                       (* init_session opened a session *)
  | EvGet (attempt : nat)        (* session.get was called *)
  | EvWarn (status : N)          (* logger.warning: request failed with status *)
  | EvError (e : str)            (* logger.error: request error *)
  | EvClose                      (* close_session closed the session *)
  | EvSleep (seconds : N).       (* time.sleep *)

#[global] Instance event_eq_dec : EqDecision event.
Proof. solve_decision. Defined.

Record client := {
  session : bool;                (* self.session is not None *)
  events : list event;
}.

Definition emit (e : event) (c : client) : client :=
  {| session := session c; events := events c ++ [e] |}.

Definition init_session (c : client) : client :=
  if session c then c
  else emit EvInit {| session := true; events := events c |}.

Definition close_session (c : client) : client :=
  if session c
  then emit EvClose {| session := false; events := events c |}
  else c.

(** [if attempt < 2: time.sleep(2 * (attempt + 1))] *)
Definition back_off (attempt : nat) (c : client) : client :=
  if (attempt <? 2)%nat then emit (EvSleep (2 * (N.of_nat attempt + 1))) c
  else c.

(** The body of [for attempt in range(3)], over the attempts still to make. *)
Fixpoint attempts (net : nat -> outcome) (todo : list nat) (c : client)
  : option str * client :=
  match todo with
  | [] => (None, c)
  | attempt :: rest =>
      let c := init_session c in
      let c := emit (EvGet attempt) c in
      match net attempt with
      | Ok200 text => (Some text, c)
      | BadStatus status =>
          attempts net rest (back_off attempt (emit (EvWarn status) c))
      | TransportError e =>
          attempts net rest
            (back_off attempt (close_session (emit (EvError e) c)))
      end
  end.

Definition _make_request (net : nat -> outcome) (c : client)
  : option str * client :=
  attempts net (seq 0 3) c.

(** *** [scrape]

    The method has the same text in both scrapers; [scrape_page] is the
    scraper's own. *)

Inductive page_result :=
  | Returned (projects : list dict)
  | Raised.

Record loop_state := {
  page : nat;
  all_jobs : list dict;
  calls : list nat;              (* pages scrape_page was called with *)
  st : state;
}.

Inductive stop_reason :=
  | NoProjects                   (* if not projects: break *)
  | ReachedMax                   (* if max_pages and page >= max_pages: break *)
  | PageError.                   (* except Exception: break *)

Inductive step_result :=
  | Continue (s : loop_state)
  | Stop (why : stop_reason) (s : loop_state).

Section Scrape.
Variable scrape_page : nat -> state -> page_result * state.
Variable max_pages : Z.

(** [if max_pages and page >= max_pages] *)
Definition cap_reached (page : nat) : bool :=
  negb (max_pages =? 0)%Z && (max_pages <=? Z.of_nat page)%Z.

(** One turn of [while True]. *)
Definition scrape_step (s : loop_state) : step_result :=
  let called := calls s ++ [page s] in
  match scrape_page (page s) (st s) with
  | (Raised, st1) =>
      Stop PageError
        {| page := page s; all_jobs := all_jobs s; calls := called; st := st1 |}
  | (Returned [], st1) =>
      Stop NoProjects
        {| page := page s; all_jobs := all_jobs s; calls := called; st := st1 |}
  | (Returned projects, st1) =>
      let jobs := all_jobs s ++ projects in
      if cap_reached (page s)
      then Stop ReachedMax
             {| page := page s; all_jobs := jobs; calls := called; st := st1 |}
      else Continue
             {| page := S (page s); all_jobs := jobs; calls := called; st := st1 |}
  end.

(** [n] turns of the loop, unless it stops earlier. *)
Fixpoint turns (n : nat) (s : loop_state) : step_result :=
  match n with
  | O => Continue s
  | S k =>
      match scrape_step s with
      | Continue s1 => turns k s1
      | Stop why s1 => Stop why s1
      end
  end.

Definition start (st0 : state) : loop_state :=
  {| page := 1; all_jobs := []; calls := []; st := st0 |}.

(** The whole method: the loop, then the final save of [all_jobs] into the
    same platform file, and the list returned, with the pages the loop called
    [scrape_page] for. The sleep between two pages is taken to return. [None]:
    the loop is still running after [fuel] turns. *)
Definition scrape (writable : bool) (fuel : nat) (st0 : state)
  : option (list dict * list nat * state) :=
  match turns fuel (start st0) with
  | Continue _ => None
  | Stop _ s => Some (all_jobs s, calls s, save_results writable (all_jobs s) (st s))
  end.

End Scrape.

End Base.

(** ** sxsapi_scraper.py: discovery and field extraction on markdown *)

Module Sxsapi.

Definition base_url : str := Py.u "https://sxsapi.com".

Definition clean_url (url : str) : option str := clean_url_for base_url url.

Definition space : Re.cls := Re.One Re.ASpace.
Definition digit : Re.cls := Re.One Re.ADigit.
Definition budget_chars : Re.cls :=
  Re.AnyOf (Re.ADigit :: Re.chars "~万千以上以下待商议").

(** The heading pattern of the list page:
    "##\s*\[\s*([^\]]+)\s*\]\s*\((https?://[^)]+/post/\d+[^)]*)\)\s*￥\s*([\d~万千以上以下待商议]+)" *)
Definition heading_re : Re.re :=
  Re.lit "##" +++ Re.star space +++ Re.lit "[" +++ Re.star space
  +++ Re.Group 1 (Re.plus (Re.NoneOf (Re.chars "]")))
  +++ Re.star space +++ Re.lit "]" +++ Re.star space +++ Re.lit "("
  +++ Re.Group 2
        (Re.lit "http" +++ Re.Rep (Re.One (Re.chr "s")) 0 (Some 1) true
         +++ Re.lit "://" +++ Re.plus (Re.NoneOf (Re.chars ")"))
         +++ Re.lit "/post/" +++ Re.plus digit
         +++ Re.star (Re.NoneOf (Re.chars ")")))
  +++ Re.lit ")" +++ Re.star space +++ Re.lit "￥" +++ Re.star space
  +++ Re.Group 3 (Re.plus budget_chars).

(** "\*\s*(\d+天|商议工期)" *)
Definition list_duration_re : Re.re :=
  Re.lit "*" +++ Re.star space
  +++ Re.Group 1 (Re.Alt (Re.plus digit +++ Re.lit "天") (Re.lit "商议工期")).

Definition date_re : Re.re :=
  Re.Rep digit 4 (Some 4) true +++ Re.lit "-"
  +++ Re.Rep digit 2 (Some 2) true +++ Re.lit "-"
  +++ Re.Rep digit 2 (Some 2) true.

(** "\*\s*竞标截止：(\d{4}-\d{2}-\d{2})" *)
Definition list_deadline_re : Re.re :=
  Re.lit "*" +++ Re.star space +++ Re.lit "竞标截止：" +++ Re.Group 1 date_re.

(** "#\s*([^#\n]+?)(?:\s*￥|$)" *)
Definition title_re : Re.re :=
  Re.lit "#" +++ Re.star space
  +++ Re.Group 1 (Re.Rep (Re.NoneOf [Re.AChar 35; Re.AChar 10]) 1 None false)
  +++ Re.NonCapture (Re.Alt (Re.star space +++ Re.lit "￥") Re.Eol).

(** "￥\s*([\d~万千以上以下待商议]+)" *)
Definition price_re : Re.re :=
  Re.lit "￥" +++ Re.star space +++ Re.Group 1 (Re.plus budget_chars).

(** "工期[：要求]*：\s*(\d+天|商议工期)" *)
Definition duration_re : Re.re :=
  Re.lit "工期" +++ Re.star (Re.AnyOf (Re.chars "：要求")) +++ Re.lit "："
  +++ Re.star space
  +++ Re.Group 1 (Re.Alt (Re.plus digit +++ Re.lit "天") (Re.lit "商议工期")).

(** "竞标截止：(\d{4}-\d{2}-\d{2})" *)
Definition deadline_re : Re.re := Re.lit "竞标截止：" +++ Re.Group 1 date_re.

(** "技能要求：([^\n]+)" *)
Definition skills_re : Re.re :=
  Re.lit "技能要求：" +++ Re.Group 1 (Re.plus (Re.NoneOf [Re.AChar 10])).

(** "合作倾向：([^\n]+)" *)
Definition coop_re : Re.re :=
  Re.lit "合作倾向：" +++ Re.Group 1 (Re.plus (Re.NoneOf [Re.AChar 10])).

Definition nav_words : list str :=
  [Py.u "登录"; Py.u "注册"; Py.u "会员"; Py.u "友链合作"].

Definition stop_markers : list str :=
  [Py.u "附件"; Py.u "报名列表"; Py.u "阅读全部"; Py.u "开发者工作指南"].

Section Extract.
Variable U : Py.Unicode.

(** [if current_project: projects.append(current_project)] *)
Definition flush (projects : list dict) (current_project : dict) : list dict :=
  if dict_truthy current_project then projects ++ [current_project]
  else projects.

(** The loop of [extract_project_links] over the lines still to read;
    [None] when [clean_url] raises. *)
Fixpoint scan_lines (lines : list str) (projects : list dict)
  (current_project : dict) : option (list dict) :=
  match lines with
  | [] => Some (flush projects current_project)
  | raw :: rest =>
      let line := Py.strip raw in
      if bool_decide (line = [])
         || existsb (fun x => Py.contains x (Py.lower U line)) nav_words
      then scan_lines rest projects current_project
      else
        match Re.search U heading_re line with
        | Some caps =>
            match clean_url (Re.group 2 caps) with
            | None => None
            | Some url =>
                scan_lines rest (flush projects current_project)
                  (<["title" := Py.VStr (Py.strip (Re.group 1 caps))]>
                     (<["url" := Py.VStr url]>
                        (<["price" := Py.VStr (Py.strip (Re.group 3 caps))]> ∅)))
            end
        | None =>
            match Re.search U list_duration_re line with
            | Some caps =>
                if dict_truthy current_project
                then scan_lines rest projects
                       (<["duration" := Py.VStr (Re.group 1 caps)]> current_project)
                else scan_lines rest projects current_project
            | None =>
                match Re.search U list_deadline_re line with
                | Some caps =>
                    if dict_truthy current_project
                    then scan_lines rest projects
                           (<["deadline" := Py.VStr (Re.group 1 caps)]> current_project)
                    else scan_lines rest projects current_project
                | None => scan_lines rest projects current_project
                end
            end
        end
  end.

Definition extract_project_links (markdown : str) : option (list dict) :=
  scan_lines (Py.split_char 10 markdown) [] ∅.

(** The description loop of [extract_project_details]: the text collected
    from the lines after the one that holds the description marker, up to the
    first stop marker. *)
Fixpoint collect_description (lines : list str) (description_started : bool)
  (description : str) : str :=
  match lines with
  | [] => description
  | raw :: rest =>
      let line := Py.strip raw in
      if Py.contains (Py.u "项目描述") line
      then collect_description rest true description
      else if description_started then
        if existsb (fun x => Py.contains x line) stop_markers
        then description
        else if negb (bool_decide (line = []))
                && negb (Py.startswith line (Py.u "#"))
                && negb (Py.startswith line (Py.u "!["))
        then collect_description rest true (description ++ line ++ Py.u " ")
        else collect_description rest true description
      else collect_description rest false description
  end.

(** One rule of the field list: [re.search], then the first group. *)
Definition rule (r : Re.re) (strip_it : bool) (markdown : str) : option str :=
  match Re.search U r markdown with
  | Some caps =>
      Some (if strip_it then Py.strip (Re.group 1 caps) else Re.group 1 caps)
  | None => None
  end.

Definition set_if (key : string) (v : option str) (details : dict) : dict :=
  match v with
  | Some s => <[key := Py.VStr s]> details
  | None => details
  end.

Definition description_of (markdown : str) : option str :=
  let description := collect_description (Py.split_char 10 markdown) false [] in
  if bool_decide (description = []) then None else Some (Py.strip description).

Definition extract_project_details (markdown : str) : dict :=
  let details := ∅ in
  let details := set_if "title" (rule title_re true markdown) details in
  let details := set_if "price" (rule price_re true markdown) details in
  let details := set_if "duration" (rule duration_re false markdown) details in
  let details := set_if "deadline" (rule deadline_re false markdown) details in
  let details := set_if "description" (description_of markdown) details in
  let details := set_if "skills" (rule skills_re true markdown) details in
  let details := set_if "cooperation" (rule coop_re true markdown) details in
  details.

End Extract.

(** What [crawler.arun] gives for a page: an exception, a result that is
    falsy or has no markdown, or a result with its markdown. *)
Inductive crawl :=
  | CrawlRaises
  | CrawlNothing
  | CrawlMarkdown (markdown : str).

(** The site as one call of [scrape_page] meets it: the list page, the detail
    page answered to the [i]-th detail request, and whether the output file
    can be written. *)
Record page_src := {
  list_page : crawl;
  detail_page : nat -> crawl;
  writable : bool;
}.

Section Page.
Variable U : Py.Unicode.

(** What the body of [for project in projects] leaves in [detailed_projects]
    for one candidate: [Some [r]] when [r] is appended, [Some []] when nothing
    is appended, [None] when an exception escapes the handler (the handler
    itself reads [project['url']]). *)
Definition enrich (response : crawl) (project : dict) : option (list dict) :=
  match project !! "url" with
  | None => None
  | Some _ =>
      match response with
      | CrawlRaises => Some [project]
      | CrawlNothing => Some [project]
      | CrawlMarkdown markdown =>
          if bool_decide (markdown = []) then Some [project]
          else
            let details := extract_project_details U markdown in
            if dict_truthy details
            then Some [dict_update project details]
            else Some []
      end
  end.

Fixpoint enrich_all (detail_page : nat -> crawl) (i : nat)
  (projects : list dict) (detailed_projects : list dict)
  : option (list dict) :=
  match projects with
  | [] => Some detailed_projects
  | project :: rest =>
      match enrich (detail_page i) project with
      | None => None
      | Some added =>
          enrich_all detail_page (S i) rest (detailed_projects ++ added)
      end
  end.

Definition scrape_page (src : page_src) (page : nat) (st : Base.state)
  : Base.page_result * Base.state :=
  let st := Base.request page st in
  match list_page src with
  | CrawlRaises => (Base.Raised, st)
  | CrawlNothing => (Base.Returned [], st)
  | CrawlMarkdown markdown =>
      if bool_decide (markdown = []) then (Base.Returned [], st)
      else
        match extract_project_links U markdown with
        | None => (Base.Raised, st)
        | Some projects =>
            match enrich_all (detail_page src) 0 projects [] with
            | None => (Base.Raised, st)
            | Some detailed_projects =>
                (Base.Returned detailed_projects,
                 Base.save_results (writable src) detailed_projects st)
            end
        end
  end.

(** [scrape] over a site that answers page [k] as [site k]. *)
Definition scrape (site : nat -> page_src) (max_pages : Z) (final_writable : bool)
  (fuel : nat) (st0 : Base.state) :=
  Base.scrape (fun page st => scrape_page (site page) page st) max_pages
    final_writable fuel st0.

End Page.

End Sxsapi.

(** ** yuanjisong_scraper.py: discovery and field extraction on HTML

    The page is parsed by [BeautifulSoup]; the model starts from what its
    queries answer. *)

Module Yuanjisong.

Definition base_url : str := Py.u "https://www.yuanjisong.com".

Definition clean_url (url : str) : option str := clean_url_for base_url url.

(** An [<a>] element: its [href] attribute, and the [.text] of the first
    [<b>] and of the first [<span>] below it. *)
Record anchor := {
  href : option str;
  b_text : option str;
  span_text : option str;
}.

(** One block [div.div_bg_color_fff.div_padding_1.hover1.margin_bottom_1] of
    the list page. *)
Record container := {
  anchors : list anchor;                 (* its <a> elements, in document order *)
  desc_text : option str;                (* get_text(strip=True) of the first p.margin_bottom_10 *)
  duration_text : option (option str);   (* first span.glyphicon-time; get_text(strip=True) of its parent <p>, if any *)
  price_text : option str;               (* .text of the first span.rixin-text-jobs *)
  applicants_text : option str;          (* .text of the first i.i_post_num *)
}.

(** A row [.basic_info_row] of the detail page. *)
Record row := {
  label_text : option str;               (* .text of select_one('.font_color_3') *)
  value_text : option str;               (* .text of select_one('li:last-child') *)
}.

Record detail_soup := {
  h2_text : option str;                  (* .text of select_one('h2') *)
  basic_info_rows : list row;            (* select('.basic_info_row') *)
  mobmid_text : option str;              (* .text of select_one('.mobmid p') *)
  credit_list : list str;                (* .text of each of select('.admin-content-list li span a') *)
}.

(** [lambda x: x and part in x] on the [href] of an element. *)
Definition href_has (part : str) (a : anchor) : bool :=
  match href a with
  | Some x => negb (bool_decide (x = [])) && Py.contains part x
  | None => false
  end.

Definition find_anchor (part : str) (c : container) : option anchor :=
  List.find (href_has part) (anchors c).

Section Extract.
Variable U : Py.Unicode.

(** [int(text.strip())], 0 when it raises [ValueError]. *)
Definition int_or_zero (text : str) : Z :=
  match Py.int U (Py.strip text) with
  | Some z => z
  | None => 0%Z
  end.

Definition after (marker : str) (text : str) : option str :=
  if Py.contains marker text
  then match Py.split_once marker text with
       | Some (_, rest) => Some (Py.strip rest)
       | None => None
       end
  else None.

(** The body of the [try] for one block: the record built from it; [None]
    when an exception is raised ([clean_url]). *)
Definition project_of (c : container) : option dict :=
  let project : dict := ∅ in
  project ←
    match find_anchor (Py.u "/job/") c with
    | Some title_link =>
        url ← clean_url (default [] (href title_link));
        let project := <["url" := Py.VStr url]> project in
        Some match b_text title_link with
             | Some t => <["title" := Py.VStr (Py.strip t)]> project
             | None => project
             end
    | None => Some project
    end;
  let project :=
    match desc_text c with
    | Some text =>
        match after (Py.u "描述：") text with
        | Some d => <["description" := Py.VStr d]> project
        | None => project
        end
    | None => project
    end in
  let project :=
    match duration_text c with
    | Some (Some text) =>
        match after (Py.u "工时：") text with
        | Some d => <["duration" := Py.VStr d]> project
        | None => project
        end
    | _ => project
    end in
  let project :=
    match price_text c with
    | Some text => <["price" := Py.VInt (int_or_zero text)]> project
    | None => project
    end in
  let project :=
    match applicants_text c with
    | Some text => <["applicants" := Py.VInt (int_or_zero text)]> project
    | None => project
    end in
  match find_anchor (Py.u "/employer/") c with
  | Some employer_link =>
      url ← clean_url (default [] (href employer_link));
      let project := <["employer_url" := Py.VStr url]> project in
      Some match span_text employer_link with
           | Some t => <["employer_name" := Py.VStr (Py.strip t)]> project
           | None => project
           end
  | None => Some project
  end.

(** [all(key in project for key in ['url', 'title'])] *)
Definition has_required (project : dict) : bool :=
  bool_decide (is_Some (project !! "url"))
  && bool_decide (is_Some (project !! "title")).

(** The loop of [extract_project_links] over the blocks still to read. *)
Fixpoint scan_containers (containers : list container) (projects : list dict)
  : list dict :=
  match containers with
  | [] => projects
  | c :: rest =>
      match project_of c with
      | Some project =>
          if has_required project
          then scan_containers rest (projects ++ [project])
          else scan_containers rest projects
      | None => scan_containers rest projects
      end
  end.

Definition extract_project_links (project_containers : list container)
  : list dict :=
  scan_containers project_containers [].

(** [int(''.join(filter(str.isdigit, value_text)))] *)
Definition digits_int (value_text : str) : option Z :=
  Py.int U (List.filter (Py.isdigit U) value_text).

(** One turn of [for row in basic_info_rows]; [None] is the [ValueError] of
    [int]. *)
Definition read_row (details : dict) (r : row) : option dict :=
  match label_text r with
  | None => Some details
  | Some l =>
      let label := Py.rstrip_chars (Py.u "：") (Py.strip l) in
      match value_text r with
      | None => Some details
      | Some v =>
          let value_text := Py.strip v in
          if Py.contains (Py.u "合作方式") label
          then Some (<["cooperation_type" := Py.VStr value_text]> details)
          else if Py.contains (Py.u "预估日薪") label
          then n ← digits_int value_text;
               Some (<["daily_salary" := Py.VInt n]> details)
          else if Py.contains (Py.u "预估总价") label
          then n ← digits_int value_text;
               Some (<["total_price" := Py.VInt n]> details)
          else if Py.contains (Py.u "预估工时") label
          then n ← digits_int value_text;
               Some (<["duration" := Py.VInt n]> details)
          else if Py.contains (Py.u "所在区域") label
          then Some (<["location" := Py.VStr value_text]> details)
          else Some details
      end
  end.

Fixpoint read_rows (rows : list row) (details : dict) : option dict :=
  match rows with
  | [] => Some details
  | r :: rest => details ← read_row details r; read_rows rest details
  end.

(** The employer credit block, with its own handler that defaults the three
    counters to zero. *)
Definition read_credit (credit : list str) (details : dict) : dict :=
  match credit with
  | a :: b :: c :: _ =>
      match Py.int U (Py.strip a), Py.int U (Py.strip b), Py.int U (Py.strip c) with
      | Some x, Some y, Some z =>
          <["employer_complaints" := Py.VInt z]>
            (<["employer_reviews" := Py.VInt y]>
               (<["employer_projects" := Py.VInt x]> details))
      | _, _, _ =>
          <["employer_complaints" := Py.VInt 0]>
            (<["employer_reviews" := Py.VInt 0]>
               (<["employer_projects" := Py.VInt 0]> details))
      end
  | _ => details
  end.

(** The body of the outer [try]; [None] when it raises. *)
Definition details_of (soup : detail_soup) : option dict :=
  let title :=
    match h2_text soup with
    | Some t => Py.VStr (Py.strip t)
    | None => Py.VNone
    end in
  let details : dict := <["title" := title]> ∅ in
  details ← read_rows (basic_info_rows soup) details;
  let details :=
    match mobmid_text soup with
    | Some t => <["description" := Py.VStr (Py.strip t)]> details
    | None => details
    end in
  Some (read_credit (credit_list soup) details).

(** [except Exception: return {}] *)
Definition extract_project_details (soup : detail_soup) : dict :=
  default ∅ (details_of soup).

End Extract.

(** What [crawler.arun] gives for the list page: an exception, a falsy result
    or one with no HTML, or the blocks of its HTML. *)
Inductive list_crawl :=
  | ListRaises
  | ListNothing
  | ListHtml (project_containers : list container).

(** What [detail_crawler.arun] gives for a detail page. *)
Inductive detail_crawl :=
  | DetailRaises
  | DetailNothing                                        (* a falsy result *)
  | DetailResult (success : bool) (html : option detail_soup).  (* [html = None]: no HTML *)

(** One detail task as the page meets it: what the fetch gives, how long the
    fetch takes, and when the task is over, counted in milliseconds from the
    moment the page starts to wait for its tasks. *)
Record detail_src := {
  fetched : detail_crawl;
  arun_ms : N;
  finish_ms : N;
}.

Record page_src := {
  list_page : list_crawl;
  detail_page : nat -> detail_src;
  writable : bool;
}.

(** What one attempt of [scrape_list_page] meets: an exception raised inside
    the [try], a result that reports no success, a result without HTML, or
    the blocks of the page. *)
Inductive list_attempt :=
  | AttemptRaises
  | AttemptFailed
  | AttemptNoHtml
  | AttemptHtml (project_containers : list container).

Inductive list_event :=
  | ListAttempt (attempt : nat)    (* the body of the try was entered *)
  | ListSleep.                     (* asyncio.sleep(self.config.retry_delay) *)

Section Page.
Variable U : Py.Unicode.

(** [_scrape_detail_page]: the record the task returns; [None] when the task
    ends with an exception (the handler itself reads [project['url']]).
    The fetch is given 30 seconds. *)
Definition _scrape_detail_page (d : detail_src) (project : dict) : option dict :=
  match project !! "url" with
  | None => None
  | Some _ =>
      if (30000 <? arun_ms d)%N then Some project
      else
        match fetched d with
        | DetailRaises => Some project
        | DetailNothing => Some project
        | DetailResult false _ => Some project
        | DetailResult true None => Some project
        | DetailResult true (Some soup) =>
            let details := extract_project_details U soup in
            if dict_truthy details
            then Some (dict_update project details)
            else Some project
        end
  end.

(** [timeout=len(projects) * 10], in milliseconds. *)
Definition deadline_ms (projects : list dict) : N :=
  (N.of_nat (length projects) * 10 * 1000)%N.

(** The outcome of each task, by position. *)
Fixpoint run_tasks (detail_page : nat -> detail_src) (i : nat)
  (projects : list dict) : list (option dict) :=
  match projects with
  | [] => []
  | project :: rest =>
      _scrape_detail_page (detail_page i) project
      :: run_tasks detail_page (S i) rest
  end.

(** [for result in completed_tasks]: exceptions are logged, truthy results
    appended. *)
Fixpoint collect (completed_tasks : list (option dict))
  (detailed_projects : list dict) : list dict :=
  match completed_tasks with
  | [] => detailed_projects
  | None :: rest => collect rest detailed_projects
  | Some result :: rest =>
      if dict_truthy result
      then collect rest (detailed_projects ++ [result])
      else collect rest detailed_projects
  end.

(** The candidates as they stand when the wait is given up: a task that was
    over by the deadline has updated its candidate in place, the others have
    not touched theirs. *)
Fixpoint at_deadline (detail_page : nat -> detail_src) (deadline : N) (i : nat)
  (projects : list dict) : list dict :=
  match projects with
  | [] => []
  | project :: rest =>
      (if (finish_ms (detail_page i) <=? deadline)%N
       then default project (_scrape_detail_page (detail_page i) project)
       else project)
      :: at_deadline detail_page deadline (S i) rest
  end.

(** [any(d.get('url') == project['url'] for d in detailed_projects)] *)
Definition url_in (url : Py.value) (detailed_projects : list dict) : bool :=
  existsb (fun d => bool_decide (default Py.VNone (d !! "url") = url))
    detailed_projects.

(** The handler of [asyncio.TimeoutError]; [None] when [project['url']]
    raises. *)
Fixpoint add_missing (projects : list dict) (detailed_projects : list dict)
  : option (list dict) :=
  match projects with
  | [] => Some detailed_projects
  | project :: rest =>
      match project !! "url" with
      | None => None
      | Some url =>
          if url_in url detailed_projects
          then add_missing rest detailed_projects
          else add_missing rest (detailed_projects ++ [project])
      end
  end.

Definition timed_out (detail_page : nat -> detail_src) (projects : list dict)
  : bool :=
  existsb (fun i => (deadline_ms projects <? finish_ms (detail_page i))%N)
    (seq 0 (length projects)).

(** The fan-out over the candidates of a page and what it leaves in
    [detailed_projects]; [None] when an exception reaches the outer handler. *)
Definition fan_out (detail_page : nat -> detail_src) (projects : list dict)
  : option (list dict) :=
  if timed_out detail_page projects
  then add_missing
         (at_deadline detail_page (deadline_ms projects) 0 projects) []
  else Some (collect (run_tasks detail_page 0 projects) []).

Definition scrape_page (src : page_src) (page : nat) (st : Base.state)
  : Base.page_result * Base.state :=
  let st := Base.request page st in
  match list_page src with
  | ListRaises => (Base.Returned [], st)
  | ListNothing => (Base.Returned [], st)
  | ListHtml project_containers =>
      let projects := extract_project_links U project_containers in
      match fan_out (detail_page src) projects with
      | None => (Base.Returned [], st)
      | Some detailed_projects =>
          (Base.Returned detailed_projects,
           Base.save_results (writable src) detailed_projects st)
      end
  end.

(** [scrape] over a site that answers page [k] as [site k]. *)
Definition scrape (site : nat -> page_src) (max_pages : Z) (final_writable : bool)
  (fuel : nat) (st0 : Base.state) :=
  Base.scrape (fun page st => scrape_page (site page) page st) max_pages
    final_writable fuel st0.

(** *** [scrape_list_page] and [scrape_detail_page]

    The two methods the class keeps beside [scrape_page]: a list fetch that
    is retried, and a detail fetch that merges into a new record.
    [max_retries] is the field of the configuration object. *)

(** [if attempt < max_retries - 1] *)
Definition may_retry (max_retries : Z) (attempt : nat) : bool :=
  (Z.of_nat attempt <? max_retries - 1)%Z.

(** The body of [for attempt in range(max_retries)], over the attempts still
    to make: the list returned, and the attempts and sleeps in order. A
    result that is no success or has no HTML returns the empty list on the
    last attempt; an exception on the last attempt leaves the loop by its
    end. *)
Fixpoint list_attempts (net : nat -> list_attempt) (max_retries : Z)
  (todo : list nat) (log : list list_event) : list dict * list list_event :=
  match todo with
  | [] => ([], log)
  | attempt :: rest =>
      let log := log ++ [ListAttempt attempt] in
      match net attempt with
      | AttemptHtml project_containers =>
          (extract_project_links U project_containers, log)
      | AttemptRaises =>
          if may_retry max_retries attempt
          then list_attempts net max_retries rest (log ++ [ListSleep])
          else list_attempts net max_retries rest log
      | AttemptFailed | AttemptNoHtml =>
          if may_retry max_retries attempt
          then list_attempts net max_retries rest (log ++ [ListSleep])
          else ([], log)
      end
  end.

Definition scrape_list_page (net : nat -> list_attempt) (max_retries : Z)
  : list dict * list list_event :=
  list_attempts net max_retries (seq 0 (Z.to_nat max_retries)) [].

(** [scrape_detail_page]: [None] when an exception escapes (the method has
    no handler: a candidate without [url] or [title], a fetch that raises, a
    result that is [None] and has no [success] to read), [Some None] when the
    method returns [None], [Some (Some merged)] when it returns the merged
    record [{**project, **details}]. *)
Definition scrape_detail_page (fetched : detail_crawl) (project : dict)
  : option (option dict) :=
  _ ← project !! "url";
  _ ← project !! "title";
  match fetched with
  | DetailRaises => None
  | DetailNothing => None
  | DetailResult false _ => Some None
  | DetailResult true None => Some None
  | DetailResult true (Some soup) =>
      let details := extract_project_details U soup in
      let merged := dict_update project details in
      if negb (Py.truthy (default Py.VNone (merged !! "title")))
         || negb (Py.truthy (default Py.VNone (merged !! "url")))
      then Some None
      else Some (Some merged)
  end.

End Page.

End Yuanjisong.

(** * Vocabulary of the statements *)

(** ** Predicates and readings *)

Definition nonspace (c : N) : bool := negb (Py.isspace c).

(** What [clean_url] makes of the first token. *)
Definition cleaned (base tok : str) : str :=
  let url := Py.replace (Py.u ">") [] (Py.replace (Py.u "</") [] tok) in
  if Py.contains (Py.u "javascript:") url then []
  else if Py.startswith url (Py.u "http") then url
  else base ++ url.

(** A record that has both fields discovery requires. *)
Definition has_title_url (p : dict) : Prop :=
  is_Some (p !! "title") /\ is_Some (p !! "url").

Definition has_url (p : dict) : Prop := is_Some (p !! "url").

(** The lines of a list page on which the heading pattern matches. *)
Definition heading_lines (U : Py.Unicode) (lines : list str) : list str :=
  List.filter
    (fun raw => bool_decide (is_Some (Re.search U Sxsapi.heading_re (Py.strip raw))))
    lines.

(** What one block of the yuanjisong list page contributes to the output. *)
Definition emitted (U : Py.Unicode) (c : Yuanjisong.container) : option dict :=
  match Yuanjisong.project_of U c with
  | Some project =>
      if Yuanjisong.has_required project then Some project else None
  | None => None
  end.

(** The numbers of the capturing groups of a pattern. *)
Fixpoint group_ids (r : Re.re) : list nat :=
  match r with
  | Re.Seq r1 r2 => group_ids r1 ++ group_ids r2
  | Re.Alt r1 r2 => group_ids r1 ++ group_ids r2
  | Re.Group i r1 => i :: group_ids r1
  | Re.NonCapture r1 => group_ids r1
  | _ => []
  end.

(** The rule of a field of the sxsapi extractor finds something in the
    markdown; no key other than the seven fields has a rule. *)
Definition sxsapi_rule_matches (U : Py.Unicode) (markdown : str) (key : string)
  : bool :=
  if decide (key = "title")
  then bool_decide (is_Some (Re.search U Sxsapi.title_re markdown))
  else if decide (key = "price")
  then bool_decide (is_Some (Re.search U Sxsapi.price_re markdown))
  else if decide (key = "duration")
  then bool_decide (is_Some (Re.search U Sxsapi.duration_re markdown))
  else if decide (key = "deadline")
  then bool_decide (is_Some (Re.search U Sxsapi.deadline_re markdown))
  else if decide (key = "description")
  then negb (bool_decide
               (Sxsapi.collect_description (Py.split_char 10 markdown) false []
                = []))
  else if decide (key = "skills")
  then bool_decide (is_Some (Re.search U Sxsapi.skills_re markdown))
  else if decide (key = "cooperation")
  then bool_decide (is_Some (Re.search U Sxsapi.coop_re markdown))
  else false.

(** The field a row of the yuanjisong detail page is read into: the first
    label of the chain that its label text contains. *)
Definition row_field (r : Yuanjisong.row) : option string :=
  match Yuanjisong.label_text r, Yuanjisong.value_text r with
  | Some l, Some _ =>
      let label := Py.rstrip_chars (Py.u "：") (Py.strip l) in
      if Py.contains (Py.u "合作方式") label then Some "cooperation_type"
      else if Py.contains (Py.u "预估日薪") label then Some "daily_salary"
      else if Py.contains (Py.u "预估总价") label then Some "total_price"
      else if Py.contains (Py.u "预估工时") label then Some "duration"
      else if Py.contains (Py.u "所在区域") label then Some "location"
      else None
  | _, _ => None
  end.

(** The fields the rows of a detail page are read into. *)
Definition row_keys : list string :=
  ["cooperation_type"; "daily_salary"; "total_price"; "duration"; "location"].

Definition credit_keys : list string :=
  ["employer_projects"; "employer_reviews"; "employer_complaints"].

(** The rule of a field of the yuanjisong extractor finds something in the
    page. *)
Definition yuanjisong_rule_matches (soup : Yuanjisong.detail_soup) (key : string)
  : bool :=
  bool_decide (key = "title") && bool_decide (is_Some (Yuanjisong.h2_text soup))
  || bool_decide (key = "description")
     && bool_decide (is_Some (Yuanjisong.mobmid_text soup))
  || bool_decide (key ∈ credit_keys)
     && (3 <=? length (Yuanjisong.credit_list soup))%nat
  || existsb (fun r => bool_decide (row_field r = Some key))
       (Yuanjisong.basic_info_rows soup).

(** Readings of the event log of the request helper. *)
Definition gets (evs : list Base.event) : list nat :=
  omap (fun e => match e with Base.EvGet k => Some k | _ => None end) evs.

Definition sleeps (evs : list Base.event) : list N :=
  omap (fun e => match e with Base.EvSleep n => Some n | _ => None end) evs.

Definition errors (evs : list Base.event) : list str :=
  omap (fun e => match e with Base.EvError e => Some e | _ => None end) evs.

Definition failed (o : Base.outcome) : bool :=
  match o with
  | Base.Ok200 _ => false
  | _ => true
  end.

(** The session is used as the helper means to: a request goes out on an open
    session only, a session is opened only when there is none, and the report
    of a transport error is followed at once by closing the session. *)
Fixpoint session_discipline (open : bool) (evs : list Base.event) : bool :=
  match evs with
  | [] => true
  | Base.EvInit :: rest => negb open && session_discipline true rest
  | Base.EvGet _ :: rest => open && session_discipline open rest
  | Base.EvError _ :: Base.EvClose :: rest =>
      open && session_discipline false rest
  | Base.EvError _ :: _ => false
  | Base.EvClose :: rest => open && session_discipline false rest
  | _ :: rest => session_discipline open rest
  end.

(** The same client with [pre] in front of its log. *)
Definition relog (pre : list Base.event) (c : Base.client) : Base.client :=
  {| Base.session := Base.session c; Base.events := pre ++ Base.events c |}.

(** The events a call adds to the log. *)
Definition added (net : nat -> Base.outcome) (c : Base.client) : list Base.event :=
  drop (length (Base.events c)) (Base.events (snd (Base._make_request net c))).

(** ** Sample pages, sites and networks *)

(** A block whose job link holds a blank [<b>]. *)
Definition blank_title_block : Yuanjisong.container := {|
  Yuanjisong.anchors :=
    [ {| Yuanjisong.href := Some (Py.u "/job/1");
         Yuanjisong.b_text := Some (Py.u " ");
         Yuanjisong.span_text := None |} ];
  Yuanjisong.desc_text := None;
  Yuanjisong.duration_text := None;
  Yuanjisong.price_text := None;
  Yuanjisong.applicants_text := None;
|}.

(** A detail page on which no query finds anything. *)
Definition bare_soup : Yuanjisong.detail_soup := {|
  Yuanjisong.h2_text := None;
  Yuanjisong.basic_info_rows := [];
  Yuanjisong.mobmid_text := None;
  Yuanjisong.credit_list := [];
|}.

(** A list page with one heading, and a site whose detail pages hold no text
    any field rule matches. *)
Definition one_heading : str :=
  Py.u "## [ Build a widget ](https://sxsapi.com/post/1) ￥ 100".

Definition widget : dict :=
  <["title" := Py.VStr (Py.u "Build a widget")]>
    (<["url" := Py.VStr (Py.u "https://sxsapi.com/post/1")]>
       (<["price" := Py.VStr (Py.u "100")]> ∅)).

Definition silent_details : Sxsapi.page_src := {|
  Sxsapi.list_page := Sxsapi.CrawlMarkdown one_heading;
  Sxsapi.detail_page := fun _ => Sxsapi.CrawlMarkdown (Py.u "hello");
  Sxsapi.writable := true;
|}.

(** A site of three list pages: one project on each of the first two, none on
    the third. *)
Definition three_pages (page : nat) : Sxsapi.page_src :=
  match page with
  | 1%nat =>
      {| Sxsapi.list_page :=
           Sxsapi.CrawlMarkdown
             (Py.u "## [ First ](https://sxsapi.com/post/1) ￥ 100");
         Sxsapi.detail_page :=
           fun _ => Sxsapi.CrawlMarkdown (Py.u "工期：5天");
         Sxsapi.writable := true |}
  | 2%nat =>
      {| Sxsapi.list_page :=
           Sxsapi.CrawlMarkdown
             (Py.u "## [ Second ](https://sxsapi.com/post/2) ￥ 200");
         Sxsapi.detail_page :=
           fun _ => Sxsapi.CrawlMarkdown (Py.u "工期：7天");
         Sxsapi.writable := true |}
  | _ =>
      {| Sxsapi.list_page := Sxsapi.CrawlMarkdown (Py.u "no more projects");
         Sxsapi.detail_page := fun _ => Sxsapi.CrawlNothing;
         Sxsapi.writable := true |}
  end.

Definition first_job : dict :=
  <["title" := Py.VStr (Py.u "First")]>
    (<["url" := Py.VStr (Py.u "https://sxsapi.com/post/1")]>
       (<["price" := Py.VStr (Py.u "100")]>
          (<["duration" := Py.VStr (Py.u "5天")]> ∅))).

Definition second_job : dict :=
  <["title" := Py.VStr (Py.u "Second")]>
    (<["url" := Py.VStr (Py.u "https://sxsapi.com/post/2")]>
       (<["price" := Py.VStr (Py.u "200")]>
          (<["duration" := Py.VStr (Py.u "7天")]> ∅))).

Definition scrape_three_pages (page : nat) (st : Base.state)
  : Base.page_result * Base.state :=
  Sxsapi.scrape_page Py.ascii_unicode (three_pages page) page st.

(** A block of the list page that links to job 1 under the given title. *)
Definition job_block (title : string) : Yuanjisong.container := {|
  Yuanjisong.anchors :=
    [ {| Yuanjisong.href := Some (Py.u "/job/1");
         Yuanjisong.b_text := Some (Py.u title);
         Yuanjisong.span_text := None |} ];
  Yuanjisong.desc_text := None;
  Yuanjisong.duration_text := None;
  Yuanjisong.price_text := None;
  Yuanjisong.applicants_text := None;
|}.

Definition job_record (title : string) : dict :=
  <["title" := Py.VStr (Py.u title)]>
    (<["url" := Py.VStr (Py.u "https://www.yuanjisong.com/job/1")]> ∅).

(** A detail page with a heading and nothing else. *)
Definition titled_soup : Yuanjisong.detail_soup := {|
  Yuanjisong.h2_text := Some (Py.u "full title");
  Yuanjisong.basic_info_rows := [];
  Yuanjisong.mobmid_text := None;
  Yuanjisong.credit_list := [];
|}.

(** Two blocks with the same link. The task of the first is over after two
    seconds, the task of the second after twenty-six, past the deadline of
    twenty seconds for two candidates. *)
Definition twin_tasks (i : nat) : Yuanjisong.detail_src :=
  match i with
  | O => {| Yuanjisong.fetched := Yuanjisong.DetailResult true (Some titled_soup);
            Yuanjisong.arun_ms := 1000;
            Yuanjisong.finish_ms := 2000 |}
  | _ => {| Yuanjisong.fetched := Yuanjisong.DetailNothing;
            Yuanjisong.arun_ms := 25000;
            Yuanjisong.finish_ms := 26000 |}
  end.

Definition twin_page : Yuanjisong.page_src := {|
  Yuanjisong.list_page := Yuanjisong.ListHtml [job_block "a"; job_block "b"];
  Yuanjisong.detail_page := twin_tasks;
  Yuanjisong.writable := true;
|}.

(** Two networks that fail every attempt, with different last errors. *)
Definition always_refused (k : nat) : Base.outcome :=
  Base.TransportError (Py.u "connection refused").

Definition always_reset (k : nat) : Base.outcome :=
  Base.TransportError (Py.u "connection reset").

Definition fresh_client : Base.client :=
  {| Base.session := false; Base.events := [] |}.

(** ** Readings of the regular expressions *)

(** The texts a pattern can match, whatever the matcher prefers; [$] takes
    no text. *)
Fixpoint lang (U : Py.Unicode) (r : Re.re) (t : str) : Prop :=
  match r with
  | Re.Str lit => t = lit
  | Re.Chr k => exists c, t = [c] /\ Re.cls_matches U k c = true
  | Re.Rep k lo hi _ =>
      (lo <= length t)%nat
      /\ (forall h, hi = Some h -> (length t <= h)%nat)
      /\ Forall (fun c => Re.cls_matches U k c = true) t
  | Re.Seq r1 r2 => exists t1 t2, t = t1 ++ t2 /\ lang U r1 t1 /\ lang U r2 t2
  | Re.Alt r1 r2 => lang U r1 t \/ lang U r2 t
  | Re.Group _ r1 => lang U r1 t
  | Re.NonCapture r1 => lang U r1 t
  | Re.Eol => t = []
  end.

(** [t] is a text the body of a group numbered [i] can match. *)
Fixpoint captured (U : Py.Unicode) (r : Re.re) (i : nat) (t : str) : Prop :=
  match r with
  | Re.Seq r1 r2 => captured U r1 i t \/ captured U r2 i t
  | Re.Alt r1 r2 => captured U r1 i t \/ captured U r2 i t
  | Re.Group j r1 => (i = j /\ lang U r1 t) \/ captured U r1 i t
  | Re.NonCapture r1 => captured U r1 i t
  | _ => False
  end.

(** Every match of the pattern gives group [i] a text. *)
Fixpoint always_captures (r : Re.re) (i : nat) : bool :=
  match r with
  | Re.Seq r1 r2 => always_captures r1 i || always_captures r2 i
  | Re.Alt r1 r2 => always_captures r1 i && always_captures r2 i
  | Re.Group j r1 => Nat.eqb i j || always_captures r1 i
  | Re.NonCapture r1 => always_captures r1 i
  | _ => false
  end.

Definition is_digit (U : Py.Unicode) (c : N) : Prop := is_Some (Py.decimal U c).

(** A date as the deadline patterns read it: dddd-dd-dd. *)
Definition is_date (U : Py.Unicode) (t : str) : Prop :=
  exists y m d,
    t = y ++ Py.u "-" ++ m ++ Py.u "-" ++ d
    /\ length y = 4%nat /\ length m = 2%nat /\ length d = 2%nat
    /\ Forall (is_digit U) (y ++ m ++ d).

(** A duration as the duration patterns read it: digits and the day sign, or
    the words for a duration to be agreed. *)
Definition is_duration (U : Py.Unicode) (t : str) : Prop :=
  t = Py.u "商议工期"
  \/ exists ds, ds <> [] /\ Forall (is_digit U) ds /\ t = ds ++ Py.u "天".

(** A budget as the price patterns read it. *)
Definition is_budget (U : Py.Unicode) (t : str) : Prop :=
  t <> [] /\ Forall (fun c => Re.cls_matches U Sxsapi.budget_chars c = true) t.

(** No decimal digit of the tables is a whitespace character. *)
Definition digits_are_not_space (U : Py.Unicode) : Prop :=
  forall c, is_Some (Py.decimal U c) -> Py.isspace c = false.

(** ** Readings of the sxsapi list page *)

(** The line is passed over by the scan: it is blank or holds a navigation
    word. *)
Definition skipped (U : Py.Unicode) (raw : str) : bool :=
  let line := Py.strip raw in
  bool_decide (line = [])
  || existsb (fun x => Py.contains x (Py.lower U line)) Sxsapi.nav_words.

(** The record a line of the list page starts, when it is a heading that is
    not passed over. *)
Definition started (U : Py.Unicode) (raw : str) : option dict :=
  if skipped U raw then None
  else
    match Re.search U Sxsapi.heading_re (Py.strip raw) with
    | Some caps =>
        url ← Sxsapi.clean_url (Re.group 2 caps);
        Some (<["title" := Py.VStr (Py.strip (Re.group 1 caps))]>
                (<["url" := Py.VStr url]>
                   (<["price" := Py.VStr (Py.strip (Re.group 3 caps))]> ∅)))
    | None => None
    end.

(** [p] is the record [q] of a heading, with at most a duration and a
    deadline added. *)
Definition extends_heading (p q : dict) : Prop :=
  p !! "title" = q !! "title" /\ p !! "url" = q !! "url"
  /\ p !! "price" = q !! "price"
  /\ dom p ⊆ dom q ∪ {["duration"; "deadline"]}.

(** A record of the list page whose fields are as the patterns read them. *)
Definition well_formed_listing (U : Py.Unicode) (p : dict) : Prop :=
  (exists t, p !! "title" = Some (Py.VStr t) /\ (93%N ∉ t))
  /\ (exists u, p !! "url" = Some (Py.VStr u)
                /\ (u = [] \/ Py.startswith u (Py.u "http") = true))
  /\ (exists b, p !! "price" = Some (Py.VStr b)
                /\ Forall (fun c => Re.cls_matches U Sxsapi.budget_chars c = true) b
                /\ (digits_are_not_space U -> b <> []))
  /\ (forall v, p !! "duration" = Some v ->
                exists t, v = Py.VStr t /\ is_duration U t)
  /\ (forall v, p !! "deadline" = Some v ->
                exists t, v = Py.VStr t /\ is_date U t)
  /\ dom p ⊆ {["title"; "url"; "price"; "duration"; "deadline"]}.

(** ** Readings of [clean_url] *)

(** A cleaned URL that is not empty: it starts with http and holds no
    whitespace, no [>] and no javascript scheme. *)
Definition clean_shape (r : str) : Prop :=
  Py.startswith r (Py.u "http") = true
  /\ Forall (fun c => Py.isspace c = false) r
  /\ (62%N ∉ r)
  /\ Py.contains (Py.u "javascript:") r = false.

(** What the two site prefixes have in common. *)
Definition site_prefix (base : str) : Prop :=
  Forall (fun c => Py.isspace c = false) base
  /\ (62%N ∉ base)
  /\ (forall t, Py.contains (Py.u "javascript:") (base ++ t)
                = Py.contains (Py.u "javascript:") t)
  /\ (forall t, Py.startswith (base ++ t) (Py.u "http") = true).

(** ** Readings of the request log, continued *)

(** The sessions a log opens and closes. *)
Definition inits (evs : list Base.event) : nat :=
  length (List.filter (fun e => bool_decide (e = Base.EvInit)) evs).

Definition closes (evs : list Base.event) : nat :=
  length (List.filter (fun e => bool_decide (e = Base.EvClose)) evs).

(** The number of sessions a client holds. *)
Definition held (c : Base.client) : nat := if Base.session c then 1 else 0.

(** ** Readings of a sxsapi page *)

(** The detail page answered to a candidate holds text from which no field
    is read: the candidate is left out of the result of the page. *)
Definition left_out (U : Py.Unicode) (response : Sxsapi.crawl) : bool :=
  match response with
  | Sxsapi.CrawlMarkdown markdown =>
      negb (bool_decide (markdown = []))
      && bool_decide (Sxsapi.extract_project_details U markdown = ∅)
  | _ => false
  end.

(** The candidates of a page that are not left out, in order; [i] is the
    number of the first one. *)
Fixpoint kept (U : Py.Unicode) (detail_page : nat -> Sxsapi.crawl) (i : nat)
  (projects : list dict) : list dict :=
  match projects with
  | [] => []
  | p :: rest =>
      (if left_out U (detail_page i) then [] else [p])
      ++ kept U detail_page (S i) rest
  end.

(** [r] is the candidate [p] with fields added or replaced; its link is the
    candidate's. *)
Definition enriches (r p : dict) : Prop :=
  dom p ⊆ dom r /\ r !! "url" = p !! "url".

(** ** Readings of the yuanjisong detail page, continued *)

(** The row is read as a number. *)
Definition numeric_row (r : Yuanjisong.row) : bool :=
  bool_decide (row_field r = Some "daily_salary")
  || bool_decide (row_field r = Some "total_price")
  || bool_decide (row_field r = Some "duration").

(** The row is read as a number and the digits of its value do not make one:
    [int] raises. *)
Definition unreadable_row (U : Py.Unicode) (r : Yuanjisong.row) : Prop :=
  numeric_row r = true
  /\ exists v, Yuanjisong.value_text r = Some v
               /\ Yuanjisong.digits_int U (Py.strip v) = None.

(** A detail page whose only row gives a salary without a digit. *)
Definition negotiable_salary : Yuanjisong.detail_soup := {|
  Yuanjisong.h2_text := Some (Py.u "full title");
  Yuanjisong.basic_info_rows :=
    [ {| Yuanjisong.label_text := Some (Py.u "预估日薪：");
         Yuanjisong.value_text := Some (Py.u "面议") |} ];
  Yuanjisong.mobmid_text := None;
  Yuanjisong.credit_list := [];
|}.

(** ** Readings of the yuanjisong fan-out *)

(** The links of a list of records. *)
Definition urls (records : list dict) : list (option Py.value) :=
  map (fun d => d !! "url") records.

(** The candidate at position [i] as it stands when the wait is given up
    after [deadline]: updated by its task when the task was over, else as
    discovery left it. *)
Definition as_it_stands (U : Py.Unicode) (detail_page : nat -> Yuanjisong.detail_src)
  (deadline : N) (i : nat) (p : dict) : dict :=
  if (Yuanjisong.finish_ms (detail_page i) <=? deadline)%N
  then default p (Yuanjisong._scrape_detail_page U (detail_page i) p)
  else p.

(** ** Readings of enrichment *)

(** The extraction result a yuanjisong detail task merges into its
    candidate: that of the page when the fetch gave one within its 30 seconds,
    else nothing. *)
Definition merged_details (U : Py.Unicode) (d : Yuanjisong.detail_src) : dict :=
  if (30000 <? Yuanjisong.arun_ms d)%N then ∅
  else
    match Yuanjisong.fetched d with
    | Yuanjisong.DetailResult true (Some soup) =>
        Yuanjisong.extract_project_details U soup
    | _ => ∅
    end.

(** The extraction result the sxsapi loop has in hand for a candidate. *)
Definition sxsapi_details (U : Py.Unicode) (response : Sxsapi.crawl) : dict :=
  match response with
  | Sxsapi.CrawlMarkdown markdown =>
      if bool_decide (markdown = []) then ∅
      else Sxsapi.extract_project_details U markdown
  | _ => ∅
  end.

(** The record discovery makes of the heading of the second sample page. *)
Definition second_listing : dict :=
  <["title" := Py.VStr (Py.u "Second")]>
    (<["url" := Py.VStr (Py.u "https://sxsapi.com/post/2")]>
       (<["price" := Py.VStr (Py.u "200")]> ∅)).

(** The site of three list pages again, with a first page whose one project
    has a detail page no field rule matches. *)
Definition left_out_site (page : nat) : Sxsapi.page_src :=
  match page with
  | 1%nat => silent_details
  | _ => three_pages page
  end.

(** ** Readings of the pagination loop *)

(** The pages from [page] on return the lists [pages], none of them empty,
    one after the other, and take the state from [st] to [st']. *)
Fixpoint returned_in_turn
  (scrape_page : nat -> Base.state -> Base.page_result * Base.state)
  (page : nat) (st : Base.state) (pages : list (list dict)) (st' : Base.state)
  : Prop :=
  match pages with
  | [] => st' = st
  | l :: rest =>
      l <> []
      /\ exists st1,
           scrape_page page st = (Base.Returned l, st1)
           /\ returned_in_turn scrape_page (S page) st1 rest st'
  end.

(** * Properties *)

(** ** Sanity of the string primitives *)

Example utf8_literals :
  Py.u "描述：" = [25551; 36848; 65306]%N /\ Py.u "￥" = [65509]%N
  /\ Py.u "a b" = [97; 32; 98]%N.
Proof. repeat split; reflexivity. Qed.

Example split_examples :
  Py.split_ws (Py.u "  a  b ") = [Py.u "a"; Py.u "b"]
  /\ Py.split_char 10 [] = [[]]
  /\ Py.replace (Py.u "</") [] (Py.u "a</b</</c") = Py.u "abc"
  /\ Py.split_once (Py.u "ab") (Py.u "xxabyyab") = Some (Py.u "xx", Py.u "yyab").
Proof. repeat split; reflexivity. Qed.

Example int_examples :
  Py.int Py.ascii_unicode (Py.u " 12 ") = Some 12%Z
  /\ Py.int Py.ascii_unicode (Py.u "1_000") = Some 1000%Z
  /\ Py.int Py.ascii_unicode (Py.u "-5") = Some (-5)%Z
  /\ Py.int Py.ascii_unicode (Py.u "1__0") = None
  /\ Py.int Py.ascii_unicode [] = None.
Proof. repeat split; reflexivity. Qed.

(** ** [clean_url] *)

Lemma tokens_head_cur (s cur : str) :
  cur <> [] ->
  head (Py.tokens cur s) = Some (rev cur ++ Py.take_while nonspace s).
Proof.
  revert cur. induction s as [|c s IH]; intros cur Hcur; simpl.
  - destruct cur; [congruence|]. simpl. by rewrite app_nil_r.
  - unfold nonspace at 1. destruct (Py.isspace c); simpl.
    + destruct cur; [congruence|]. simpl. by rewrite app_nil_r.
    + rewrite IH by discriminate. simpl. by rewrite <- app_assoc.
Qed.

Lemma tokens_head (s : str) :
  head (Py.split_ws s) =
  match Py.drop_while Py.isspace s with
  | [] => None
  | rest => Some (Py.take_while nonspace rest)
  end.
Proof.
  unfold Py.split_ws. induction s as [|c s IH]; simpl; [done|].
  destruct (Py.isspace c) eqn:Hc; [exact IH|].
  rewrite tokens_head_cur by discriminate. simpl.
  unfold nonspace at 2. by rewrite Hc.
Qed.

Lemma drop_while_all (s : str) :
  Forall (fun c => Py.isspace c = true) s -> Py.drop_while Py.isspace s = [].
Proof. induction 1 as [|c s Hc _ IH]; simpl; [done|]. by rewrite Hc. Qed.

Lemma drop_while_some (s : str) :
  Exists (fun c => Py.isspace c = false) s ->
  exists c rest, Py.drop_while Py.isspace s = c :: rest /\ Py.isspace c = false.
Proof.
  induction 1 as [c s Hc|c s _ IH]; simpl.
  - rewrite Hc. eauto.
  - destruct (Py.isspace c) eqn:Hc; eauto.
Qed.

(** The first token of a string that has a character other than whitespace. *)
Lemma first_token (s : str) :
  Exists (fun c => Py.isspace c = false) s ->
  exists tok, head (Py.split_ws s) = Some tok /\ tok <> [].
Proof.
  intros H. destruct (drop_while_some s H) as (c & rest & Hd & Hc).
  rewrite tokens_head, Hd. eexists. split; [done|].
  simpl. unfold nonspace at 1. by rewrite Hc.
Qed.

Lemma clean_url_for_spec (base url : str) :
  (Exists (fun c => Py.isspace c = false) url ->
   exists tok, head (Py.split_ws url) = Some tok /\ tok <> []
               /\ clean_url_for base url = Some (cleaned base tok))
  /\ (Forall (fun c => Py.isspace c = true) url -> clean_url_for base url = None).
Proof.
  split.
  - intros H. destruct (first_token url H) as (tok & Htok & Hne).
    exists tok. repeat split; [done..|].
    unfold clean_url_for, cleaned. rewrite Htok. simpl.
    destruct (Py.contains _ _); [done|]. by destruct (Py.startswith _ _).
  - intros H. unfold clean_url_for.
    by rewrite tokens_head, (drop_while_all url H).
Qed.

(** C10. [clean_url] is partial exactly at the empty boundary, in both
    scrapers. On a string that has a character other than whitespace it
    returns normally, and the result is read off the first
    whitespace-separated token with the markup leftovers removed: the empty
    string for a [javascript:] link, the token prefixed with the site when it
    does not start with [http], the token itself otherwise. On the empty string
    and on a string of whitespace only, [url.split()[0]] raises
    [IndexError]. *)
Theorem clean_url_partial_at_empty (url : str) :
  (Exists (fun c => Py.isspace c = false) url ->
   exists tok,
     head (Py.split_ws url) = Some tok /\ tok <> []
     /\ let t := Py.replace (Py.u ">") [] (Py.replace (Py.u "</") [] tok) in
        (Py.contains (Py.u "javascript:") t = true ->
         Sxsapi.clean_url url = Some []
         /\ Yuanjisong.clean_url url = Some [])
        /\ (Py.contains (Py.u "javascript:") t = false ->
            Py.startswith t (Py.u "http") = false ->
            Sxsapi.clean_url url = Some (Sxsapi.base_url ++ t)
            /\ Yuanjisong.clean_url url = Some (Yuanjisong.base_url ++ t))
        /\ (Py.contains (Py.u "javascript:") t = false ->
            Py.startswith t (Py.u "http") = true ->
            Sxsapi.clean_url url = Some t
            /\ Yuanjisong.clean_url url = Some t))
  /\ (Forall (fun c => Py.isspace c = true) url ->
      Sxsapi.clean_url url = None /\ Yuanjisong.clean_url url = None).
Proof.
  split.
  - intros H.
    destruct (proj1 (clean_url_for_spec Sxsapi.base_url url) H) as (tok & Ht & Hne & Hs).
    destruct (proj1 (clean_url_for_spec Yuanjisong.base_url url) H) as (tok' & Ht' & _ & Hy).
    rewrite Ht in Ht'. injection Ht' as <-.
    exists tok. split; [done|]. split; [done|].
    unfold Sxsapi.clean_url, Yuanjisong.clean_url. rewrite Hs, Hy.
    unfold cleaned. cbv zeta.
    repeat split; intros; by repeat
      match goal with
      | E : _ = _ |- _ => rewrite E
      end.
  - intros H. split; by apply clean_url_for_spec.
Qed.

Lemma clean_url_partial_at_empty_witness :
  (exists tok,
     head (Py.split_ws (Py.u " /post/1 x")) = Some tok /\ tok <> []
     /\ let t := Py.replace (Py.u ">") [] (Py.replace (Py.u "</") [] tok) in
        (Py.contains (Py.u "javascript:") t = true ->
         Sxsapi.clean_url (Py.u " /post/1 x") = Some []
         /\ Yuanjisong.clean_url (Py.u " /post/1 x") = Some [])
        /\ (Py.contains (Py.u "javascript:") t = false ->
            Py.startswith t (Py.u "http") = false ->
            Sxsapi.clean_url (Py.u " /post/1 x") = Some (Sxsapi.base_url ++ t)
            /\ Yuanjisong.clean_url (Py.u " /post/1 x")
               = Some (Yuanjisong.base_url ++ t))
        /\ (Py.contains (Py.u "javascript:") t = false ->
            Py.startswith t (Py.u "http") = true ->
            Sxsapi.clean_url (Py.u " /post/1 x") = Some t
            /\ Yuanjisong.clean_url (Py.u " /post/1 x") = Some t))
  /\ (Sxsapi.clean_url [] = None /\ Yuanjisong.clean_url [] = None).
Proof.
  split.
  - apply (proj1 (clean_url_partial_at_empty (Py.u " /post/1 x"))).
    apply Exists_cons_tl, Exists_cons_hd. reflexivity.
  - apply (proj2 (clean_url_partial_at_empty [])). constructor.
Defined.

Example clean_url_examples :
  Sxsapi.clean_url (Py.u " /post/1 x") = Some (Py.u "https://sxsapi.com/post/1")
  /\ Yuanjisong.clean_url (Py.u "https://www.yuanjisong.com/</job/7>")
     = Some (Py.u "https://www.yuanjisong.com/job/7")
  /\ Sxsapi.clean_url (Py.u "javascript:void(0)") = Some []
  /\ Yuanjisong.clean_url (Py.u "  ") = None.
Proof. repeat split; reflexivity. Qed.

(** [clean_url] returns the empty string or an absolute [http] URL. *)
Lemma clean_url_result (url r : str) :
  (Sxsapi.clean_url url = Some r \/ Yuanjisong.clean_url url = Some r) ->
  r = [] \/ Py.startswith r (Py.u "http") = true.
Proof.
  unfold Sxsapi.clean_url, Yuanjisong.clean_url, clean_url_for.
  destruct (head (Py.split_ws url)) as [tok|]; [|by intros [|]].
  cbv zeta. destruct (Py.contains _ _); [intros [[= <-]|[= <-]]; by left|].
  destruct (Py.startswith _ (Py.u "http")) eqn:Hs; simpl;
    intros [[= <-]|[= <-]]; by right.
Qed.

(** ** The matcher: what a successful match hands to its continuation *)

Lemma rep_sound {A} (U : Py.Unicode) (k : Re.cls) (greedy : bool) (s : str) :
  forall (lo : nat) (hi : option nat) (cont : str -> option A) (x : A),
    Re.rep U k greedy lo hi s cont = Some x ->
    exists rest, rest `suffix_of` s /\ cont rest = Some x.
Proof.
  induction s as [|c s IH]; intros lo hi cont x.
  - simpl. destruct lo; [|by destruct greedy].
    destruct greedy.
    + intros H. exists []. by split.
    + destruct (cont []) eqn:He; [|done]. intros [= <-]. exists []. by split.
  - cbn [Re.rep].
    set (more := if Re.cls_matches U k c && negb (bool_decide (hi = Some 0%nat))
                 then Re.rep U k greedy (pred lo) (pred <$> hi) s cont
                 else None).
    assert (Hmore : more = Some x ->
                    exists rest, rest `suffix_of` (c :: s) /\ cont rest = Some x).
    { unfold more. destruct (_ && _); [|done]. intros H.
      apply IH in H as (rest & Hs & Hc). exists rest. split; [|done].
      by apply suffix_cons_r. }
    assert (Hstop : match lo with O => cont (c :: s) | S _ => None end = Some x ->
                    exists rest, rest `suffix_of` (c :: s) /\ cont rest = Some x).
    { destruct lo; [|done]. intros H. by exists (c :: s). }
    destruct greedy.
    + destruct more; [intros [= <-]; by apply Hmore|apply Hstop].
    + destruct (match lo with O => _ | S _ => _ end);
        [intros [= <-]; by apply Hstop|apply Hmore].
Qed.

Lemma m_sound {A} (U : Py.Unicode) (r : Re.re) :
  forall (s : str) (caps : Re.captures)
         (cont : str -> Re.captures -> option A) (x : A),
    Re.m U r s caps cont = Some x ->
    exists rest new,
      rest `suffix_of` s
      /\ Forall (fun ic => ic.1 ∈ group_ids r) new
      /\ cont rest (new ++ caps) = Some x.
Proof.
  induction r as [lit|k|k lo hi greedy|r1 IH1 r2 IH2|r1 IH1 r2 IH2|i r1 IH1|r1 IH1|];
    intros s caps cont x; cbn [Re.m group_ids].
  - destruct (Py.startswith s lit); [|done]. intros H.
    exists (drop (length lit) s), []. split; [apply suffix_drop|]. by split.
  - destruct s as [|c s]; [done|]. destruct (Re.cls_matches U k c); [|done].
    intros H. exists s, []. split; [by apply suffix_cons_r|]. by split.
  - intros H. apply rep_sound in H as (rest & Hs & H). by exists rest, [].
  - intros H. apply IH1 in H as (rest1 & new1 & Hs1 & Hn1 & H).
    apply IH2 in H as (rest2 & new2 & Hs2 & Hn2 & H).
    exists rest2, (new2 ++ new1). split; [by etrans|]. split.
    + apply Forall_app. split; eapply Forall_impl; eauto; intros [? ?] ?;
        simpl in *; set_solver.
    + by rewrite <- app_assoc.
  - destruct (Re.m U r1 s caps cont) as [y|] eqn:H1.
    + intros [= <-]. apply IH1 in H1 as (rest & new & Hs & Hn & H).
      exists rest, new. split; [done|]. split; [|done].
      eapply Forall_impl; eauto. intros [? ?] ?; simpl in *; set_solver.
    + intros H. apply IH2 in H as (rest & new & Hs & Hn & H).
      exists rest, new. split; [done|]. split; [|done].
      eapply Forall_impl; eauto. intros [? ?] ?; simpl in *; set_solver.
  - intros H. apply IH1 in H as (rest & new & Hs & Hn & H).
    exists rest, ((i, take (length s - length rest) s) :: new).
    split; [done|]. split; [|done]. constructor; [simpl; set_solver|].
    eapply Forall_impl; eauto. intros [? ?] ?; simpl in *; set_solver.
  - apply IH1.
  - destruct s as [|c [|d s]]; try done.
    + intros H. by exists [], [].
    + destruct (c =? 10)%N; [|done]. intros H. by exists [c], [].
Qed.

Lemma m_seq_sound {A} (U : Py.Unicode) (r1 r2 : Re.re) (s : str)
  (caps : Re.captures) (cont : str -> Re.captures -> option A) (x : A) :
  Re.m U (r1 +++ r2) s caps cont = Some x ->
  exists rest new,
    rest `suffix_of` s
    /\ Forall (fun ic => ic.1 ∈ group_ids r1) new
    /\ Re.m U r2 rest (new ++ caps) cont = Some x.
Proof. cbn [Re.m]. apply m_sound. Qed.

Lemma search_sound (U : Py.Unicode) (r : Re.re) (s : str) (caps : Re.captures) :
  Re.search U r s = Some caps ->
  exists start, start `suffix_of` s
                /\ Re.m U r start [] (fun _ caps => Some caps) = Some caps.
Proof.
  induction s as [|c s IH]; cbn [Re.search].
  - destruct (Re.m U r [] [] _) eqn:H; [|done]. intros [= <-]. by exists [].
  - destruct (Re.m U r (c :: s) [] _) eqn:H.
    + intros [= <-]. by exists (c :: s).
    + intros Hs. apply IH in Hs as (start & Hsuf & Hm). exists start.
      split; [by apply suffix_cons_r|done].
Qed.

Lemma group_skip (i : nat) (new : Re.captures) (text : str) (caps : Re.captures) :
  Forall (fun ic => ic.1 <> i) new ->
  Re.group i (new ++ (i, text) :: caps) = text.
Proof.
  induction new as [|[j t] new IH]; intros H; simpl.
  - by rewrite Nat.eqb_refl.
  - apply Forall_cons in H as [Hj H]. simpl in Hj.
    destruct (Nat.eqb_spec i j); [congruence|]. by apply IH.
Qed.

Lemma m_group_lit_sound {A} (U : Py.Unicode) (i : nat) (lit : str)
  (g tail : Re.re) (s : str) (caps : Re.captures)
  (cont : str -> Re.captures -> option A) (x : A) :
  Re.m U (Re.Group i (Re.Str lit +++ g) +++ tail) s caps cont = Some x ->
  Py.startswith s lit = true
  /\ exists rest new,
       rest `suffix_of` drop (length lit) s
       /\ Re.m U tail rest ((i, take (length s - length rest) s) :: new ++ caps) cont
          = Some x.
Proof.
  cbn [Re.m]. destruct (Py.startswith s lit); [|done]. intros H.
  split; [done|]. apply m_sound in H as (rest & new & Hs & _ & H). eauto.
Qed.

(** The text the heading pattern captures as the link starts with [h]. *)
Lemma heading_url_starts (U : Py.Unicode) (line : str) (caps : Re.captures) :
  Re.search U Sxsapi.heading_re line = Some caps ->
  exists rest, Re.group 2 caps = 104%N :: rest.
Proof.
  intros H. apply search_sound in H as (start & _ & H).
  unfold Sxsapi.heading_re in H.
  do 9 (apply m_seq_sound in H as (? & ? & _ & _ & H)).
  apply m_group_lit_sound in H as (Hhttp & rest & new & Hsuf & H).
  apply m_sound in H as (rest' & new' & _ & Hids & H).
  injection H as <-.
  rewrite group_skip.
  - assert (Hu : Py.u "http" = [104; 116; 116; 112]%N) by reflexivity.
    rewrite Hu in Hhttp, Hsuf. clear Hu.
    match type of Hhttp with
    | Py.startswith ?text _ = true => destruct text as [|c s]
    end; [done|].
    cbn [Py.startswith] in Hhttp. apply andb_true_iff in Hhttp as [Hc _].
    apply N.eqb_eq in Hc as <-.
    apply suffix_length in Hsuf. rewrite length_drop in Hsuf.
    cbn [length] in Hsuf.
    destruct (length (104%N :: s) - length rest)%nat eqn:Hn;
      [cbn [length] in Hn; lia|].
    simpl. eauto.
  - eapply Forall_impl; [exact Hids|]. intros [j t] Hj. simpl in *.
    intros ->. revert Hj. vm_compute. intros Hj.
    repeat (apply elem_of_cons in Hj as [Hj|Hj]; [done|]).
    by apply elem_of_nil in Hj.
Qed.

(** ** The functions return *)

Lemma clean_url_for_total (base url : str) :
  Exists (fun c => Py.isspace c = false) url ->
  is_Some (clean_url_for base url).
Proof.
  intros H.
  destruct (proj1 (clean_url_for_spec base url) H) as (tok & _ & _ & Ht). eauto.
Qed.

(** [clean_url] does not raise on the link of a heading. *)
Lemma clean_url_heading (U : Py.Unicode) (line : str) (caps : Re.captures) :
  Re.search U Sxsapi.heading_re line = Some caps ->
  is_Some (Sxsapi.clean_url (Re.group 2 caps)).
Proof.
  intros H. apply heading_url_starts in H as (rest & ->).
  apply clean_url_for_total. by apply Exists_cons_hd.
Qed.

Lemma scan_lines_total (U : Py.Unicode) (lines : list str) :
  forall projects cur, is_Some (Sxsapi.scan_lines U lines projects cur).
Proof.
  induction lines as [|raw rest IH]; intros projects cur; [by eexists|].
  cbn [Sxsapi.scan_lines].
  match goal with
  | |- context [if ?b then Sxsapi.scan_lines U rest projects cur else _] =>
      destruct b
  end; [apply IH|].
  destruct (Re.search U Sxsapi.heading_re (Py.strip raw)) as [caps|] eqn:Hh.
  - destruct (clean_url_heading U _ _ Hh) as [url ->]. apply IH.
  - destruct (Re.search U Sxsapi.list_duration_re (Py.strip raw));
      [destruct (dict_truthy cur); apply IH|].
    destruct (Re.search U Sxsapi.list_deadline_re (Py.strip raw));
      [destruct (dict_truthy cur); apply IH|apply IH].
Qed.

(** Discovery on markdown returns for every page. *)
Lemma sxsapi_discovery_total (U : Py.Unicode) (markdown : str) :
  is_Some (Sxsapi.extract_project_links U markdown).
Proof. apply scan_lines_total. Qed.

(** A string that contains [sub] contains the first character of [sub]. *)
Lemma contains_first (sub s : str) (c : N) :
  head sub = Some c -> Py.contains sub s = true -> In c s.
Proof.
  destruct sub as [|c' sub]; [done|]. intros [= ->].
  induction s as [|d s IH]; simpl; [done|].
  intros H. apply orb_true_iff in H as [H|H]; [|by right; apply IH].
  apply andb_true_iff in H as [H _]. apply N.eqb_eq in H. by left.
Qed.

Lemma clean_url_href (part : str) (c : N) (a : Yuanjisong.anchor) :
  head part = Some c -> Py.isspace c = false ->
  Yuanjisong.href_has part a = true ->
  is_Some (Yuanjisong.clean_url (default [] (Yuanjisong.href a))).
Proof.
  intros Hc Hsp. unfold Yuanjisong.href_has.
  destruct (Yuanjisong.href a) as [x|]; [|done]. simpl.
  intros H. apply andb_true_iff in H as [_ H].
  apply clean_url_for_total, List.Exists_exists. exists c. split; [|done].
  by apply (contains_first part).
Qed.

Lemma find_anchor_has (part : str) (c : Yuanjisong.container) (a : Yuanjisong.anchor) :
  Yuanjisong.find_anchor part c = Some a -> Yuanjisong.href_has part a = true.
Proof. unfold Yuanjisong.find_anchor. intros H. by apply find_some in H as [_ ?]. Qed.

(** No block of the list page makes [clean_url] raise: the links it is
    called on contain a path. *)
Lemma project_of_total (U : Py.Unicode) (c : Yuanjisong.container) :
  is_Some (Yuanjisong.project_of U c).
Proof.
  unfold Yuanjisong.project_of.
  destruct (Yuanjisong.find_anchor (Py.u "/job/") c) as [a|] eqn:Ha.
  - apply find_anchor_has in Ha.
    destruct (clean_url_href (Py.u "/job/") 47%N a eq_refl eq_refl Ha) as [url ->].
    simpl.
    destruct (Yuanjisong.find_anchor (Py.u "/employer/") c) as [e|] eqn:He;
      [|by eexists].
    apply find_anchor_has in He.
    destruct (clean_url_href (Py.u "/employer/") 47%N e eq_refl eq_refl He) as [eurl ->].
    by eexists.
  - simpl.
    destruct (Yuanjisong.find_anchor (Py.u "/employer/") c) as [e|] eqn:He;
      [|by eexists].
    apply find_anchor_has in He.
    destruct (clean_url_href (Py.u "/employer/") 47%N e eq_refl eq_refl He) as [eurl ->].
    by eexists.
Qed.

(** ** Discovery *)

Lemma dict_truthy_true (d : dict) : dict_truthy d = true <-> d <> ∅.
Proof.
  unfold dict_truthy. rewrite negb_true_iff, bool_decide_eq_false. done.
Qed.

Lemma dict_truthy_false (d : dict) : dict_truthy d = false <-> d = ∅.
Proof.
  unfold dict_truthy. rewrite negb_false_iff, bool_decide_eq_true. done.
Qed.

Lemma dict_truthy_insert (k : string) (v : Py.value) (d : dict) :
  dict_truthy (<[k := v]> d) = true.
Proof. apply dict_truthy_true, insert_non_empty. Qed.

Lemma has_title_url_insert (k : string) (v : Py.value) (p : dict) :
  has_title_url p -> has_title_url (<[k := v]> p).
Proof.
  intros [Ht Hu]. split; rewrite lookup_insert_is_Some;
    destruct (decide (k = "title")), (decide (k = "url")); auto.
Qed.

Lemma length_flush (projects : list dict) (cur : dict) :
  length (Sxsapi.flush projects cur)
  = (length projects + if dict_truthy cur then 1 else 0)%nat.
Proof.
  unfold Sxsapi.flush. destruct (dict_truthy cur); [|lia].
  rewrite length_app. simpl. lia.
Qed.

Lemma Forall_flush (projects : list dict) (cur : dict) :
  Forall has_title_url projects ->
  (cur = ∅ \/ has_title_url cur) ->
  Forall has_title_url (Sxsapi.flush projects cur).
Proof.
  intros Hp Hc. unfold Sxsapi.flush.
  destruct (dict_truthy cur) eqn:Ht; [|done].
  apply Forall_app. split; [done|]. constructor; [|done].
  destruct Hc as [->|]; [|done]. by apply dict_truthy_true in Ht.
Qed.

(** The invariant of the line scan: the records already emitted and the one
    being filled have both fields, and each emitted record stems from a
    heading line. *)
Lemma scan_lines_inv (U : Py.Unicode) (lines : list str) :
  forall (projects : list dict) (cur : dict) (ps : list dict),
    Forall has_title_url projects ->
    (cur = ∅ \/ has_title_url cur) ->
    Sxsapi.scan_lines U lines projects cur = Some ps ->
    Forall has_title_url ps
    /\ (length ps <= length (Sxsapi.flush projects cur)
                     + length (heading_lines U lines))%nat.
Proof.
  induction lines as [|raw rest IH]; intros projects cur ps Hp Hc.
  - simpl. intros [= <-]. split; [by apply Forall_flush|lia].
  - cbn [Sxsapi.scan_lines].
    assert (Hcons : heading_lines U (raw :: rest)
                    = if bool_decide (is_Some (Re.search U Sxsapi.heading_re (Py.strip raw)))
                      then raw :: heading_lines U rest else heading_lines U rest)
      by reflexivity.
    rewrite Hcons. clear Hcons.
    match goal with
    | |- context [if ?b then Sxsapi.scan_lines U rest projects cur else _] =>
        destruct b
    end.
    { intros H. destruct (IH _ _ _ Hp Hc H) as [? ?]. split; [done|].
      destruct (bool_decide _); simpl; lia. }
    destruct (Re.search U Sxsapi.heading_re (Py.strip raw)) as [caps|] eqn:Hh.
    + rewrite bool_decide_eq_true_2 by eauto.
      destruct (Sxsapi.clean_url _) as [url|]; [|done].
      intros H. apply IH in H as [H1 H2].
      * split; [done|]. rewrite length_flush, dict_truthy_insert in H2.
        simpl. lia.
      * by apply Forall_flush.
      * right. split; by simplify_map_eq.
    + rewrite bool_decide_eq_false_2 by (intros [? ?]; done).
      assert (Hins : forall k v,
        dict_truthy cur = true ->
        Sxsapi.scan_lines U rest projects (<[k := v]> cur) = Some ps ->
        Forall has_title_url ps
        /\ (length ps <= length (Sxsapi.flush projects cur)
                         + length (heading_lines U rest))%nat).
      { intros k v Ht H. apply IH in H as [H1 H2]; [|done|].
        - split; [done|].
          rewrite length_flush, dict_truthy_insert in H2.
          rewrite length_flush, Ht. lia.
        - right. apply has_title_url_insert.
          destruct Hc as [->|]; [|done]. by apply dict_truthy_true in Ht. }
      destruct (Re.search U Sxsapi.list_duration_re (Py.strip raw)).
      { destruct (dict_truthy cur) eqn:Ht; [by apply Hins|by apply IH]. }
      destruct (Re.search U Sxsapi.list_deadline_re (Py.strip raw)).
      { destruct (dict_truthy cur) eqn:Ht; [by apply Hins|by apply IH]. }
      by apply IH.
Qed.

Lemma scan_containers_spec (U : Py.Unicode) (cs : list Yuanjisong.container) :
  forall projects,
    Yuanjisong.scan_containers U cs projects = projects ++ omap (emitted U) cs.
Proof.
  induction cs as [|c cs IH]; intros projects.
  - simpl. by rewrite app_nil_r.
  - cbn [Yuanjisong.scan_containers omap list_omap].
    change (emitted U c) with
      (match Yuanjisong.project_of U c with
       | Some p => if Yuanjisong.has_required p then Some p else None
       | None => None
       end).
    destruct (Yuanjisong.project_of U c) as [p|]; [|apply IH].
    destruct (Yuanjisong.has_required p); [|apply IH].
    rewrite IH. by rewrite <- app_assoc.
Qed.

Lemma emitted_has_title_url (U : Py.Unicode) (c : Yuanjisong.container) (p : dict) :
  emitted U c = Some p -> has_title_url p.
Proof.
  unfold emitted. destruct (Yuanjisong.project_of U c) as [q|]; [|done].
  destruct (Yuanjisong.has_required q) eqn:Hr; [|done].
  intros [= <-]. unfold Yuanjisong.has_required in Hr.
  apply andb_true_iff in Hr as [Hu Ht].
  apply bool_decide_eq_true in Hu, Ht. done.
Qed.

Lemma length_omap_le {A B} (f : A -> option B) (l : list A) :
  (length (omap f l) <= length l)%nat.
Proof.
  induction l as [|a l IH]; [simpl; lia|].
  change (omap f (a :: l))
    with (match f a with Some y => y :: omap f l | None => omap f l end).
  destruct (f a); simpl; lia.
Qed.

(** C7 (as the code has it). Every element of the discovery output has both
    a [title] and a [url] field, so a block or heading that lacks either is
    left out, and the output is no longer than the number of blocks
    (yuanjisong) or of heading lines (sxsapi) scanned; discovery returns for
    every page. The fields are required to be present, not to be non-empty. *)
Theorem discovery_emits_title_and_url (U : Py.Unicode) :
  (forall project_containers,
     let projects := Yuanjisong.extract_project_links U project_containers in
     projects = omap (emitted U) project_containers
     /\ Forall has_title_url projects
     /\ (length projects <= length project_containers)%nat)
  /\ (forall markdown,
        exists projects,
          Sxsapi.extract_project_links U markdown = Some projects
          /\ Forall has_title_url projects
          /\ (length projects
              <= length (heading_lines U (Py.split_char 10 markdown)))%nat).
Proof.
  split.
  - intros cs projects. subst projects. unfold Yuanjisong.extract_project_links.
    rewrite scan_containers_spec. simpl. repeat split.
    + apply list.Forall_forall. intros p Hp.
      apply list_elem_of_omap in Hp as (c & _ & Hc).
      by apply emitted_has_title_url in Hc.
    + apply length_omap_le.
  - intros markdown.
    destruct (sxsapi_discovery_total U markdown) as [ps H]. exists ps.
    split; [done|]. unfold Sxsapi.extract_project_links in H.
    apply scan_lines_inv in H as [H1 H2]; [|done|by left].
    split; [done|]. unfold Sxsapi.flush in H2.
    rewrite (proj2 (dict_truthy_false ∅) eq_refl) in H2. simpl in H2. lia.
Qed.

(** C7 as stated fails: a job link whose [<b>] is blank, or a heading whose
    bracket holds only a space, is emitted with the empty string as title. *)
Lemma discovery_emits_empty_title :
  Yuanjisong.extract_project_links Py.ascii_unicode [blank_title_block]
  = [ <["title" := Py.VStr []]>
        (<["url" := Py.VStr (Py.u "https://www.yuanjisong.com/job/1")]> ∅) ]
  /\ Sxsapi.extract_project_links Py.ascii_unicode
       (Py.u "## [ ](https://sxsapi.com/post/7) ￥ 5")
     = Some [ <["title" := Py.VStr []]>
                (<["url" := Py.VStr (Py.u "https://sxsapi.com/post/7")]>
                   (<["price" := Py.VStr (Py.u "5")]> ∅)) ].
Proof. split; vm_compute; reflexivity. Qed.

(** ** Field extraction *)

Lemma lookup_set_if (k key : string) (v : option str) (d : dict) :
  (k = key -> v = None) -> Sxsapi.set_if k v d !! key = d !! key.
Proof.
  intros H. unfold Sxsapi.set_if. destruct v as [s|]; [|done].
  apply lookup_insert_ne. intros ->. by specialize (H eq_refl).
Qed.

Lemma rule_None (U : Py.Unicode) (r : Re.re) (b : bool) (markdown : str) :
  bool_decide (is_Some (Re.search U r markdown)) = false ->
  Sxsapi.rule U r b markdown = None.
Proof.
  intros H. apply bool_decide_eq_false in H. unfold Sxsapi.rule.
  destruct (Re.search U r markdown); [|done]. destruct H. eauto.
Qed.

Lemma sxsapi_unmatched_absent (U : Py.Unicode) (markdown : str) (key : string) :
  sxsapi_rule_matches U markdown key = false ->
  Sxsapi.extract_project_details U markdown !! key = None.
Proof.
  intros H. unfold Sxsapi.extract_project_details.
  rewrite !lookup_set_if; [apply lookup_empty|..];
    intros <-; unfold sxsapi_rule_matches in H; simpl in H;
    try (by apply rule_None).
  unfold Sxsapi.description_of. apply negb_false_iff in H. by rewrite H.
Qed.

Lemma read_row_other (U : Py.Unicode) (r : Yuanjisong.row) (d d' : dict)
  (key : string) :
  Yuanjisong.read_row U d r = Some d' ->
  row_field r <> Some key ->
  d' !! key = d !! key.
Proof.
  unfold Yuanjisong.read_row, row_field.
  destruct (Yuanjisong.label_text r) as [l|]; [|by intros [= <-]].
  destruct (Yuanjisong.value_text r) as [v|]; [|by intros [= <-]].
  cbv zeta.
  repeat (destruct (Py.contains _ _);
          [ intros H Hk;
            try (destruct (Yuanjisong.digits_int U _); simpl in H; [|done]);
            injection H as <-; apply lookup_insert_ne; congruence | ]).
  by intros [= <-].
Qed.

Lemma read_rows_other (U : Py.Unicode) (rows : list Yuanjisong.row) (key : string) :
  forall d d',
    Yuanjisong.read_rows U rows d = Some d' ->
    existsb (fun r => bool_decide (row_field r = Some key)) rows = false ->
    d' !! key = d !! key.
Proof.
  induction rows as [|r rows IH]; intros d d'; simpl.
  - by intros [= <-].
  - destruct (Yuanjisong.read_row U d r) as [d1|] eqn:Hr; simpl; [|done].
    intros H Hex. apply orb_false_iff in Hex as [Hk Hex].
    apply bool_decide_eq_false in Hk.
    rewrite (IH _ _ H Hex). by apply (read_row_other U r).
Qed.

Lemma read_credit_other (U : Py.Unicode) (credit : list str) (d : dict)
  (key : string) :
  (key ∈ credit_keys -> (length credit < 3)%nat) ->
  Yuanjisong.read_credit U credit d !! key = d !! key.
Proof.
  intros H. unfold Yuanjisong.read_credit.
  destruct credit as [|a [|b [|c rest]]]; try done.
  assert (Hk : key ∉ credit_keys) by (intros Hin; apply H in Hin; simpl in Hin; lia).
  assert (key <> "employer_projects" /\ key <> "employer_reviews"
          /\ key <> "employer_complaints") as (? & ? & ?).
  { unfold credit_keys in Hk. repeat split; intros ->; apply Hk; set_solver. }
  destruct (Py.int U (Py.strip a)), (Py.int U (Py.strip b)),
    (Py.int U (Py.strip c)); by rewrite !lookup_insert_ne.
Qed.

Lemma yuanjisong_unmatched_absent (U : Py.Unicode) (soup : Yuanjisong.detail_soup)
  (key : string) :
  key <> "title" ->
  yuanjisong_rule_matches soup key = false ->
  Yuanjisong.extract_project_details U soup !! key = None.
Proof.
  intros Hne H. unfold Yuanjisong.extract_project_details, Yuanjisong.details_of.
  destruct (Yuanjisong.read_rows U _ _) as [d1|] eqn:Hrows; simpl; [|done].
  unfold yuanjisong_rule_matches in H.
  apply orb_false_iff in H as [H Hrow].
  apply orb_false_iff in H as [H Hcredit].
  apply orb_false_iff in H as [_ Hdesc].
  rewrite read_credit_other.
  - assert (Hd1 : d1 !! key = None).
    { rewrite (read_rows_other U _ key _ _ Hrows Hrow).
      by rewrite lookup_insert_ne. }
    destruct (Yuanjisong.mobmid_text soup) as [t|]; [|done].
    rewrite lookup_insert_ne; [done|]. intros <-. done.
  - intros Hin. rewrite bool_decide_eq_true_2 in Hcredit by done.
    rewrite andb_true_l in Hcredit. apply Nat.leb_gt in Hcredit. lia.
Qed.

Lemma yuanjisong_title_bound (U : Py.Unicode) (soup : Yuanjisong.detail_soup)
  (d : dict) :
  Yuanjisong.details_of U soup = Some d ->
  d !! "title"
  = Some match Yuanjisong.h2_text soup with
         | Some t => Py.VStr (Py.strip t)
         | None => Py.VNone
         end.
Proof.
  unfold Yuanjisong.details_of.
  destruct (Yuanjisong.read_rows U _ _) as [d1|] eqn:Hrows; simpl; [|done].
  intros [= <-]. rewrite read_credit_other.
  - assert (Hd1 : d1 !! "title" = Some match Yuanjisong.h2_text soup with
                                       | Some t => Py.VStr (Py.strip t)
                                       | None => Py.VNone
                                       end).
    { rewrite (read_rows_other U _ "title" _ _ Hrows).
      - apply lookup_insert_eq.
      - clear. induction (Yuanjisong.basic_info_rows soup) as [|r rows IH];
          [done|]. simpl. rewrite IH, orb_false_r.
        apply bool_decide_eq_false. unfold row_field.
        destruct (Yuanjisong.label_text r), (Yuanjisong.value_text r); try done.
        cbv zeta. repeat (destruct (Py.contains _ _); [done|]). done. }
    destruct (Yuanjisong.mobmid_text soup); [|done].
    by rewrite lookup_insert_ne.
  - intros Hin. unfold credit_keys in Hin.
    repeat (apply elem_of_cons in Hin as [Hin|Hin]; [done|]).
    by apply elem_of_nil in Hin.
Qed.

(** ** When the yuanjisong extraction fails *)

Lemma filter_none {A} (p : A -> bool) (l : list A) :
  Forall (fun c => p c = false) l -> List.filter p l = [].
Proof. induction 1 as [|c l Hc _ IH]; simpl; [done|]. by rewrite Hc. Qed.

Lemma digits_int_none (U : Py.Unicode) (text : str) :
  Forall (fun c => Py.isdigit U c = false) text ->
  Yuanjisong.digits_int U text = None.
Proof. intros H. unfold Yuanjisong.digits_int. by rewrite filter_none. Qed.

(** Reading a row raises exactly when the row is read as a number and its
    value gives none; the record read so far plays no part. *)
Lemma read_row_None_iff (U : Py.Unicode) (d : dict) (r : Yuanjisong.row) :
  Yuanjisong.read_row U d r = None <-> unreadable_row U r.
Proof.
  unfold unreadable_row, numeric_row, row_field, Yuanjisong.read_row.
  destruct (Yuanjisong.label_text r) as [l|];
    [|split; [done|by intros [? _]]].
  destruct (Yuanjisong.value_text r) as [v|];
    [|split; [done|by intros [? _]]].
  cbv zeta.
  assert (Hnum : forall key,
            (n ← Yuanjisong.digits_int U (Py.strip v);
             Some (<[key := Py.VInt n]> d)) = None
            <-> true = true
                /\ exists v0, Some v = Some v0
                     /\ Yuanjisong.digits_int U (Py.strip v0) = None).
  { intros key. split.
    - destruct (Yuanjisong.digits_int U (Py.strip v)) eqn:Hd; [done|].
      intros _. split; [done|]. by exists v.
    - intros [_ (v0 & [= <-] & ->)]. done. }
  destruct (Py.contains (Py.u "合作方式") _);
    [split; [done|by intros [? _]]|].
  destruct (Py.contains (Py.u "预估日薪") _); [apply Hnum|].
  destruct (Py.contains (Py.u "预估总价") _); [apply Hnum|].
  destruct (Py.contains (Py.u "预估工时") _); [apply Hnum|].
  destruct (Py.contains (Py.u "所在区域") _);
    split; try done; by intros [? _].
Qed.

Lemma read_rows_None_iff (U : Py.Unicode) (rows : list Yuanjisong.row) :
  forall d,
    Yuanjisong.read_rows U rows d = None
    <-> exists r, r ∈ rows /\ unreadable_row U r.
Proof.
  induction rows as [|r rows IH]; intros d; cbn [Yuanjisong.read_rows].
  - split; [done|]. intros (r & Hr & _). by apply elem_of_nil in Hr.
  - destruct (Yuanjisong.read_row U d r) as [d1|] eqn:Hr; simpl.
    + rewrite IH. split.
      * intros (r0 & Hin & Hu). exists r0. split; [by apply list_elem_of_further|done].
      * intros (r0 & Hin & Hu). apply elem_of_cons in Hin as [->|Hin].
        -- apply (read_row_None_iff U d) in Hu. congruence.
        -- by exists r0.
    + split; [|done]. intros _. exists r. split; [apply list_elem_of_here|].
      by apply (read_row_None_iff U d).
Qed.

(** The extraction as a whole fails exactly when one of its rows does. *)
Lemma details_of_None_iff (U : Py.Unicode) (soup : Yuanjisong.detail_soup) :
  Yuanjisong.details_of U soup = None
  <-> exists r, r ∈ Yuanjisong.basic_info_rows soup /\ unreadable_row U r.
Proof.
  unfold Yuanjisong.details_of.
  match goal with
  | |- context [Yuanjisong.read_rows U ?rows ?d0] =>
      pose proof (read_rows_None_iff U rows d0) as Hiff;
      destruct (Yuanjisong.read_rows U rows d0) as [d|]
  end; simpl.
  - split; [done|]. intros Hex. by apply Hiff in Hex.
  - split; [|done]. intros _. by apply Hiff.
Qed.

(** C5 (as the code has it). A field whose rule matches nothing is absent from
    the record the extractor returns, for every field of the sxsapi extractor
    and for every field of the yuanjisong extractor other than [title]. The
    yuanjisong extraction fails exactly when a row read as a number has a
    value whose digits make no number; it then returns the empty record, with
    no [title]; whenever it does not fail it binds [title], to [None] when the
    page has no [h2]. *)
Theorem unmatched_field_is_absent (U : Py.Unicode) :
  (forall markdown key,
     sxsapi_rule_matches U markdown key = false ->
     Sxsapi.extract_project_details U markdown !! key = None)
  /\ (forall soup key,
        key <> "title" ->
        yuanjisong_rule_matches soup key = false ->
        Yuanjisong.extract_project_details U soup !! key = None)
  /\ (forall soup d,
        Yuanjisong.details_of U soup = Some d ->
        Yuanjisong.extract_project_details U soup = d
        /\ d !! "title"
           = Some match Yuanjisong.h2_text soup with
                  | Some t => Py.VStr (Py.strip t)
                  | None => Py.VNone
                  end)
  /\ (forall soup,
        Yuanjisong.details_of U soup = None
        <-> exists r, r ∈ Yuanjisong.basic_info_rows soup /\ unreadable_row U r)
  /\ (forall soup,
        Yuanjisong.details_of U soup = None ->
        Yuanjisong.extract_project_details U soup = ∅)
  /\ (forall soup,
        Yuanjisong.extract_project_details U soup !! "title" = None
        <-> Yuanjisong.details_of U soup = None).
Proof.
  split; [|split; [|split; [|split; [|split]]]].
  - exact (sxsapi_unmatched_absent U).
  - exact (yuanjisong_unmatched_absent U).
  - intros soup d H. split.
    + unfold Yuanjisong.extract_project_details. by rewrite H.
    + by apply (yuanjisong_title_bound U soup).
  - exact (details_of_None_iff U).
  - intros soup H. unfold Yuanjisong.extract_project_details. by rewrite H.
  - intros soup. unfold Yuanjisong.extract_project_details.
    destruct (Yuanjisong.details_of U soup) as [d|] eqn:H; simpl.
    + rewrite (yuanjisong_title_bound U soup d H). done.
    + by rewrite lookup_empty.
Qed.

Lemma unmatched_field_is_absent_witness :
  Sxsapi.extract_project_details Py.ascii_unicode (Py.u "hello") !! "title" = None
  /\ Yuanjisong.extract_project_details Py.ascii_unicode bare_soup !! "description"
     = None.
Proof.
  split.
  - apply (proj1 (unmatched_field_is_absent Py.ascii_unicode)). reflexivity.
  - apply (proj1 (proj2 (unmatched_field_is_absent Py.ascii_unicode)));
      [discriminate|reflexivity].
Defined.

(** C5 as stated fails: on a page with no [h2] the yuanjisong extractor
    binds [title] to [None]. *)
Lemma extractor_binds_null_title :
  yuanjisong_rule_matches bare_soup "title" = false
  /\ Yuanjisong.extract_project_details Py.ascii_unicode bare_soup !! "title"
     = Some Py.VNone.
Proof. split; reflexivity. Qed.

(** A page with a heading and a salary to be agreed: the extraction fails on
    the salary, and the record returned has no field, the title left out with
    the rest. *)
Example unreadable_salary_empties_record :
  unreadable_row Py.ascii_unicode
    {| Yuanjisong.label_text := Some (Py.u "预估日薪：");
       Yuanjisong.value_text := Some (Py.u "面议") |}
  /\ Yuanjisong.details_of Py.ascii_unicode negotiable_salary = None
  /\ Yuanjisong.extract_project_details Py.ascii_unicode negotiable_salary = ∅.
Proof.
  split; [|split]; [|vm_compute; reflexivity..].
  split; [vm_compute; reflexivity|]. eexists. split; [reflexivity|].
  vm_compute. reflexivity.
Qed.

(** ** Enrichment *)

Lemma dict_update_dom (project details : dict) :
  dom project ⊆ dom (dict_update project details).
Proof. unfold dict_update. rewrite dom_union_L. set_solver. Qed.

Lemma dict_update_lookup (project details : dict) (key : string) (v : Py.value) :
  details !! key = Some v -> dict_update project details !! key = Some v.
Proof. intros H. unfold dict_update. by apply lookup_union_Some_l. Qed.

Lemma dict_update_lookup_other (project details : dict) (key : string) :
  details !! key = None -> dict_update project details !! key = project !! key.
Proof. intros H. unfold dict_update. by apply lookup_union_r. Qed.

Lemma sxsapi_enrich_merges (U : Py.Unicode) (response : Sxsapi.crawl)
  (project r : dict) :
  Sxsapi.enrich U response project = Some [r] ->
  dom project ⊆ dom r
  /\ forall markdown,
       response = Sxsapi.CrawlMarkdown markdown -> markdown <> [] ->
       forall key v,
         Sxsapi.extract_project_details U markdown !! key = Some v ->
         r !! key = Some v.
Proof.
  unfold Sxsapi.enrich.
  destruct (project !! "url") as [url|]; [|done].
  destruct response as [| |markdown]; try (intros [= <-]; split; [done|]; by intros).
  destruct (bool_decide (markdown = [])) eqn:He.
  { intros [= <-]. split; [done|]. intros ? [= <-] Hne.
    by apply bool_decide_eq_true in He. }
  destruct (dict_truthy _); [|done].
  intros [= <-]. split; [apply dict_update_dom|].
  intros ? [= <-] _ key v. apply dict_update_lookup.
Qed.

Lemma scrape_detail_merges (U : Py.Unicode) (d : Yuanjisong.detail_src)
  (project r : dict) :
  Yuanjisong._scrape_detail_page U d project = Some r ->
  dom project ⊆ dom r
  /\ forall soup,
       Yuanjisong.fetched d = Yuanjisong.DetailResult true (Some soup) ->
       (Yuanjisong.arun_ms d <= 30000)%N ->
       forall key v,
         Yuanjisong.extract_project_details U soup !! key = Some v ->
         r !! key = Some v.
Proof.
  unfold Yuanjisong._scrape_detail_page.
  destruct (project !! "url") as [url|]; [|done].
  destruct (30000 <? Yuanjisong.arun_ms d)%N eqn:Ht.
  { intros [= <-]. split; [done|]. intros ? _ Hle.
    apply N.ltb_lt in Ht. lia. }
  destruct (Yuanjisong.fetched d) as [| |[] [soup|]];
    try (intros [= <-]; split; [done|]; by intros).
  destruct (dict_truthy _) eqn:Hd.
  - intros [= <-]. split; [apply dict_update_dom|].
    intros ? [= <-] _ key v. apply dict_update_lookup.
  - intros [= <-]. split; [done|]. intros ? [= <-] _ key v.
    apply dict_truthy_false in Hd. rewrite Hd. by rewrite lookup_empty.
Qed.

(** Where enrichment produces a record it is a monotone merge in both
    scrapers: the record kept for a candidate has every key of the candidate,
    and when the detail page was fetched and read it carries the extracted
    value for every key of the extraction result, so detail fields win over
    discovery fields of the same name. *)
Lemma enrichment_is_monotone_merge (U : Py.Unicode) :
  (forall response project r,
     Sxsapi.enrich U response project = Some [r] ->
     dom project ⊆ dom r
     /\ forall markdown,
          response = Sxsapi.CrawlMarkdown markdown -> markdown <> [] ->
          forall key v,
            Sxsapi.extract_project_details U markdown !! key = Some v ->
            r !! key = Some v)
  /\ (forall d project r,
        Yuanjisong._scrape_detail_page U d project = Some r ->
        dom project ⊆ dom r
        /\ forall soup,
             Yuanjisong.fetched d = Yuanjisong.DetailResult true (Some soup) ->
             (Yuanjisong.arun_ms d <= 30000)%N ->
             forall key v,
               Yuanjisong.extract_project_details U soup !! key = Some v ->
               r !! key = Some v).
Proof.
  split.
  - exact (sxsapi_enrich_merges U).
  - exact (scrape_detail_merges U).
Qed.

Lemma enrichment_is_monotone_merge_witness :
  dom widget ⊆ dom (<["duration" := Py.VStr (Py.u "5天")]> widget)
  /\ forall markdown,
       Sxsapi.CrawlMarkdown (Py.u "工期：5天") = Sxsapi.CrawlMarkdown markdown ->
       markdown <> [] ->
       forall key v,
         Sxsapi.extract_project_details Py.ascii_unicode markdown !! key = Some v ->
         (<["duration" := Py.VStr (Py.u "5天")]> widget) !! key = Some v.
Proof.
  apply (proj1 (enrichment_is_monotone_merge Py.ascii_unicode)
           (Sxsapi.CrawlMarkdown (Py.u "工期：5天")) widget).
  vm_compute; reflexivity.
Defined.

(** C1 fails in the sxsapi scraper: a candidate whose detail page is fetched
    but yields no field is not appended to the page's result list. Discovery
    finds one candidate on the list page, the extractor finds nothing in the
    detail markdown, and the page returns (and saves) the empty list. *)
Theorem sxsapi_drops_candidate_without_fields :
  Sxsapi.extract_project_links Py.ascii_unicode one_heading = Some [widget]
  /\ Sxsapi.extract_project_details Py.ascii_unicode (Py.u "hello") = ∅
  /\ Sxsapi.enrich Py.ascii_unicode (Sxsapi.CrawlMarkdown (Py.u "hello")) widget
     = Some []
  /\ Sxsapi.scrape_page Py.ascii_unicode silent_details 1 Base.initial
     = (Base.Returned [],
        {| Base.output_file := Some []; Base.requested := [1%nat] |}).
Proof. repeat split; vm_compute; reflexivity. Qed.

(** The sxsapi loop leaves a candidate out in one case only: its detail page
    was fetched with text in it and no field rule matched the text. *)
Lemma sxsapi_enrich_drops_iff (U : Py.Unicode) (response : Sxsapi.crawl)
  (project : dict) :
  Sxsapi.enrich U response project = Some []
  <-> has_url project
      /\ exists markdown,
           response = Sxsapi.CrawlMarkdown markdown /\ markdown <> []
           /\ Sxsapi.extract_project_details U markdown = ∅.
Proof.
  unfold Sxsapi.enrich, has_url. split.
  - destruct (project !! "url") as [url|]; [|done].
    destruct response as [| |markdown]; [done..|].
    destruct (bool_decide (markdown = [])) eqn:He; [done|].
    destruct (dict_truthy _) eqn:Ht; [done|]. intros _.
    split; [by eexists|]. exists markdown.
    apply bool_decide_eq_false in He. by apply dict_truthy_false in Ht.
  - intros [[url ->] (markdown & -> & Hne & He)].
    rewrite bool_decide_eq_false_2 by done.
    by rewrite (proj2 (dict_truthy_false _) He).
Qed.

Lemma enrich_all_total (U : Py.Unicode) (detail_page : nat -> Sxsapi.crawl)
  (projects : list dict) :
  Forall has_url projects ->
  forall i detailed,
    is_Some (Sxsapi.enrich_all U detail_page i projects detailed).
Proof.
  induction 1 as [|p rest [url Hu] _ IH]; intros i detailed; [by eexists|].
  cbn [Sxsapi.enrich_all]. unfold Sxsapi.enrich. rewrite Hu.
  destruct (detail_page i) as [| |markdown]; try apply IH.
  destruct (bool_decide (markdown = [])); [apply IH|].
  destruct (dict_truthy _); apply IH.
Qed.

Lemma sxsapi_discovered_have_url (U : Py.Unicode) (markdown : str)
  (projects : list dict) :
  Sxsapi.extract_project_links U markdown = Some projects ->
  Forall has_url projects.
Proof.
  intros H. apply scan_lines_inv in H as [H _]; [|done|by left].
  eapply Forall_impl; [exact H|]. by intros p [_ ?].
Qed.

(** The sxsapi page raises only when the fetch of its list page does. *)
Lemma sxsapi_page_raises_only_on_fetch (U : Py.Unicode) (src : Sxsapi.page_src)
  (page : nat) (st st1 : Base.state) :
  Sxsapi.scrape_page U src page st = (Base.Raised, st1) ->
  Sxsapi.list_page src = Sxsapi.CrawlRaises.
Proof.
  unfold Sxsapi.scrape_page.
  destruct (Sxsapi.list_page src) as [| |markdown]; [done..|].
  destruct (bool_decide (markdown = [])); [done|].
  destruct (sxsapi_discovery_total U markdown) as [projects Hp]. rewrite Hp.
  destruct (enrich_all_total U (Sxsapi.detail_page src) projects
              (sxsapi_discovered_have_url U _ _ Hp) 0%nat []) as [d ->].
  done.
Qed.

(** The yuanjisong page never raises: its handler turns every exception into
    the empty list. *)
Lemma yuanjisong_page_returns (U : Py.Unicode) (src : Yuanjisong.page_src)
  (page : nat) (st : Base.state) :
  exists projects st1,
    Yuanjisong.scrape_page U src page st = (Base.Returned projects, st1).
Proof.
  unfold Yuanjisong.scrape_page.
  destruct (Yuanjisong.list_page src); [by eexists _, _..|].
  destruct (Yuanjisong.fan_out U _ _); by eexists _, _.
Qed.

(** ** Pagination and persistence *)

Example three_pages_results :
  scrape_three_pages 1 Base.initial
  = (Base.Returned [first_job],
     {| Base.output_file := Some [first_job]; Base.requested := [1%nat] |})
  /\ scrape_three_pages 2
       {| Base.output_file := Some [first_job]; Base.requested := [1%nat] |}
     = (Base.Returned [second_job],
        {| Base.output_file := Some [second_job];
           Base.requested := [1%nat; 2%nat] |})
  /\ scrape_three_pages 3
       {| Base.output_file := Some [second_job];
          Base.requested := [1%nat; 2%nat] |}
     = (Base.Returned [],
        {| Base.output_file := Some [];
           Base.requested := [1%nat; 2%nat; 3%nat] |}).
Proof. repeat split; vm_compute; reflexivity. Qed.

Lemma scrape_step_nonempty (scrape_page : nat -> Base.state -> Base.page_result * Base.state)
  (max_pages : Z) (s : Base.loop_state) (l : list dict) (st1 : Base.state) :
  scrape_page (Base.page s) (Base.st s) = (Base.Returned l, st1) ->
  l <> [] ->
  Base.scrape_step scrape_page max_pages s
  = if Base.cap_reached max_pages (Base.page s)
    then Base.Stop Base.ReachedMax
           {| Base.page := Base.page s; Base.all_jobs := Base.all_jobs s ++ l;
              Base.calls := Base.calls s ++ [Base.page s]; Base.st := st1 |}
    else Base.Continue
           {| Base.page := S (Base.page s); Base.all_jobs := Base.all_jobs s ++ l;
              Base.calls := Base.calls s ++ [Base.page s]; Base.st := st1 |}.
Proof.
  intros H Hl. unfold Base.scrape_step. rewrite H. by destruct l.
Qed.

Lemma scrape_step_empty (scrape_page : nat -> Base.state -> Base.page_result * Base.state)
  (max_pages : Z) (s : Base.loop_state) (st1 : Base.state) :
  scrape_page (Base.page s) (Base.st s) = (Base.Returned [], st1) ->
  Base.scrape_step scrape_page max_pages s
  = Base.Stop Base.NoProjects
      {| Base.page := Base.page s; Base.all_jobs := Base.all_jobs s;
         Base.calls := Base.calls s ++ [Base.page s]; Base.st := st1 |}.
Proof. intros H. unfold Base.scrape_step. by rewrite H. Qed.

Lemma turns_S (scrape_page : nat -> Base.state -> Base.page_result * Base.state)
  (max_pages : Z) (n : nat) (s : Base.loop_state) :
  Base.turns scrape_page max_pages (S n) s
  = match Base.scrape_step scrape_page max_pages s with
    | Base.Continue s1 => Base.turns scrape_page max_pages n s1
    | Base.Stop why s1 => Base.Stop why s1
    end.
Proof. reflexivity. Qed.

(** The loop of the base class, over any [scrape_page]: with
    [max_pages = 10], when pages 1 and 2 return projects and page 3 returns
    none, the loop calls [scrape_page] for pages 1, 2 and 3 and for no other
    page, and the list returned, which the final save writes to the platform
    file, is the projects of pages 1 and 2. *)
Lemma pagination_stops_at_first_empty_page
  (scrape_page : nat -> Base.state -> Base.page_result * Base.state)
  (st0 st1 st2 st3 : Base.state) (l1 l2 : list dict) (writable : bool)
  (fuel : nat) :
  scrape_page 1%nat st0 = (Base.Returned l1, st1) -> l1 <> [] ->
  scrape_page 2%nat st1 = (Base.Returned l2, st2) -> l2 <> [] ->
  scrape_page 3%nat st2 = (Base.Returned [], st3) ->
  (3 <= fuel)%nat ->
  Base.scrape scrape_page 10 writable fuel st0
  = Some (l1 ++ l2, [1%nat; 2%nat; 3%nat],
          Base.save_results writable (l1 ++ l2) st3).
Proof.
  intros H1 Hl1 H2 Hl2 H3 Hfuel.
  destruct fuel as [|[|[|fuel]]]; try lia.
  unfold Base.scrape, Base.start.
  rewrite turns_S, (scrape_step_nonempty _ _ _ l1 st1) by done.
  change (Base.cap_reached 10 _) with false. cbv iota.
  rewrite turns_S, (scrape_step_nonempty _ _ _ l2 st2) by done.
  change (Base.cap_reached 10 _) with false. cbv iota.
  rewrite turns_S, (scrape_step_empty _ _ _ st3) by done.
  done.
Qed.

Lemma pagination_stops_at_first_empty_page_witness :
  Base.scrape scrape_three_pages 10 true 5 Base.initial
  = Some ([first_job] ++ [second_job], [1%nat; 2%nat; 3%nat],
          Base.save_results true ([first_job] ++ [second_job])
            {| Base.output_file := Some [];
               Base.requested := [1%nat; 2%nat; 3%nat] |}).
Proof.
  apply (pagination_stops_at_first_empty_page scrape_three_pages
           Base.initial
           {| Base.output_file := Some [first_job]; Base.requested := [1%nat] |}
           {| Base.output_file := Some [second_job];
              Base.requested := [1%nat; 2%nat] |}).
  - vm_compute; reflexivity.
  - discriminate.
  - vm_compute; reflexivity.
  - discriminate.
  - vm_compute; reflexivity.
  - lia.
Defined.





(** A cap other than 0 is a bound: the loop is over after at most
    [max_pages] turns (one turn when the cap is negative), so [scrape]
    returns. *)
Lemma turns_stop_within_cap
  (scrape_page : nat -> Base.state -> Base.page_result * Base.state)
  (max_pages : Z) (n : nat) :
  forall s : Base.loop_state,
    max_pages <> 0%Z ->
    (1 <= n)%nat ->
    (max_pages < Z.of_nat (Base.page s) + Z.of_nat n)%Z ->
    exists why s1, Base.turns scrape_page max_pages n s = Base.Stop why s1.
Proof.
  induction n as [|n IH]; intros s Hne Hn Hcap; [lia|].
  rewrite turns_S. unfold Base.scrape_step.
  destruct (scrape_page (Base.page s) (Base.st s)) as [[[|p l]|] st1]; eauto.
  destruct (Base.cap_reached max_pages (Base.page s)) eqn:Hc; eauto.
  unfold Base.cap_reached in Hc.
  apply andb_false_iff in Hc as [Hc|Hc].
  - apply negb_false_iff, Z.eqb_eq in Hc. done.
  - apply Z.leb_gt in Hc. apply IH; [done| |simpl]; lia.
Qed.

Lemma scrape_returns_under_cap
  (scrape_page : nat -> Base.state -> Base.page_result * Base.state)
  (max_pages : Z) (writable : bool) (fuel : nat) (st0 : Base.state) :
  max_pages <> 0%Z ->
  (1 <= fuel)%nat ->
  (max_pages <= Z.of_nat fuel)%Z ->
  is_Some (Base.scrape scrape_page max_pages writable fuel st0).
Proof.
  intros Hne Hfuel Hcap. unfold Base.scrape.
  destruct (turns_stop_within_cap scrape_page max_pages fuel (Base.start st0))
    as (why & s1 & ->); [done..|simpl; lia|]. eauto.
Qed.

Lemma scrape_returns_under_cap_witness :
  is_Some (Base.scrape scrape_three_pages 2 true 2 Base.initial).
Proof. apply scrape_returns_under_cap; [discriminate|lia|lia]. Defined.

(** The projects a run returns are the projects of its pages, in page
    order. *)
Lemma turns_accumulate
  (scrape_page : nat -> Base.state -> Base.page_result * Base.state)
  (max_pages : Z) (n : nat) :
  forall s why s1,
    Base.turns scrape_page max_pages n s = Base.Stop why s1 ->
    exists pages : list (list dict),
      Base.all_jobs s1 = Base.all_jobs s ++ concat pages
      /\ Forall (fun l => l <> []) pages
      /\ (length pages <= n)%nat.
Proof.
  induction n as [|n IH]; intros s why s1; [done|].
  rewrite turns_S. unfold Base.scrape_step.
  destruct (scrape_page (Base.page s) (Base.st s)) as [[[|p l]|] st1].
  - intros [= _ <-]. exists []. simpl. rewrite app_nil_r.
    split; [done|]. split; [done|lia].
  - destruct (Base.cap_reached max_pages (Base.page s)).
    + intros [= _ <-]. exists [p :: l]. simpl. rewrite app_nil_r.
      split; [done|]. split; [by repeat constructor|lia].
    + intros H. apply IH in H as (pages & Hj & Hne & Hl).
      exists ((p :: l) :: pages). simpl in *.
      rewrite Hj, <- app_assoc. split; [done|].
      split; [by constructor|lia].
  - intros [= _ <-]. exists []. simpl. rewrite app_nil_r.
    split; [done|]. split; [done|lia].
Qed.

(** C2 (as the code has it). The save at the end of [scrape_page] overwrites
    the platform file with the list of the page just scraped, not with the
    projects accumulated so far: after a page that returns projects the file
    holds exactly that page's list. The accumulated list is written once, by
    the save that ends [scrape]. *)
Theorem page_save_writes_that_page_only (U : Py.Unicode) :
  (forall src page st projects st1,
     Sxsapi.scrape_page U src page st = (Base.Returned projects, st1) ->
     projects <> [] ->
     st1 = Base.save_results (Sxsapi.writable src) projects (Base.request page st)
     /\ (Sxsapi.writable src = true -> Base.output_file st1 = Some projects))
  /\ (forall src page st projects st1,
        Yuanjisong.scrape_page U src page st = (Base.Returned projects, st1) ->
        projects <> [] ->
        st1 = Base.save_results (Yuanjisong.writable src) projects
                (Base.request page st)
        /\ (Yuanjisong.writable src = true ->
            Base.output_file st1 = Some projects))
  /\ (forall scrape_page max_pages fuel st0 jobs calls st1,
        Base.scrape scrape_page max_pages true fuel st0 = Some (jobs, calls, st1) ->
        Base.output_file st1 = Some jobs).
Proof.
  assert (Hsave : forall w projects st,
            w = true ->
            Base.output_file (Base.save_results w projects st) = Some projects).
  { by intros w projects st ->. }
  split; [|split].
  - intros src page st projects st1 H Hne.
    assert (st1 = Base.save_results (Sxsapi.writable src) projects
                    (Base.request page st)) as ->; [|by auto].
    revert H. unfold Sxsapi.scrape_page.
    destruct (Sxsapi.list_page src) as [| |markdown]; try by intros [= <- <-].
    destruct (bool_decide (markdown = [])); [by intros [= <- <-]|].
    destruct (Sxsapi.extract_project_links U markdown); [|done].
    destruct (Sxsapi.enrich_all U _ _ _ _); [|done]. by intros [= <- <-].
  - intros src page st projects st1 H Hne.
    assert (st1 = Base.save_results (Yuanjisong.writable src) projects
                    (Base.request page st)) as ->; [|by auto].
    revert H. unfold Yuanjisong.scrape_page.
    destruct (Yuanjisong.list_page src) as [| |cs]; try by intros [= <- <-].
    destruct (Yuanjisong.fan_out U _ _); by intros [= <- <-].
  - intros scrape_page max_pages fuel st0 jobs calls st1. unfold Base.scrape.
    destruct (Base.turns _ _ _ _) as [|why s]; [done|]. by intros [= <- <- <-].
Qed.

Lemma page_save_writes_that_page_only_witness :
  {| Base.output_file := Some [second_job]; Base.requested := [1%nat; 2%nat] |}
  = Base.save_results (Sxsapi.writable (three_pages 2)) [second_job]
      (Base.request 2
         {| Base.output_file := Some [first_job]; Base.requested := [1%nat] |})
  /\ (Sxsapi.writable (three_pages 2) = true ->
      Base.output_file
        {| Base.output_file := Some [second_job];
           Base.requested := [1%nat; 2%nat] |}
      = Some [second_job]).
Proof.
  apply (proj1 (page_save_writes_that_page_only Py.ascii_unicode)
           (three_pages 2) 2%nat
           {| Base.output_file := Some [first_job]; Base.requested := [1%nat] |}).
  - vm_compute; reflexivity.
  - discriminate.
Defined.

(** C2 as stated fails: after the first two pages of the site the loop has
    accumulated both projects, and the file holds the second one only. *)
Lemma page_save_is_not_cumulative :
  Base.turns scrape_three_pages 10 2 (Base.start Base.initial)
  = Base.Continue
      {| Base.page := 3;
         Base.all_jobs := [first_job; second_job];
         Base.calls := [1%nat; 2%nat];
         Base.st := {| Base.output_file := Some [second_job];
                       Base.requested := [1%nat; 2%nat] |} |}.
Proof. vm_compute; reflexivity. Qed.

(** Each call of [scrape_page] requests the list page it is called for, and
    no other. *)
Lemma sxsapi_page_requests (U : Py.Unicode) (src : Sxsapi.page_src) (page : nat)
  (st : Base.state) :
  Base.requested (snd (Sxsapi.scrape_page U src page st))
  = Base.requested st ++ [page].
Proof.
  unfold Sxsapi.scrape_page.
  destruct (Sxsapi.list_page src) as [| |markdown]; [done..|].
  destruct (bool_decide (markdown = [])); [done|].
  destruct (Sxsapi.extract_project_links U markdown); [|done].
  destruct (Sxsapi.enrich_all U _ _ _ _); [|done].
  simpl. by destruct (Sxsapi.writable src).
Qed.

Lemma yuanjisong_page_requests (U : Py.Unicode) (src : Yuanjisong.page_src)
  (page : nat) (st : Base.state) :
  Base.requested (snd (Yuanjisong.scrape_page U src page st))
  = Base.requested st ++ [page].
Proof.
  unfold Yuanjisong.scrape_page.
  destruct (Yuanjisong.list_page src); [done..|].
  destruct (Yuanjisong.fan_out U _ _); [|done].
  simpl. by destruct (Yuanjisong.writable src).
Qed.

(** The list pages a run requests are the pages the loop calls
    [scrape_page] for, in order. *)
Lemma turns_requested
  (scrape_page : nat -> Base.state -> Base.page_result * Base.state)
  (max_pages : Z) :
  (forall page st,
     Base.requested (snd (scrape_page page st)) = Base.requested st ++ [page]) ->
  forall n s,
    Base.requested (Base.st s) = Base.calls s ->
    match Base.turns scrape_page max_pages n s with
    | Base.Continue s1 | Base.Stop _ s1 =>
        Base.requested (Base.st s1) = Base.calls s1
    end.
Proof.
  intros Hreq. induction n as [|n IH]; intros s Hs; [done|].
  rewrite turns_S. unfold Base.scrape_step.
  specialize (Hreq (Base.page s) (Base.st s)).
  destruct (scrape_page (Base.page s) (Base.st s)) as [[[|p l]|] st1];
    simpl in Hreq; rewrite Hs in Hreq; try done.
  destruct (Base.cap_reached max_pages (Base.page s)); [done|].
  by apply IH.
Qed.

Lemma scrape_requests_its_calls (U : Py.Unicode) :
  (forall site max_pages writable fuel jobs calls st1,
     Sxsapi.scrape U site max_pages writable fuel Base.initial
     = Some (jobs, calls, st1) ->
     Base.requested st1 = calls)
  /\ (forall site max_pages writable fuel jobs calls st1,
        Yuanjisong.scrape U site max_pages writable fuel Base.initial
        = Some (jobs, calls, st1) ->
        Base.requested st1 = calls).
Proof.
  split; intros site max_pages writable fuel jobs calls st1;
    unfold Sxsapi.scrape, Yuanjisong.scrape, Base.scrape.
  - pose proof (turns_requested
        (fun page st => Sxsapi.scrape_page U (site page) page st) max_pages
        (fun page st => sxsapi_page_requests U (site page) page st)
        fuel (Base.start Base.initial) eq_refl) as H.
    destruct (Base.turns _ _ _ _) as [|why s]; [done|].
    intros [= _ <- <-]. by destruct writable.
  - pose proof (turns_requested
        (fun page st => Yuanjisong.scrape_page U (site page) page st) max_pages
        (fun page st => yuanjisong_page_requests U (site page) page st)
        fuel (Base.start Base.initial) eq_refl) as H.
    destruct (Base.turns _ _ _ _) as [|why s]; [done|].
    intros [= _ <- <-]. by destruct writable.
Qed.

(** ** The fan-out over the detail pages of a yuanjisong page *)

Example twin_blocks_discovered :
  Yuanjisong.extract_project_links Py.ascii_unicode
    [job_block "a"; job_block "b"]
  = [job_record "a"; job_record "b"].
Proof. vm_compute; reflexivity. Qed.

Lemma row_field_keys (r : Yuanjisong.row) (key : string) :
  row_field r = Some key -> key ∈ row_keys.
Proof.
  unfold row_field, row_keys.
  destruct (Yuanjisong.label_text r), (Yuanjisong.value_text r); try done.
  cbv zeta.
  repeat (destruct (Py.contains _ _); [intros [= <-]; set_solver|]). done.
Qed.

(** The extractor of detail pages never produces a [url]. *)
Lemma details_have_no_url (U : Py.Unicode) (soup : Yuanjisong.detail_soup) :
  Yuanjisong.extract_project_details U soup !! "url" = None.
Proof.
  apply yuanjisong_unmatched_absent; [done|].
  unfold yuanjisong_rule_matches. simpl.
  induction (Yuanjisong.basic_info_rows soup) as [|r rows IH]; [done|].
  simpl. rewrite IH, orb_false_r. apply bool_decide_eq_false.
  intros H%row_field_keys. unfold row_keys in H.
  repeat (apply elem_of_cons in H as [H|H]; [done|]). by apply elem_of_nil in H.
Qed.

Lemma scrape_detail_keeps_url (U : Py.Unicode) (d : Yuanjisong.detail_src)
  (project r : dict) :
  Yuanjisong._scrape_detail_page U d project = Some r ->
  r !! "url" = project !! "url".
Proof.
  unfold Yuanjisong._scrape_detail_page.
  destruct (project !! "url") as [url|] eqn:Hu; [|done].
  destruct (30000 <? _)%N; [by intros [= <-]|].
  destruct (Yuanjisong.fetched d) as [| |[] [soup|]]; try by intros [= <-].
  destruct (dict_truthy _); intros [= <-]; [|done].
  rewrite dict_update_lookup_other; [done|apply details_have_no_url].
Qed.

Lemma scrape_detail_total (U : Py.Unicode) (d : Yuanjisong.detail_src)
  (project : dict) :
  has_url project ->
  exists r, Yuanjisong._scrape_detail_page U d project = Some r
            /\ dom project ⊆ dom r.
Proof.
  intros [url Hu].
  destruct (Yuanjisong._scrape_detail_page U d project) as [r|] eqn:Hr.
  - exists r. split; [done|].
    by apply scrape_detail_merges in Hr as [? _].
  - unfold Yuanjisong._scrape_detail_page in Hr. rewrite Hu in Hr.
    destruct (30000 <? _)%N; [done|].
    destruct (Yuanjisong.fetched d) as [| |[] [soup|]]; try done.
    by destruct (dict_truthy _).
Qed.

(** Every candidate discovery emits has a [url]. *)
Lemma discovered_have_url (U : Py.Unicode) (cs : list Yuanjisong.container) :
  Forall has_url (Yuanjisong.extract_project_links U cs).
Proof.
  unfold Yuanjisong.extract_project_links. rewrite scan_containers_spec. simpl.
  apply list.Forall_forall. intros p Hp.
  apply list_elem_of_omap in Hp as (c & _ & Hc).
  by apply emitted_has_title_url in Hc as [_ ?].
Qed.

(** The candidate at position [k] when the wait is given up. *)
Lemma at_deadline_lookup (U : Py.Unicode) (detail_page : nat -> Yuanjisong.detail_src)
  (deadline : N) (projects : list dict) :
  forall (i k : nat) (p : dict),
    projects !! k = Some p ->
    Yuanjisong.at_deadline U detail_page deadline i projects !! k
    = Some (if (Yuanjisong.finish_ms (detail_page (i + k)%nat) <=? deadline)%N
            then default p (Yuanjisong._scrape_detail_page U
                              (detail_page (i + k)%nat) p)
            else p).
Proof.
  induction projects as [|q rest IH]; intros i k p; [done|].
  destruct k as [|k]; simpl.
  - intros [= ->]. by rewrite Nat.add_0_r.
  - intros H. rewrite (IH (S i) k p H).
    by replace (S i + k)%nat with (i + S k)%nat by lia.
Qed.

Lemma at_deadline_length (U : Py.Unicode) (detail_page : nat -> Yuanjisong.detail_src)
  (deadline : N) (projects : list dict) :
  forall i, length (Yuanjisong.at_deadline U detail_page deadline i projects)
            = length projects.
Proof. induction projects as [|q rest IH]; intros i; simpl; [done|]. by rewrite IH. Qed.

Lemma url_in_true (url : Py.value) (detailed : list dict) :
  Forall has_url detailed ->
  Yuanjisong.url_in url detailed = true ->
  exists d, d ∈ detailed /\ d !! "url" = Some url.
Proof.
  intros Hall H. unfold Yuanjisong.url_in in H.
  apply existsb_exists in H as (d & Hin & Hd).
  apply list_elem_of_In in Hin. apply bool_decide_eq_true in Hd.
  exists d. split; [done|].
  rewrite list.Forall_forall in Hall. destruct (Hall d Hin) as [v Hv].
  rewrite Hv in Hd |- *. simpl in Hd. by subst.
Qed.

Lemma url_in_false (url : Py.value) (detailed : list dict) (d : dict) :
  Yuanjisong.url_in url detailed = false ->
  d ∈ detailed -> d !! "url" <> Some url.
Proof.
  intros H Hin Hd. unfold Yuanjisong.url_in in H.
  assert (existsb (fun d => bool_decide (default Py.VNone (d !! "url") = url))
            detailed = true); [|congruence].
  apply existsb_exists. exists d. split; [by apply list_elem_of_In|].
  apply bool_decide_eq_true. by rewrite Hd.
Qed.

(** The handler of the timeout keeps, in order, the first record of each
    [url]. *)
Lemma add_missing_spec (projects : list dict) :
  forall detailed : list dict,
    Forall has_url projects ->
    Forall has_url detailed ->
    exists r,
      Yuanjisong.add_missing projects detailed = Some r
      /\ Forall has_url r
      /\ (forall d, d ∈ detailed -> d ∈ r)
      /\ (forall p, p ∈ projects ->
                    exists d, d ∈ r /\ d !! "url" = p !! "url")
      /\ (forall k p,
            projects !! k = Some p ->
            (forall d, d ∈ detailed -> d !! "url" <> p !! "url") ->
            (forall j q, (j < k)%nat -> projects !! j = Some q ->
                         q !! "url" <> p !! "url") ->
            p ∈ r).
Proof.
  induction projects as [|p rest IH]; intros detailed Hps Hds.
  - exists detailed. simpl. repeat split; try done.
    intros p Hp. by apply elem_of_nil in Hp.
  - apply Forall_cons in Hps as [[url Hu] Hrest]. simpl. rewrite Hu.
    destruct (Yuanjisong.url_in url detailed) eqn:Hin.
    + destruct (IH detailed Hrest Hds) as (r & Hr & Hall & Hsub & Hrep & Hfirst).
      exists r. repeat split; try done.
      * intros q Hq. apply elem_of_cons in Hq as [->|Hq]; [|by apply Hrep].
        destruct (url_in_true url detailed Hds Hin) as (d & Hd & Hdu).
        exists d. split; [by apply Hsub|]. by rewrite Hu.
      * intros [|k] q Hk Hnew Hearlier.
        -- injection Hk as <-.
           destruct (url_in_true url detailed Hds Hin) as (d & Hd & Hdu).
           destruct (Hnew d Hd). by rewrite Hu.
        -- apply (Hfirst k q Hk Hnew). intros j q' Hj Hq'.
           apply (Hearlier (S j) q'); [lia|done].
    + destruct (IH (detailed ++ [p])) as (r & Hr & Hall & Hsub & Hrep & Hfirst);
        [done| |].
      { apply Forall_app. split; [done|]. constructor; [by exists url|done]. }
      exists r. repeat split; try done.
      * intros d Hd. apply Hsub, elem_of_app. by left.
      * intros q Hq. apply elem_of_cons in Hq as [->|Hq]; [|by apply Hrep].
        exists p. split; [|done]. apply Hsub, elem_of_app. right.
        by apply list_elem_of_singleton.
      * intros [|k] q Hk Hnew Hearlier.
        -- injection Hk as <-. apply Hsub, elem_of_app. right.
           by apply list_elem_of_singleton.
        -- apply (Hfirst k q Hk).
           ++ intros d Hd. apply elem_of_app in Hd as [Hd|Hd]; [by apply Hnew|].
              apply list_elem_of_singleton in Hd as ->.
              apply (Hearlier 0%nat p); [lia|done].
           ++ intros j q' Hj Hq'. apply (Hearlier (S j) q'); [lia|done].
Qed.

Lemma timeout_handler_spec (U : Py.Unicode)
  (detail_page : nat -> Yuanjisong.detail_src) (projects : list dict) :
  Forall has_url projects ->
  Yuanjisong.timed_out detail_page projects = true ->
  exists detailed,
    Yuanjisong.fan_out U detail_page projects = Some detailed
    /\ (forall i p, projects !! i = Some p ->
                    exists d, d ∈ detailed /\ d !! "url" = p !! "url")
    /\ (forall i p,
          projects !! i = Some p ->
          (Yuanjisong.deadline_ms projects
           < Yuanjisong.finish_ms (detail_page i))%N ->
          (forall j q, (j < i)%nat -> projects !! j = Some q ->
                       q !! "url" <> p !! "url") ->
          p ∈ detailed).
Proof.
  intros Hurl Hto. unfold Yuanjisong.fan_out. rewrite Hto.
  set (deadline := Yuanjisong.deadline_ms projects).
  set (now := Yuanjisong.at_deadline U detail_page deadline 0 projects).
  assert (Hnow : forall k p, projects !! k = Some p ->
            exists p', now !! k = Some p' /\ p' !! "url" = p !! "url"
              /\ ((deadline < Yuanjisong.finish_ms (detail_page k))%N -> p' = p)).
  { intros k p Hk. eexists. split; [by apply at_deadline_lookup|]. simpl.
    destruct (_ <=? _)%N eqn:Hle.
    - split; [|intros Hlt; apply N.leb_le in Hle; lia].
      destruct (Yuanjisong._scrape_detail_page U (detail_page k) p) as [r|] eqn:Hr;
        [|done]. simpl. by apply scrape_detail_keeps_url in Hr.
    - done. }
  assert (Hback : forall k p', now !! k = Some p' ->
            exists p, projects !! k = Some p /\ p' !! "url" = p !! "url").
  { intros k p' Hk.
    assert (Hlt : (k < length projects)%nat).
    { apply lookup_lt_Some in Hk. unfold now in Hk.
      by rewrite at_deadline_length in Hk. }
    apply lookup_lt_is_Some in Hlt as [p Hp]. exists p. split; [done|].
    destruct (Hnow k p Hp) as (p'' & Hk' & Hu & _). congruence. }
  assert (Hnow_url : Forall has_url now).
  { apply list.Forall_forall. intros p' Hin.
    apply list_elem_of_lookup in Hin as [k Hk].
    destruct (Hback k p' Hk) as (p & Hp & Hu). unfold has_url. rewrite Hu.
    rewrite list.Forall_forall in Hurl. apply Hurl.
    apply list_elem_of_lookup. eauto. }
  destruct (add_missing_spec now [] Hnow_url (List.Forall_nil _))
    as (r & Hr & _ & _ & Hrep & Hfirst).
  exists r. split; [done|]. split.
  - intros i p Hi. destruct (Hnow i p Hi) as (p' & Hi' & Hu & _).
    destruct (Hrep p') as (d & Hd & Hdu); [apply list_elem_of_lookup; eauto|].
    exists d. split; [done|]. congruence.
  - intros i p Hi Hlate Hearlier.
    destruct (Hnow i p Hi) as (p' & Hi' & Hu & Hsame).
    rewrite (Hsame Hlate) in Hi'.
    apply (Hfirst i p Hi').
    + intros d Hd. by apply elem_of_nil in Hd.
    + intros j q' Hj Hq'. destruct (Hback j q' Hq') as (q & Hq & Hqu).
      rewrite Hqu. by apply (Hearlier j q).
Qed.

(** The handler adds nothing but first occurrences: every record it adds is
    a candidate whose [url] no record already in the list and no earlier
    candidate has, so it never makes two records of one [url]. *)
Lemma add_missing_only_first (projects : list dict) :
  forall detailed r : list dict,
    Forall has_url projects ->
    Forall has_url detailed ->
    Yuanjisong.add_missing projects detailed = Some r ->
    exists news,
      r = detailed ++ news
      /\ (NoDup (urls detailed) -> NoDup (urls r))
      /\ (length news <= length projects)%nat
      /\ forall d, d ∈ news ->
           exists k, projects !! k = Some d
             /\ (forall e, e ∈ detailed -> e !! "url" <> d !! "url")
             /\ (forall j q, (j < k)%nat -> projects !! j = Some q ->
                             q !! "url" <> d !! "url").
Proof.
  induction projects as [|p rest IH]; intros detailed r Hps Hds.
  - simpl. intros [= <-]. exists []. rewrite app_nil_r.
    repeat split; try done. intros d Hd. by apply elem_of_nil in Hd.
  - apply Forall_cons in Hps as [[url Hu] Hrest]. simpl. rewrite Hu.
    destruct (Yuanjisong.url_in url detailed) eqn:Hin.
    + intros H. apply IH in H as (news & -> & Hnd & Hlen & Hnews); [|done..].
      exists news. split; [done|]. split; [done|]. split; [lia|].
      intros d Hd. destruct (Hnews d Hd) as (k & Hk & Hold & Hearlier).
      exists (S k). split; [done|]. split; [done|].
      intros [|j] q Hj Hq.
      * injection Hq as <-. rewrite Hu.
        destruct (url_in_true url detailed Hds Hin) as (e & He & Heu).
        rewrite <- Heu. by apply Hold.
      * apply (Hearlier j q); [lia|done].
    + intros H. apply IH in H as (news & -> & Hnd & Hlen & Hnews); [|done|].
      2:{ apply Forall_app. split; [done|]. constructor; [by exists url|done]. }
      exists (p :: news). split; [by rewrite <- app_assoc|].
      split; [|split; [simpl; lia|]].
      * intros Hno. apply Hnd. unfold urls. rewrite map_app. simpl.
        apply NoDup_app. split; [done|]. split; [|apply NoDup_singleton].
        intros u Hu1 Hu2. apply list_elem_of_singleton in Hu2 as ->.
        apply list_elem_of_fmap in Hu1 as (e & Heu & He).
        rewrite Hu in Heu. by apply (url_in_false url detailed e Hin He).
      * intros d Hd. apply elem_of_cons in Hd as [->|Hd].
        -- exists 0%nat. split; [done|]. split; [|intros; lia].
           intros e He. rewrite Hu. by apply (url_in_false url detailed e Hin He).
        -- destruct (Hnews d Hd) as (k & Hk & Hold & Hearlier).
           exists (S k). split; [done|]. split.
           ++ intros e He. apply Hold, elem_of_app. by left.
           ++ intros [|j] q Hj Hq.
              ** injection Hq as <-. apply Hold, elem_of_app. right.
                 by apply list_elem_of_singleton.
              ** apply (Hearlier j q); [lia|done].
Qed.

Lemma as_it_stands_url (U : Py.Unicode) (detail_page : nat -> Yuanjisong.detail_src)
  (deadline : N) (i : nat) (p : dict) :
  as_it_stands U detail_page deadline i p !! "url" = p !! "url".
Proof.
  unfold as_it_stands. destruct (_ <=? _)%N; [|done].
  destruct (Yuanjisong._scrape_detail_page U (detail_page i) p) as [r|] eqn:Hr;
    [|done]. simpl. by apply scrape_detail_keeps_url in Hr.
Qed.

(** The candidates when the wait is given up, position by position. *)
Lemma at_deadline_stands (U : Py.Unicode) (detail_page : nat -> Yuanjisong.detail_src)
  (deadline : N) (projects : list dict) :
  Forall has_url projects ->
  Forall has_url (Yuanjisong.at_deadline U detail_page deadline 0 projects)
  /\ forall k p',
       Yuanjisong.at_deadline U detail_page deadline 0 projects !! k = Some p' ->
       exists p, projects !! k = Some p
                 /\ p' = as_it_stands U detail_page deadline k p.
Proof.
  intros Hurl.
  assert (Hback : forall k p',
            Yuanjisong.at_deadline U detail_page deadline 0 projects !! k = Some p' ->
            exists p, projects !! k = Some p
                      /\ p' = as_it_stands U detail_page deadline k p).
  { intros k p' Hk.
    assert (Hlt : (k < length projects)%nat).
    { apply lookup_lt_Some in Hk. by rewrite at_deadline_length in Hk. }
    apply lookup_lt_is_Some in Hlt as [p Hp]. exists p. split; [done|].
    rewrite (at_deadline_lookup U detail_page deadline projects 0 k p Hp) in Hk.
    by injection Hk as <-. }
  split; [|done].
  apply list.Forall_forall. intros p' Hin.
  apply list_elem_of_lookup in Hin as [k Hk].
  destruct (Hback k p' Hk) as (p & Hp & ->). unfold has_url.
  rewrite as_it_stands_url.
  rewrite list.Forall_forall in Hurl. apply Hurl.
  apply list_elem_of_lookup. eauto.
Qed.

(** After a timeout the result list holds first occurrences only: one record
    for each [url], each the state of the first candidate with that [url]. *)
Lemma timeout_handler_exact (U : Py.Unicode)
  (detail_page : nat -> Yuanjisong.detail_src) (projects detailed : list dict) :
  Forall has_url projects ->
  Yuanjisong.timed_out detail_page projects = true ->
  Yuanjisong.fan_out U detail_page projects = Some detailed ->
  NoDup (urls detailed)
  /\ (length detailed <= length projects)%nat
  /\ forall d, d ∈ detailed ->
       exists i p,
         projects !! i = Some p
         /\ d = as_it_stands U detail_page (Yuanjisong.deadline_ms projects) i p
         /\ forall j q, (j < i)%nat -> projects !! j = Some q ->
                        q !! "url" <> p !! "url".
Proof.
  intros Hurl Hto. unfold Yuanjisong.fan_out. rewrite Hto.
  destruct (at_deadline_stands U detail_page (Yuanjisong.deadline_ms projects)
              projects Hurl) as [Hnow Hback].
  intros H.
  apply add_missing_only_first in H as (news & -> & Hnd & Hlen & Hnews);
    [|done|done].
  rewrite at_deadline_length in Hlen. simpl.
  split; [apply Hnd; constructor|]. split; [done|].
  intros d Hd. destruct (Hnews d Hd) as (k & Hk & _ & Hearlier).
  destruct (Hback k d Hk) as (p & Hp & Hd').
  exists k, p. split; [done|]. split; [done|].
  intros j q Hj Hq. rewrite <- (as_it_stands_url U detail_page
                                  (Yuanjisong.deadline_ms projects) k p).
  rewrite <- Hd'.
  rewrite <- (as_it_stands_url U detail_page
                (Yuanjisong.deadline_ms projects) j q).
  apply (Hearlier j); [done|].
  by apply at_deadline_lookup.
Qed.

(** C4 (as the code has it). When the fan-out over the [n] candidates of a
    page is not over after 10 seconds times [n], the page's result list is
    built from the candidates themselves, keyed by [url]: it holds a record
    with the [url] of every candidate, and every candidate whose task was not
    over by the deadline is in it in its discovery form, provided no earlier
    candidate of the page has the same [url]. A later candidate with the
    [url] of an earlier one is not added: the list holds no two records with
    one [url], and every record in it is the state of a candidate that is the
    first with its [url]. The list is what the page saves and returns. *)
Theorem timeout_keeps_first_record_of_each_url (U : Py.Unicode)
  (src : Yuanjisong.page_src) (project_containers : list Yuanjisong.container)
  (page : nat) (st : Base.state) :
  Yuanjisong.list_page src = Yuanjisong.ListHtml project_containers ->
  Yuanjisong.timed_out (Yuanjisong.detail_page src)
    (Yuanjisong.extract_project_links U project_containers) = true ->
  exists detailed,
    Yuanjisong.scrape_page U src page st
    = (Base.Returned detailed,
       Base.save_results (Yuanjisong.writable src) detailed
         (Base.request page st))
    /\ (forall i p,
          Yuanjisong.extract_project_links U project_containers !! i = Some p ->
          exists d, d ∈ detailed /\ d !! "url" = p !! "url")
    /\ (forall i p,
          Yuanjisong.extract_project_links U project_containers !! i = Some p ->
          (Yuanjisong.deadline_ms
             (Yuanjisong.extract_project_links U project_containers)
           < Yuanjisong.finish_ms (Yuanjisong.detail_page src i))%N ->
          (forall j q,
             (j < i)%nat ->
             Yuanjisong.extract_project_links U project_containers !! j = Some q ->
             q !! "url" <> p !! "url") ->
          p ∈ detailed)
    /\ NoDup (urls detailed)
    /\ (length detailed
        <= length (Yuanjisong.extract_project_links U project_containers))%nat
    /\ (forall d,
          d ∈ detailed ->
          exists i p,
            Yuanjisong.extract_project_links U project_containers !! i = Some p
            /\ d = as_it_stands U (Yuanjisong.detail_page src)
                     (Yuanjisong.deadline_ms
                        (Yuanjisong.extract_project_links U project_containers))
                     i p
            /\ forall j q,
                 (j < i)%nat ->
                 Yuanjisong.extract_project_links U project_containers !! j
                 = Some q ->
                 q !! "url" <> p !! "url").
Proof.
  intros Hlist Hto.
  destruct (timeout_handler_spec U (Yuanjisong.detail_page src)
              (Yuanjisong.extract_project_links U project_containers))
    as (detailed & Hf & Hrep & Hfirst); [apply discovered_have_url|done|].
  destruct (timeout_handler_exact U (Yuanjisong.detail_page src)
              (Yuanjisong.extract_project_links U project_containers) detailed)
    as (Hnd & Hlen & Honly); [apply discovered_have_url|done|done|].
  exists detailed. split; [|by repeat split].
  unfold Yuanjisong.scrape_page. by rewrite Hlist, Hf.
Qed.

Lemma timeout_keeps_first_record_of_each_url_witness :
  exists detailed,
    Yuanjisong.scrape_page Py.ascii_unicode twin_page 1 Base.initial
    = (Base.Returned detailed,
       Base.save_results (Yuanjisong.writable twin_page) detailed
         (Base.request 1 Base.initial))
    /\ (forall i p,
          Yuanjisong.extract_project_links Py.ascii_unicode
            [job_block "a"; job_block "b"] !! i = Some p ->
          exists d, d ∈ detailed /\ d !! "url" = p !! "url")
    /\ (forall i p,
          Yuanjisong.extract_project_links Py.ascii_unicode
            [job_block "a"; job_block "b"] !! i = Some p ->
          (Yuanjisong.deadline_ms
             (Yuanjisong.extract_project_links Py.ascii_unicode
                [job_block "a"; job_block "b"])
           < Yuanjisong.finish_ms (Yuanjisong.detail_page twin_page i))%N ->
          (forall j q,
             (j < i)%nat ->
             Yuanjisong.extract_project_links Py.ascii_unicode
               [job_block "a"; job_block "b"] !! j = Some q ->
             q !! "url" <> p !! "url") ->
          p ∈ detailed)
    /\ NoDup (urls detailed)
    /\ (length detailed
        <= length (Yuanjisong.extract_project_links Py.ascii_unicode
                     [job_block "a"; job_block "b"]))%nat
    /\ (forall d,
          d ∈ detailed ->
          exists i p,
            Yuanjisong.extract_project_links Py.ascii_unicode
              [job_block "a"; job_block "b"] !! i = Some p
            /\ d = as_it_stands Py.ascii_unicode (Yuanjisong.detail_page twin_page)
                     (Yuanjisong.deadline_ms
                        (Yuanjisong.extract_project_links Py.ascii_unicode
                           [job_block "a"; job_block "b"]))
                     i p
            /\ forall j q,
                 (j < i)%nat ->
                 Yuanjisong.extract_project_links Py.ascii_unicode
                   [job_block "a"; job_block "b"] !! j = Some q ->
                 q !! "url" <> p !! "url").
Proof.
  apply (timeout_keeps_first_record_of_each_url Py.ascii_unicode twin_page
           [job_block "a"; job_block "b"] 1 Base.initial).
  - reflexivity.
  - vm_compute; reflexivity.
Defined.

(** C4 as stated fails: of two candidates with the same [url], the second,
    whose task is not over at the deadline, is not in the result list; the
    one record with its [url] is the first candidate in enriched form. *)
Lemma timeout_drops_later_duplicate :
  Yuanjisong.extract_project_links Py.ascii_unicode
    [job_block "a"; job_block "b"]
  = [job_record "a"; job_record "b"]
  /\ (Yuanjisong.deadline_ms [job_record "a"; job_record "b"]
      < Yuanjisong.finish_ms (twin_tasks 1))%N
  /\ Yuanjisong.scrape_page Py.ascii_unicode twin_page 1 Base.initial
     = (Base.Returned [job_record "full title"],
        {| Base.output_file := Some [job_record "full title"];
           Base.requested := [1%nat] |})
  /\ job_record "b" <> job_record "full title".
Proof.
  split; [vm_compute; reflexivity|].
  split; [vm_compute; reflexivity|].
  split; [vm_compute; reflexivity|].
  intros H. apply (f_equal (fun d : dict => d !! "title")) in H.
  vm_compute in H. discriminate.
Qed.

(** Without a timeout the yuanjisong page keeps every candidate, at its
    place: the record of the candidate at position [k] is what its task
    returned. *)
Lemma collect_run_tasks (U : Py.Unicode) (detail_page : nat -> Yuanjisong.detail_src)
  (projects : list dict) :
  Forall has_url projects ->
  forall i acc,
    exists rs,
      Yuanjisong.collect (Yuanjisong.run_tasks U detail_page i projects) acc
      = acc ++ rs
      /\ length rs = length projects
      /\ forall k p,
           projects !! k = Some p ->
           exists r, rs !! k = Some r
                     /\ Yuanjisong._scrape_detail_page U (detail_page (i + k)%nat) p
                        = Some r
                     /\ dom p ⊆ dom r.
Proof.
  induction 1 as [|p rest Hp _ IH]; intros i acc.
  - exists []. simpl. rewrite app_nil_r. repeat split; done.
  - cbn [Yuanjisong.run_tasks Yuanjisong.collect].
    destruct (scrape_detail_total U (detail_page i) p Hp) as (r & Hr & Hdom).
    rewrite Hr.
    assert (Ht : dict_truthy r = true).
    { apply dict_truthy_true. intros ->. destruct Hp as [url Hu].
      assert (Hin : "url" ∈ dom p) by (apply elem_of_dom; eauto).
      apply Hdom in Hin. by rewrite dom_empty_L in Hin. }
    rewrite Ht. destruct (IH (S i) (acc ++ [r])) as (rs & Hc & Hl & Hk).
    exists (r :: rs). rewrite Hc, <- app_assoc. split; [done|].
    split; [simpl; by rewrite Hl|].
    intros [|k] q; simpl.
    + intros [= <-]. exists r. by rewrite Nat.add_0_r.
    + intros Hq. destruct (Hk k q Hq) as (r' & ? & ? & ?). exists r'.
      by replace (i + S k)%nat with (S i + k)%nat by lia.
Qed.

Lemma yuanjisong_keeps_every_candidate (U : Py.Unicode)
  (src : Yuanjisong.page_src) (project_containers : list Yuanjisong.container)
  (page : nat) (st : Base.state) :
  Yuanjisong.list_page src = Yuanjisong.ListHtml project_containers ->
  Yuanjisong.timed_out (Yuanjisong.detail_page src)
    (Yuanjisong.extract_project_links U project_containers) = false ->
  exists detailed,
    Yuanjisong.scrape_page U src page st
    = (Base.Returned detailed,
       Base.save_results (Yuanjisong.writable src) detailed
         (Base.request page st))
    /\ length detailed
       = length (Yuanjisong.extract_project_links U project_containers)
    /\ forall k p,
         Yuanjisong.extract_project_links U project_containers !! k = Some p ->
         exists r, detailed !! k = Some r
                   /\ Yuanjisong._scrape_detail_page U
                        (Yuanjisong.detail_page src k) p = Some r
                   /\ dom p ⊆ dom r.
Proof.
  intros Hlist Hto. unfold Yuanjisong.scrape_page, Yuanjisong.fan_out.
  rewrite Hlist, Hto.
  destruct (collect_run_tasks U (Yuanjisong.detail_page src)
              (Yuanjisong.extract_project_links U project_containers)
              (discovered_have_url U project_containers) 0%nat [])
    as (rs & -> & Hl & Hk).
  exists rs. simpl. repeat split; done.
Qed.

Lemma yuanjisong_keeps_every_candidate_witness :
  exists detailed,
    Yuanjisong.scrape_page Py.ascii_unicode
      {| Yuanjisong.list_page := Yuanjisong.ListHtml [job_block "a"];
         Yuanjisong.detail_page := twin_tasks;
         Yuanjisong.writable := true |} 1 Base.initial
    = (Base.Returned detailed,
       Base.save_results true detailed (Base.request 1 Base.initial))
    /\ length detailed
       = length (Yuanjisong.extract_project_links Py.ascii_unicode [job_block "a"])
    /\ forall k p,
         Yuanjisong.extract_project_links Py.ascii_unicode [job_block "a"] !! k
         = Some p ->
         exists r, detailed !! k = Some r
                   /\ Yuanjisong._scrape_detail_page Py.ascii_unicode
                        (twin_tasks k) p = Some r
                   /\ dom p ⊆ dom r.
Proof.
  apply (yuanjisong_keeps_every_candidate Py.ascii_unicode
           {| Yuanjisong.list_page := Yuanjisong.ListHtml [job_block "a"];
              Yuanjisong.detail_page := twin_tasks;
              Yuanjisong.writable := true |} [job_block "a"] 1 Base.initial).
  - reflexivity.
  - vm_compute; reflexivity.
Defined.

(** ** Pagination over the two sites *)

(** A yuanjisong page on which discovery finds candidates returns a list
    that is not empty, timeout or not. *)
Lemma yuanjisong_page_nonempty (U : Py.Unicode) (src : Yuanjisong.page_src)
  (project_containers : list Yuanjisong.container) (page : nat) (st : Base.state) :
  Yuanjisong.list_page src = Yuanjisong.ListHtml project_containers ->
  Yuanjisong.extract_project_links U project_containers <> [] ->
  exists detailed,
    detailed <> []
    /\ Yuanjisong.scrape_page U src page st
       = (Base.Returned detailed,
          Base.save_results (Yuanjisong.writable src) detailed
            (Base.request page st)).
Proof.
  intros Hlist Hne.
  destruct (Yuanjisong.timed_out (Yuanjisong.detail_page src)
              (Yuanjisong.extract_project_links U project_containers)) eqn:Hto.
  - destruct (timeout_handler_spec U (Yuanjisong.detail_page src)
                (Yuanjisong.extract_project_links U project_containers))
      as (detailed & Hf & Hrep & _); [apply discovered_have_url|done|].
    exists detailed. split.
    + destruct (Yuanjisong.extract_project_links U project_containers)
        as [|p rest] eqn:He; [done|].
      destruct (Hrep 0%nat p eq_refl) as (d & Hd & _).
      intros ->. by apply elem_of_nil in Hd.
    + unfold Yuanjisong.scrape_page. by rewrite Hlist, Hf.
  - destruct (yuanjisong_keeps_every_candidate U src project_containers page st
                Hlist Hto) as (detailed & Hs & Hl & _).
    exists detailed. split; [|done]. intros ->. simpl in Hl.
    by destruct (Yuanjisong.extract_project_links U project_containers).
Qed.

(** A yuanjisong page on which discovery finds nothing returns the empty
    list. *)
Lemma yuanjisong_page_empty (U : Py.Unicode) (src : Yuanjisong.page_src)
  (project_containers : list Yuanjisong.container) (page : nat) (st : Base.state) :
  Yuanjisong.list_page src = Yuanjisong.ListHtml project_containers ->
  Yuanjisong.extract_project_links U project_containers = [] ->
  Yuanjisong.scrape_page U src page st
  = (Base.Returned [],
     Base.save_results (Yuanjisong.writable src) [] (Base.request page st)).
Proof.
  intros Hlist He. unfold Yuanjisong.scrape_page. rewrite Hlist, He. reflexivity.
Qed.

(** The yuanjisong run over a site whose pages 1 and 2 hold candidates and
    whose page 3 holds none: the loop requests the list pages 1, 2 and 3, and
    returns and saves records for the candidates of pages 1 and 2. *)
Lemma yuanjisong_stops_at_first_empty_discovery (U : Py.Unicode)
  (site : nat -> Yuanjisong.page_src) (cs1 cs2 cs3 : list Yuanjisong.container)
  (writable : bool) (fuel : nat) :
  Yuanjisong.list_page (site 1%nat) = Yuanjisong.ListHtml cs1 ->
  Yuanjisong.extract_project_links U cs1 <> [] ->
  Yuanjisong.list_page (site 2%nat) = Yuanjisong.ListHtml cs2 ->
  Yuanjisong.extract_project_links U cs2 <> [] ->
  Yuanjisong.list_page (site 3%nat) = Yuanjisong.ListHtml cs3 ->
  Yuanjisong.extract_project_links U cs3 = [] ->
  (3 <= fuel)%nat ->
  exists l1 l2 st1,
    l1 <> [] /\ l2 <> []
    /\ Yuanjisong.scrape U site 10 writable fuel Base.initial
       = Some (l1 ++ l2, [1%nat; 2%nat; 3%nat], st1)
    /\ Base.requested st1 = [1%nat; 2%nat; 3%nat]
    /\ (writable = true -> Base.output_file st1 = Some (l1 ++ l2)).
Proof.
  intros H1 Hn1 H2 Hn2 H3 He3 Hfuel.
  destruct fuel as [|[|[|fuel]]]; try lia.
  set (sp := fun page st => Yuanjisong.scrape_page U (site page) page st).
  destruct (yuanjisong_page_nonempty U (site 1%nat) cs1 1 Base.initial H1 Hn1)
    as (l1 & Hl1 & Hp1).
  set (st1 := Base.save_results (Yuanjisong.writable (site 1%nat)) l1
                (Base.request 1 Base.initial)) in *.
  destruct (yuanjisong_page_nonempty U (site 2%nat) cs2 2 st1 H2 Hn2)
    as (l2 & Hl2 & Hp2).
  set (st2 := Base.save_results (Yuanjisong.writable (site 2%nat)) l2
                (Base.request 2 st1)) in *.
  pose proof (yuanjisong_page_empty U (site 3%nat) cs3 3 st2 H3 He3) as Hp3.
  set (st3 := Base.save_results (Yuanjisong.writable (site 3%nat)) []
                (Base.request 3 st2)) in *.
  exists l1, l2, (Base.save_results writable (l1 ++ l2) st3).
  split; [done|]. split; [done|]. split; [|split].
  - unfold Yuanjisong.scrape, Base.scrape, Base.start. fold sp.
    rewrite turns_S, (scrape_step_nonempty sp _ _ l1 st1) by done.
    change (Base.cap_reached 10 _) with false. cbv iota.
    rewrite turns_S, (scrape_step_nonempty sp _ _ l2 st2) by done.
    change (Base.cap_reached 10 _) with false. cbv iota.
    rewrite turns_S, (scrape_step_empty sp _ _ st3) by done.
    done.
  - subst st3 st2 st1. unfold Base.save_results, Base.request.
    by destruct writable, (Yuanjisong.writable (site 1%nat)),
      (Yuanjisong.writable (site 2%nat)), (Yuanjisong.writable (site 3%nat)).
  - by intros ->.
Qed.

(** The sxsapi page whose one candidate is left out returns the empty list,
    so a run over such a site stops at page 1 with nothing, as on an empty
    page. *)
Example sxsapi_drop_stops_pagination :
  Sxsapi.scrape Py.ascii_unicode (fun _ => silent_details) 10 true 1 Base.initial
  = Some ([], [1%nat],
          {| Base.output_file := Some []; Base.requested := [1%nat] |}).
Proof. vm_compute; reflexivity. Qed.

(** ** The request helper *)

Lemma emit_relog (pre : list Base.event) (e : Base.event) (c : Base.client) :
  Base.emit e (relog pre c) = relog pre (Base.emit e c).
Proof. unfold Base.emit, relog. simpl. by rewrite app_assoc. Qed.

Lemma init_session_relog (pre : list Base.event) (c : Base.client) :
  Base.init_session (relog pre c) = relog pre (Base.init_session c).
Proof.
  unfold Base.init_session. simpl. destruct (Base.session c); [done|].
  unfold Base.emit, relog. simpl. by rewrite app_assoc.
Qed.

Lemma close_session_relog (pre : list Base.event) (c : Base.client) :
  Base.close_session (relog pre c) = relog pre (Base.close_session c).
Proof.
  unfold Base.close_session. simpl. destruct (Base.session c); [|done].
  unfold Base.emit, relog. simpl. by rewrite app_assoc.
Qed.

Lemma back_off_relog (pre : list Base.event) (k : nat) (c : Base.client) :
  Base.back_off k (relog pre c) = relog pre (Base.back_off k c).
Proof. unfold Base.back_off. destruct (k <? 2)%nat; [apply emit_relog|done]. Qed.

(** What is already in the log has no bearing on a call. *)
Lemma attempts_relog (net : nat -> Base.outcome) (pre : list Base.event)
  (todo : list nat) :
  forall c,
    Base.attempts net todo (relog pre c)
    = (fst (Base.attempts net todo c), relog pre (snd (Base.attempts net todo c))).
Proof.
  induction todo as [|k rest IH]; intros c; [done|].
  cbn [Base.attempts]. rewrite init_session_relog, emit_relog.
  destruct (net k) as [text|status|e]; [done|..].
  - by rewrite emit_relog, back_off_relog, IH.
  - by rewrite emit_relog, close_session_relog, back_off_relog, IH.
Qed.

Lemma make_request_added (net : nat -> Base.outcome) (c : Base.client) :
  let c0 := {| Base.session := Base.session c; Base.events := [] |} in
  fst (Base._make_request net c) = fst (Base._make_request net c0)
  /\ Base.session (snd (Base._make_request net c))
     = Base.session (snd (Base._make_request net c0))
  /\ Base.events (snd (Base._make_request net c))
     = Base.events c ++ Base.events (snd (Base._make_request net c0))
  /\ added net c = Base.events (snd (Base._make_request net c0)).
Proof.
  intros c0.
  assert (Hc : c = relog (Base.events c) c0).
  { destruct c. unfold relog. simpl. by rewrite app_nil_r. }
  assert (H : Base._make_request net c
              = (fst (Base._make_request net c0),
                 relog (Base.events c) (snd (Base._make_request net c0)))).
  { unfold Base._make_request. rewrite Hc at 1. apply attempts_relog. }
  unfold added. rewrite H. simpl. repeat split; try done.
  apply drop_app_length.
Qed.

(** C8 (as the code has it). A call makes at most three attempts, numbered
    0, 1, 2, and stops at the first response with status 200. After a failed
    attempt other than the last it sleeps 2 seconds times the attempt's
    number counted from one (2 s, then 4 s). An attempt that raises is
    followed at once by closing the session, and a session is opened before
    the next request goes out. When all three attempts fail the call returns
    [None]: it raises nothing, and the errors are in the log only. *)
Theorem make_request_retry_policy (net : nat -> Base.outcome) (c : Base.client) :
  let result := fst (Base._make_request net c) in
  let c1 := snd (Base._make_request net c) in
  let new := added net c in
  Base.events c1 = Base.events c ++ new
  /\ (length (gets new) <= 3)%nat
  /\ session_discipline (Base.session c) new = true
  /\ errors new
     = omap (fun k => match net k with
                      | Base.TransportError e => Some e
                      | _ => None
                      end) (gets new)
  /\ (result = None
      <-> failed (net 0%nat) = true /\ failed (net 1%nat) = true
          /\ failed (net 2%nat) = true)
  /\ (result = None ->
      gets new = [0; 1; 2]%nat /\ sleeps new = [2; 4]%N)
  /\ (forall text,
        result = Some text ->
        exists k, (k < 3)%nat /\ net k = Base.Ok200 text
                  /\ (forall j, (j < k)%nat -> failed (net j) = true)
                  /\ gets new = seq 0 (S k)
                  /\ sleeps new = take k [2; 4]%N)
  /\ (Base.session c1 = false
      <-> result = None /\ exists e, net 2%nat = Base.TransportError e).
Proof.
  intros result c1 new. subst result c1 new.
  destruct (make_request_added net c) as (-> & -> & -> & ->).
  split; [done|].
  generalize (Base.session c). clear c. intros b.
  unfold Base._make_request. cbn [seq Base.attempts].
  destruct b;
    destruct (net 0%nat) as [t0|s0|e0] eqn:H0;
    destruct (net 1%nat) as [t1|s1|e1] eqn:H1;
    destruct (net 2%nat) as [t2|s2|e2] eqn:H2;
    cbn.
  all: rewrite ?H0, ?H1, ?H2.
  all: repeat split; try done; try lia; eauto; try (by intros [? [? ?]]);
       try (by intros [? [? ?]]); try (by intros (? & ? & ?)).
  all: intros text [= <-].
  all: first
    [ exists 0%nat; split; [lia|]; split; [assumption|]
    | exists 1%nat; split; [lia|]; split; [assumption|]
    | exists 2%nat; split; [lia|]; split; [assumption|] ].
  all: split; [|by split].
  all: intros [|[|j]] Hj; try lia; by rewrite ?H0, ?H1.
Qed.

Lemma make_request_retry_policy_witness :
  gets (added always_refused fresh_client) = [0; 1; 2]%nat
  /\ sleeps (added always_refused fresh_client) = [2; 4]%N.
Proof.
  destruct (make_request_retry_policy always_refused fresh_client)
    as (_ & _ & _ & _ & _ & H & _).
  apply H. reflexivity.
Defined.

(** C8 as stated fails in its last part: the value returned after three
    failed attempts is [None] whatever the errors were, so it carries no
    error; the last error is in the log. *)
Lemma make_request_returns_bare_none :
  fst (Base._make_request always_refused fresh_client) = None
  /\ fst (Base._make_request always_reset fresh_client) = None
  /\ last (errors (added always_refused fresh_client))
     = Some (Py.u "connection refused")
  /\ last (errors (added always_reset fresh_client))
     = Some (Py.u "connection reset")
  /\ Py.u "connection refused" <> Py.u "connection reset".
Proof. repeat split; try (vm_compute; reflexivity). discriminate. Qed.

Example make_request_all_refused :
  Base._make_request always_refused fresh_client
  = (None,
     {| Base.session := false;
        Base.events :=
          [ Base.EvInit; Base.EvGet 0; Base.EvError (Py.u "connection refused");
            Base.EvClose; Base.EvSleep 2;
            Base.EvInit; Base.EvGet 1; Base.EvError (Py.u "connection refused");
            Base.EvClose; Base.EvSleep 4;
            Base.EvInit; Base.EvGet 2; Base.EvError (Py.u "connection refused");
            Base.EvClose ] |}).
Proof. vm_compute; reflexivity. Qed.

(** ** The sample pages under any Unicode tables *)

(** The samples above were evaluated with [Py.ascii_unicode].  Those that read
    no number and fold no case give the same result with every table. *)

Lemma blank_title_any_unicode (U : Py.Unicode) :
  Yuanjisong.extract_project_links U [blank_title_block]
  = [ <["title" := Py.VStr []]>
        (<["url" := Py.VStr (Py.u "https://www.yuanjisong.com/job/1")]> ∅) ].
Proof. vm_compute; reflexivity. Qed.

Lemma null_title_any_unicode (U : Py.Unicode) :
  Yuanjisong.extract_project_details U bare_soup !! "title" = Some Py.VNone.
Proof. reflexivity. Qed.

Lemma later_duplicate_any_unicode (U : Py.Unicode) :
  Yuanjisong.scrape_page U twin_page 1 Base.initial
  = (Base.Returned [job_record "full title"],
     {| Base.output_file := Some [job_record "full title"];
        Base.requested := [1%nat] |}).
Proof. vm_compute; reflexivity. Qed.

Lemma hello_has_no_field (U : Py.Unicode) :
  Sxsapi.extract_project_details U (Py.u "hello") = ∅.
Proof. vm_compute; reflexivity. Qed.

(** * Further properties of the scrapers *)

(** ** The matcher: the text a successful match consumes *)

Lemma startswith_take (s lit : str) :
  Py.startswith s lit = true ->
  take (length lit) s = lit /\ (length lit <= length s)%nat.
Proof.
  revert s. induction lit as [|c lit IH]; intros s; simpl.
  - intros _. split; [by rewrite take_0|lia].
  - destruct s as [|d s]; [done|]. intros H.
    apply andb_true_iff in H as [Hc H]. apply N.eqb_eq in Hc as ->.
    apply IH in H as [Ht ?]. simpl. rewrite Ht. split; [done|lia].
Qed.

Lemma take_add_app {A} (n1 n2 : nat) (s : list A) :
  take (n1 + n2) s = take n1 s ++ take n2 (drop n1 s).
Proof.
  revert s. induction n1 as [|n1 IH]; intros s; [done|].
  destruct s as [|c s]; simpl; [by rewrite take_nil|]. by rewrite IH.
Qed.

Lemma rep_consumed {A} (U : Py.Unicode) (k : Re.cls) (greedy : bool) (s : str) :
  forall (lo : nat) (hi : option nat) (cont : str -> option A) (x : A),
    Re.rep U k greedy lo hi s cont = Some x ->
    exists n,
      (n <= length s)%nat /\ (lo <= n)%nat
      /\ (forall h, hi = Some h -> (n <= h)%nat)
      /\ Forall (fun c => Re.cls_matches U k c = true) (take n s)
      /\ cont (drop n s) = Some x.
Proof.
  induction s as [|c s IH]; intros lo hi cont x.
  - simpl. destruct lo; [|by destruct greedy].
    assert (H0 : cont [] = Some x ->
                 exists n, (n <= 0)%nat /\ (0 <= n)%nat
                   /\ (forall h, hi = Some h -> (n <= h)%nat)
                   /\ Forall (fun c => Re.cls_matches U k c = true) (take n [])
                   /\ cont (drop n []) = Some x).
    { intros H. exists 0%nat. repeat split; try lia; try done;
        intros; lia. }
    destruct greedy; [done|]. destruct (cont []); [|done].
    intros [= <-]. by apply H0.
  - cbn [Re.rep].
    set (more := if Re.cls_matches U k c && negb (bool_decide (hi = Some 0%nat))
                 then Re.rep U k greedy (pred lo) (pred <$> hi) s cont
                 else None).
    set (goal := exists n,
      (n <= length (c :: s))%nat /\ (lo <= n)%nat
      /\ (forall h, hi = Some h -> (n <= h)%nat)
      /\ Forall (fun c => Re.cls_matches U k c = true) (take n (c :: s))
      /\ cont (drop n (c :: s)) = Some x).
    assert (Hmore : more = Some x -> goal).
    { unfold more. destruct (Re.cls_matches U k c) eqn:Hc; [|done].
      destruct (bool_decide (hi = Some 0%nat)) eqn:Hh; [done|]. simpl.
      apply bool_decide_eq_false in Hh.
      intros H. apply IH in H as (n & Hn & Hlo & Hhi & Hall & Hk).
      exists (S n). simpl. repeat split; try lia; try done.
      - intros h ->. destruct h as [|h]; [done|].
        specialize (Hhi h eq_refl). lia.
      - by constructor. }
    assert (Hstop : match lo with O => cont (c :: s) | S _ => None end = Some x ->
                    goal).
    { destruct lo; [|done]. intros H. exists 0%nat. simpl.
      repeat split; try lia; try done; intros; lia. }
    destruct greedy.
    + destruct more; [intros [= <-]; by apply Hmore|apply Hstop].
    + destruct (match lo with O => _ | S _ => _ end);
        [intros [= <-]; by apply Hstop|apply Hmore].
Qed.

Lemma m_lang {A} (U : Py.Unicode) (r : Re.re) :
  forall (s : str) (caps : Re.captures)
         (cont : str -> Re.captures -> option A) (x : A),
    Re.m U r s caps cont = Some x ->
    exists n new,
      (n <= length s)%nat
      /\ lang U r (take n s)
      /\ Forall (fun it => captured U r it.1 it.2) new
      /\ (forall i, always_captures r i = true -> exists t, (i, t) ∈ new)
      /\ cont (drop n s) (new ++ caps) = Some x.
Proof.
  induction r as [lit|k|k lo hi greedy|r1 IH1 r2 IH2|r1 IH1 r2 IH2|i r1 IH1|r1 IH1|];
    intros s caps cont x; cbn [Re.m lang captured always_captures].
  - destruct (Py.startswith s lit) eqn:Hs; [|done]. intros H.
    apply startswith_take in Hs as [Ht Hl].
    exists (length lit), []. split; [done|]. split; [done|]. by repeat split.
  - destruct s as [|c s]; [done|].
    destruct (Re.cls_matches U k c) eqn:Hc; [|done]. intros H.
    exists 1%nat, []. simpl. split; [lia|]. split; [by exists c|].
    by repeat split.
  - intros H. apply rep_consumed in H as (n & Hn & Hlo & Hhi & Hall & H).
    exists n, []. rewrite length_take. split; [done|].
    split; [|by repeat split].
    split; [lia|]. split; [|done].
    intros h Hh. specialize (Hhi h Hh). lia.
  - intros H. apply IH1 in H as (n1 & new1 & Hn1 & Hl1 & Hc1 & Ha1 & H).
    apply IH2 in H as (n2 & new2 & Hn2 & Hl2 & Hc2 & Ha2 & H).
    rewrite length_drop in Hn2.
    exists (n1 + n2)%nat, (new2 ++ new1).
    split; [lia|]. split; [|split; [|split]].
    + exists (take n1 s), (take n2 (drop n1 s)).
      split; [apply take_add_app|done].
    + apply Forall_app. split; eapply Forall_impl; eauto; intros [? ?] ?;
        simpl in *; auto.
    + intros i Hi. apply orb_true_iff in Hi as [Hi|Hi].
      * destruct (Ha1 i Hi) as [t Ht]. exists t. apply elem_of_app. by right.
      * destruct (Ha2 i Hi) as [t Ht]. exists t. apply elem_of_app. by left.
    + rewrite <- app_assoc. by rewrite drop_drop in H.
  - destruct (Re.m U r1 s caps cont) as [y|] eqn:H1.
    + intros [= <-]. apply IH1 in H1 as (n & new & Hn & Hl & Hc & Ha & H).
      exists n, new. split; [done|]. split; [by left|]. split; [|split; [|done]].
      * eapply Forall_impl; eauto; intros [? ?] ?; simpl in *; auto.
      * intros i Hi. apply andb_true_iff in Hi as [Hi _]. by apply Ha.
    + intros H. apply IH2 in H as (n & new & Hn & Hl & Hc & Ha & H).
      exists n, new. split; [done|]. split; [by right|]. split; [|split; [|done]].
      * eapply Forall_impl; eauto; intros [? ?] ?; simpl in *; auto.
      * intros i Hi. apply andb_true_iff in Hi as [_ Hi]. by apply Ha.
  - intros H. apply IH1 in H as (n & new & Hn & Hl & Hc & Ha & H).
    rewrite length_drop in H.
    replace (length s - (length s - n))%nat with n in H by lia.
    exists n, ((i, take n s) :: new). split; [done|]. split; [done|].
    split; [|split; [|done]].
    + constructor; [simpl; auto|].
      eapply Forall_impl; eauto; intros [? ?] ?; simpl in *; auto.
    + intros j Hj. apply orb_true_iff in Hj as [Hj|Hj].
      * apply Nat.eqb_eq in Hj as ->. exists (take n s). apply list_elem_of_here.
      * destruct (Ha j Hj) as [t Ht]. exists t. by apply list_elem_of_further.
  - apply IH1.
  - destruct s as [|c [|d s]]; try done.
    + intros H. exists 0%nat, []. by repeat split.
    + destruct (c =? 10)%N; [|done]. intros H. exists 0%nat, []. simpl.
      split; [lia|]. by repeat split.
Qed.

(** Every group of a match found by [re.search] holds a text its body can
    match. *)
Lemma search_captured (U : Py.Unicode) (r : Re.re) (s : str) (caps : Re.captures) :
  Re.search U r s = Some caps ->
  Forall (fun it => captured U r it.1 it.2) caps
  /\ (forall i, always_captures r i = true -> exists t, (i, t) ∈ caps).
Proof.
  intros H. apply search_sound in H as (start & _ & H).
  apply m_lang in H as (n & new & _ & _ & Hc & Ha & H).
  injection H as <-. by rewrite app_nil_r.
Qed.

Lemma group_captured (U : Py.Unicode) (r : Re.re) (i : nat) (caps : Re.captures) :
  Forall (fun it => captured U r it.1 it.2) caps ->
  (exists t, (i, t) ∈ caps) ->
  captured U r i (Re.group i caps).
Proof.
  induction caps as [|[j t] caps IH]; intros H [t0 Hin]; simpl.
  - by apply elem_of_nil in Hin.
  - apply Forall_cons in H as [Hj H]. simpl in Hj.
    destruct (Nat.eqb_spec i j) as [->|Hij]; [done|]. apply IH; [done|].
    apply elem_of_cons in Hin as [[= ? ?]|Hin]; [done|by exists t0].
Qed.

(** The text [re.search] hands out as a group that every match captures. *)
Lemma search_group (U : Py.Unicode) (r : Re.re) (i : nat) (s : str)
  (caps : Re.captures) :
  Re.search U r s = Some caps ->
  always_captures r i = true ->
  captured U r i (Re.group i caps).
Proof.
  intros H Hi. apply search_captured in H as [Hc Ha].
  apply group_captured; auto.
Qed.

(** ** What the groups of the sxsapi patterns hold *)

Ltac split_cases :=
  repeat match goal with
         | H : False |- _ => destruct H
         | H : _ \/ _ |- _ => destruct H as [H|H]
         | H : _ /\ _ |- _ => destruct H as [? H]
         | H : exists _, _ |- _ => destruct H as [? H]
         end.

Lemma digit_matches (U : Py.Unicode) (c : N) :
  Re.cls_matches U Sxsapi.digit c = true <-> is_digit U c.
Proof. simpl. by rewrite bool_decide_eq_true. Qed.

Lemma Forall_digit (U : Py.Unicode) (t : str) :
  Forall (fun c => Re.cls_matches U Sxsapi.digit c = true) t ->
  Forall (is_digit U) t.
Proof.
  intros H. eapply Forall_impl; [exact H|]. intros c. by rewrite digit_matches.
Qed.

Lemma lang_date (U : Py.Unicode) (t : str) :
  lang U Sxsapi.date_re t -> is_date U t.
Proof.
  unfold Sxsapi.date_re, Re.lit. cbn [lang].
  intros (y & t1 & -> & (Hy1 & Hy2 & Hy) & s1 & t2 & -> & -> & m & t3 & ->
          & (Hm1 & Hm2 & Hm) & s2 & d & -> & -> & Hd1 & Hd2 & Hd).
  exists y, m, d. split; [done|].
  specialize (Hy2 _ eq_refl). specialize (Hm2 _ eq_refl).
  specialize (Hd2 _ eq_refl).
  split; [lia|]. split; [lia|]. split; [lia|].
  rewrite !Forall_app. auto using Forall_digit.
Qed.

Lemma lang_duration (U : Py.Unicode) (t : str) :
  lang U (Re.Alt (Re.plus Sxsapi.digit +++ Re.lit "天") (Re.lit "商议工期")) t ->
  is_duration U t.
Proof.
  unfold Re.plus, Re.lit. cbn [lang].
  intros [(ds & s & -> & (Hlo & _ & Hds) & ->)| ->]; [right|by left].
  exists ds. split; [by destruct ds; [simpl in Hlo; lia|]|].
  split; [by apply Forall_digit|done].
Qed.

Lemma lang_budget (U : Py.Unicode) (t : str) :
  lang U (Re.plus Sxsapi.budget_chars) t -> is_budget U t.
Proof.
  unfold Re.plus. cbn [lang]. intros (Hlo & _ & H). split; [|done].
  destruct t; [simpl in Hlo; lia|done].
Qed.

Lemma lang_none_of (U : Py.Unicode) (l : list Re.atom) (lo : nat)
  (hi : option nat) (g : bool) (t : str) :
  lang U (Re.Rep (Re.NoneOf l) lo hi g) t ->
  (lo <= length t)%nat
  /\ Forall (fun c => existsb (fun a => Re.atom_matches U a c) l = false) t.
Proof.
  cbn [lang]. intros (Hlo & _ & H). split; [done|].
  eapply Forall_impl; [exact H|]. intros c. simpl. by rewrite negb_true_iff.
Qed.

Lemma captured_title (U : Py.Unicode) (t : str) :
  captured U Sxsapi.title_re 1 t -> (35%N ∉ t) /\ (10%N ∉ t).
Proof.
  unfold Sxsapi.title_re, Re.star, Re.plus, Re.lit. cbn [captured].
  intros H. split_cases. apply lang_none_of in H as [_ H].
  rewrite Forall_forall in H.
  split; intros Hin; apply H in Hin; simpl in Hin; done.
Qed.

Lemma captured_line_rest (U : Py.Unicode) (label : string) (t : str) :
  captured U (Re.lit label +++ Re.Group 1 (Re.plus (Re.NoneOf [Re.AChar 10]))) 1 t ->
  t <> [] /\ (10%N ∉ t).
Proof.
  unfold Re.plus, Re.lit. cbn [captured].
  intros H. split_cases. apply lang_none_of in H as [Hlo H].
  split; [destruct t; [simpl in Hlo; lia|done]|].
  rewrite Forall_forall in H. intros Hin. apply H in Hin. simpl in Hin. done.
Qed.

Lemma captured_price (U : Py.Unicode) (t : str) :
  captured U Sxsapi.price_re 1 t -> is_budget U t.
Proof.
  unfold Sxsapi.price_re, Re.star, Re.plus, Re.lit. cbn [captured].
  intros H. split_cases. by apply lang_budget.
Qed.

Lemma captured_duration (U : Py.Unicode) (t : str) :
  captured U Sxsapi.duration_re 1 t -> is_duration U t.
Proof.
  unfold Sxsapi.duration_re, Re.star, Re.plus, Re.lit. cbn [captured].
  intros H. split_cases; try by apply lang_duration.
Qed.

Lemma captured_deadline (U : Py.Unicode) (t : str) :
  captured U Sxsapi.deadline_re 1 t -> is_date U t.
Proof.
  unfold Sxsapi.deadline_re, Sxsapi.date_re, Re.lit. cbn [captured].
  intros H. split_cases; try by apply lang_date.
Qed.

(** ** [strip] keeps a part of the text *)

Lemma drop_while_In (p : N -> bool) (c : N) (s : str) :
  In c (Py.drop_while p s) -> In c s.
Proof.
  induction s as [|d s IH]; simpl; [done|].
  destruct (p d); [by right; apply IH|done].
Qed.

Lemma strip_elem_of (c : N) (s : str) : c ∈ Py.strip s -> c ∈ s.
Proof.
  rewrite !list_elem_of_In. unfold Py.strip, Py.rstrip, Py.lstrip.
  intros H. apply in_rev, drop_while_In, in_rev, drop_while_In in H. done.
Qed.

Lemma strip_not_elem_of (c : N) (s : str) : c ∉ s -> c ∉ Py.strip s.
Proof. intros H Hin. by apply H, strip_elem_of. Qed.

Lemma drop_while_none (p : N -> bool) (s : str) :
  Forall (fun c => p c = false) s -> Py.drop_while p s = s.
Proof. destruct 1 as [|c s Hc _]; simpl; [done|]. by rewrite Hc. Qed.

(** A text without whitespace is left as it is. *)
Lemma strip_none (s : str) :
  Forall (fun c => Py.isspace c = false) s -> Py.strip s = s.
Proof.
  intros H. unfold Py.strip, Py.rstrip, Py.lstrip.
  rewrite (drop_while_none _ s H), drop_while_none; [apply rev_involutive|].
  by apply Forall_rev.
Qed.

Lemma budget_literals :
  Re.chars "~万千以上以下待商议"
  = map Re.AChar [126; 19975; 21315; 20197; 19978; 20197; 19979; 24453; 21830; 35758]%N.
Proof. vm_compute. reflexivity. Qed.

Lemma budget_not_space (U : Py.Unicode) (c : N) :
  digits_are_not_space U ->
  Re.cls_matches U Sxsapi.budget_chars c = true -> Py.isspace c = false.
Proof.
  intros HU. unfold Sxsapi.budget_chars. rewrite budget_literals.
  cbn [Re.cls_matches existsb map Re.atom_matches].
  rewrite !orb_true_iff, !N.eqb_eq, bool_decide_eq_true.
  intros H. split_cases; subst; try (vm_compute; reflexivity); try done.
  by apply HU.
Qed.

Lemma strip_budget (U : Py.Unicode) (t : str) :
  digits_are_not_space U -> is_budget U t -> Py.strip t = t.
Proof.
  intros HU [_ H]. apply strip_none. eapply Forall_impl; [exact H|].
  intros c. by apply budget_not_space.
Qed.

(** ** The fields of the sxsapi detail page *)

Lemma lookup_set_if_eq (k : string) (v : option str) (d : dict) :
  d !! k = None -> Sxsapi.set_if k v d !! k = Py.VStr <$> v.
Proof. intros H. destruct v; simpl; [by rewrite lookup_insert_eq|done]. Qed.

Lemma sxsapi_details_lookup (U : Py.Unicode) (markdown : str) :
  let details := Sxsapi.extract_project_details U markdown in
  details !! "title" = Py.VStr <$> Sxsapi.rule U Sxsapi.title_re true markdown
  /\ details !! "price" = Py.VStr <$> Sxsapi.rule U Sxsapi.price_re true markdown
  /\ details !! "duration"
     = Py.VStr <$> Sxsapi.rule U Sxsapi.duration_re false markdown
  /\ details !! "deadline"
     = Py.VStr <$> Sxsapi.rule U Sxsapi.deadline_re false markdown
  /\ details !! "description" = Py.VStr <$> Sxsapi.description_of markdown
  /\ details !! "skills" = Py.VStr <$> Sxsapi.rule U Sxsapi.skills_re true markdown
  /\ details !! "cooperation"
     = Py.VStr <$> Sxsapi.rule U Sxsapi.coop_re true markdown.
Proof.
  cbv zeta. unfold Sxsapi.extract_project_details.
  repeat split;
    repeat first
      [ rewrite lookup_set_if_eq;
        [reflexivity
        |repeat (rewrite lookup_set_if by (intros [=])); apply lookup_empty]
      | rewrite lookup_set_if by (intros [=]) ].
Qed.

Lemma rule_Some (U : Py.Unicode) (r : Re.re) (b : bool) (markdown t : str) :
  always_captures r 1 = true ->
  Sxsapi.rule U r b markdown = Some t ->
  exists g, captured U r 1 g /\ t = if b then Py.strip g else g.
Proof.
  intros Hr. unfold Sxsapi.rule.
  destruct (Re.search U r markdown) as [caps|] eqn:H; [|done].
  intros [= <-]. exists (Re.group 1 caps). split; [|done].
  by apply (search_group U r 1 markdown).
Qed.

Lemma drop_while_head (p : N -> bool) (s : str) (c : N) (r : str) :
  Py.drop_while p s = c :: r -> p c = false.
Proof.
  induction s as [|d s IH]; simpl; [done|].
  destruct (p d) eqn:Hd; [done|]. by intros [= <- _].
Qed.

Lemma strip_nonempty (s : str) :
  Exists (fun c => Py.isspace c = false) s -> Py.strip s <> [].
Proof.
  intros H. unfold Py.strip, Py.rstrip, Py.lstrip.
  apply drop_while_some in H as (c & rest & -> & Hc).
  assert (H : Exists (fun c => Py.isspace c = false) (rev (c :: rest))).
  { apply List.Exists_exists. exists c. split; [|done].
    apply in_rev. rewrite rev_involutive. by left. }
  apply drop_while_some in H as (d & r & -> & _).
  simpl. by destruct (rev r).
Qed.

Lemma strip_has_nonspace (s : str) :
  Py.strip s <> [] -> Exists (fun c => Py.isspace c = false) (Py.strip s).
Proof.
  unfold Py.strip, Py.rstrip. set (l := Py.lstrip s).
  destruct (Py.drop_while Py.isspace (rev l)) as [|c r] eqn:H; [done|].
  intros _. apply drop_while_head in H.
  apply List.Exists_exists. exists c. split; [|done].
  apply in_rev. rewrite rev_involutive. by left.
Qed.

Lemma split_char_no_sep (c : N) (s : str) :
  Forall (fun piece => c ∉ piece) (Py.split_char c s).
Proof.
  induction s as [|d s IH]; simpl.
  - constructor; [apply not_elem_of_nil|done].
  - destruct (N.eqb_spec d c) as [->|Hd].
    + constructor; [apply not_elem_of_nil|done].
    + destruct (Py.split_char c s) as [|cur rest]; simpl.
      * constructor; [|done]. rewrite list_elem_of_singleton. congruence.
      * apply Forall_cons in IH as [Hcur Hrest]. constructor; [|done].
        rewrite not_elem_of_cons. split; [congruence|done].
Qed.

(** The description collected from lines without a line break holds none,
    and holds some visible character unless it is empty. *)
Lemma collect_description_inv (lines : list str) :
  Forall (fun raw => 10%N ∉ raw) lines ->
  forall (started : bool) (description : str),
    10%N ∉ description ->
    (description = [] \/ Exists (fun c => Py.isspace c = false) description) ->
    let r := Sxsapi.collect_description lines started description in
    (10%N ∉ r) /\ (r = [] \/ Exists (fun c => Py.isspace c = false) r).
Proof.
  induction 1 as [|raw rest Hraw _ IH]; intros started description Hd Hv;
    [done|].
  cbn [Sxsapi.collect_description].
  destruct (Py.contains (Py.u "项目描述") (Py.strip raw)); [by apply IH|].
  destruct started; [|by apply IH].
  destruct (existsb _ Sxsapi.stop_markers); [done|].
  destruct (negb (bool_decide (Py.strip raw = []))
            && negb (Py.startswith (Py.strip raw) (Py.u "#"))
            && negb (Py.startswith (Py.strip raw) (Py.u "!["))) eqn:Hline;
    [|by apply IH].
  apply andb_true_iff in Hline as [Hline _].
  apply andb_true_iff in Hline as [Hline _].
  apply negb_true_iff, bool_decide_eq_false in Hline.
  apply IH.
  - rewrite !not_elem_of_app. split; [done|]. split.
    + by apply strip_not_elem_of.
    + vm_compute (Py.u " "). rewrite list_elem_of_singleton. done.
  - right. apply Exists_app. right. apply Exists_app. left.
    by apply strip_has_nonspace.
Qed.

Lemma description_of_Some (markdown t : str) :
  Sxsapi.description_of markdown = Some t -> t <> [] /\ (10%N ∉ t).
Proof.
  unfold Sxsapi.description_of.
  destruct (collect_description_inv (Py.split_char 10 markdown)
              (split_char_no_sep 10 markdown) false [])
    as [Hnl Hv]; [apply not_elem_of_nil|by left|].
  cbv zeta. destruct (bool_decide _) eqn:He; [done|]. intros [= <-].
  apply bool_decide_eq_false in He. destruct Hv as [Hv|Hv]; [done|].
  split; [by apply strip_nonempty|by apply strip_not_elem_of].
Qed.

(** X3: the fields the sxsapi extractor reads from a detail page are well
    formed: the title holds no [#] and no line break, the price only
    characters of a budget, the duration is a number of days or the words for
    a duration to be agreed, the deadline is a date dddd-dd-dd, the
    description is not empty, and description, skills and cooperation hold no
    line break. *)
Theorem sxsapi_detail_fields_are_well_formed (U : Py.Unicode) (markdown t : str) :
  let details := Sxsapi.extract_project_details U markdown in
  (details !! "title" = Some (Py.VStr t) -> (35%N ∉ t) /\ (10%N ∉ t))
  /\ (details !! "price" = Some (Py.VStr t) ->
      Forall (fun c => Re.cls_matches U Sxsapi.budget_chars c = true) t
      /\ (digits_are_not_space U -> t <> []))
  /\ (details !! "duration" = Some (Py.VStr t) -> is_duration U t)
  /\ (details !! "deadline" = Some (Py.VStr t) -> is_date U t)
  /\ (details !! "description" = Some (Py.VStr t) -> t <> [] /\ (10%N ∉ t))
  /\ (details !! "skills" = Some (Py.VStr t) -> 10%N ∉ t)
  /\ (details !! "cooperation" = Some (Py.VStr t) -> 10%N ∉ t).
Proof.
  destruct (sxsapi_details_lookup U markdown)
    as (Ht & Hp & Hdu & Hde & Hds & Hs & Hc).
  cbv zeta in *. rewrite Ht, Hp, Hdu, Hde, Hds, Hs, Hc. clear.
  split; [|split; [|split; [|split; [|split; [|split]]]]].
  - destruct (Sxsapi.rule U _ _ _) as [s|] eqn:H; [|done]. intros [= ->].
    apply rule_Some in H as (g & Hg & ->); [|done].
    apply captured_title in Hg as [? ?]. split; by apply strip_not_elem_of.
  - destruct (Sxsapi.rule U _ _ _) as [s|] eqn:H; [|done]. intros [= ->].
    apply rule_Some in H as (g & Hg & ->); [|done].
    apply captured_price in Hg. split.
    + destruct Hg as [_ Hg]. rewrite Forall_forall in *.
      intros c Hc. by apply Hg, strip_elem_of.
    + intros HU. rewrite (strip_budget U g HU Hg). by destruct Hg.
  - destruct (Sxsapi.rule U _ _ _) as [s|] eqn:H; [|done]. intros [= ->].
    apply rule_Some in H as (g & Hg & ->); [|done]. by apply captured_duration.
  - destruct (Sxsapi.rule U _ _ _) as [s|] eqn:H; [|done]. intros [= ->].
    apply rule_Some in H as (g & Hg & ->); [|done]. by apply captured_deadline.
  - destruct (Sxsapi.description_of markdown) as [s|] eqn:H; [|done].
    intros [= ->]. by apply description_of_Some in H.
  - destruct (Sxsapi.rule U _ _ _) as [s|] eqn:H; [|done]. intros [= ->].
    apply rule_Some in H as (g & Hg & ->); [|done].
    apply captured_line_rest in Hg as [_ ?]. by apply strip_not_elem_of.
  - destruct (Sxsapi.rule U _ _ _) as [s|] eqn:H; [|done]. intros [= ->].
    apply rule_Some in H as (g & Hg & ->); [|done].
    apply captured_line_rest in Hg as [_ ?]. by apply strip_not_elem_of.
Qed.

(** ** Discovery on the sxsapi list page, line by line *)

Lemma flush_truthy (projects : list dict) (cur : dict) :
  dict_truthy cur = true -> Sxsapi.flush projects cur = projects ++ [cur].
Proof. unfold Sxsapi.flush. by intros ->. Qed.

Lemma flush_falsy (projects : list dict) (cur : dict) :
  dict_truthy cur = false -> Sxsapi.flush projects cur = projects.
Proof. unfold Sxsapi.flush. by intros ->. Qed.

Lemma extends_heading_refl (q : dict) : extends_heading q q.
Proof. repeat split. apply union_subseteq_l. Qed.

Lemma extends_heading_insert (k : string) (v : Py.value) (p q : dict) :
  k = "duration" \/ k = "deadline" ->
  extends_heading p q -> extends_heading (<[k := v]> p) q.
Proof.
  intros Hk (Ht & Hu & Hp & Hd).
  split; [|split; [|split]].
  - rewrite lookup_insert_ne; [done|]. by destruct Hk as [->| ->].
  - rewrite lookup_insert_ne; [done|]. by destruct Hk as [->| ->].
  - rewrite lookup_insert_ne; [done|]. by destruct Hk as [->| ->].
  - rewrite dom_insert. apply union_least; [|done].
    apply singleton_subseteq_l, elem_of_union_r.
    rewrite elem_of_union, !elem_of_singleton. tauto.
Qed.

(** The step every line that is no heading takes: the record being filled
    gets at most a duration or a deadline. *)
Lemma flush_extended (k : string) (v : Py.value) (projects : list dict)
  (cur : dict) (B : list dict) :
  k = "duration" \/ k = "deadline" ->
  dict_truthy cur = true ->
  Forall2 extends_heading (Sxsapi.flush projects cur) B ->
  Forall2 extends_heading (Sxsapi.flush projects (<[k := v]> cur)) B.
Proof.
  intros Hk Ht. rewrite !flush_truthy by (done || apply dict_truthy_insert).
  intros H. apply Forall2_app_inv_l in H as (B1 & B2 & H1 & H2 & ->).
  apply Forall2_app; [done|].
  apply Forall2_cons_inv_l in H2 as (q & B3 & Hq & H3 & ->).
  apply Forall2_nil_inv_l in H3 as ->.
  constructor; [|done]. by apply extends_heading_insert.
Qed.

Lemma scan_lines_headings (U : Py.Unicode) (lines : list str) :
  forall (projects : list dict) (cur : dict) (ps B : list dict),
    Forall2 extends_heading (Sxsapi.flush projects cur) B ->
    Sxsapi.scan_lines U lines projects cur = Some ps ->
    Forall2 extends_heading ps (B ++ omap (started U) lines).
Proof.
  induction lines as [|raw rest IH]; intros projects cur ps B HB.
  - simpl. intros [= <-]. by rewrite app_nil_r.
  - cbn [Sxsapi.scan_lines].
    change (omap (started U) (raw :: rest))
      with (match started U raw with
            | Some q => q :: omap (started U) rest
            | None => omap (started U) rest
            end).
    unfold started, skipped. cbv zeta.
    match goal with
    | |- context [if ?b then Sxsapi.scan_lines U rest projects cur else _] =>
        destruct b
    end; [by apply IH|].
    destruct (Re.search U Sxsapi.heading_re (Py.strip raw)) as [caps|] eqn:Hh.
    + destruct (Sxsapi.clean_url (Re.group 2 caps)) as [url|]; [|done].
      simpl. intros H.
      apply (IH _ _ _ (B ++ [<["title" := Py.VStr (Py.strip (Re.group 1 caps))]>
                               (<["url" := Py.VStr url]>
                                  (<["price" := Py.VStr (Py.strip (Re.group 3 caps))]> ∅))]))
        in H.
      * by rewrite <- app_assoc in H.
      * rewrite flush_truthy by apply dict_truthy_insert.
        apply Forall2_app; [done|]. constructor; [|done].
        apply extends_heading_refl.
    + destruct (Re.search U Sxsapi.list_duration_re (Py.strip raw)).
      { destruct (dict_truthy cur) eqn:Ht; apply IH; [|done].
        apply flush_extended; auto. }
      destruct (Re.search U Sxsapi.list_deadline_re (Py.strip raw)).
      { destruct (dict_truthy cur) eqn:Ht; apply IH; [|done].
        apply flush_extended; auto. }
      by apply IH.
Qed.

(** X1: the projects discovered on a list page are, in order, one for each
    heading line that is not passed over, with the title, link and budget of
    that heading; the lines between two headings add at most a duration and a
    deadline. *)
Theorem sxsapi_one_record_per_heading (U : Py.Unicode) (markdown : str) :
  exists projects,
    Sxsapi.extract_project_links U markdown = Some projects
    /\ Forall2 extends_heading projects
         (omap (started U) (Py.split_char 10 markdown))
    /\ length projects = length (omap (started U) (Py.split_char 10 markdown)).
Proof.
  destruct (sxsapi_discovery_total U markdown) as [projects H].
  exists projects. split; [done|].
  apply (scan_lines_headings U _ [] ∅ projects []) in H; [|constructor].
  split; [done|]. by apply Forall2_length in H.
Qed.

(** A property of records that the scan establishes at each heading, and
    keeps when it adds a duration or a deadline, holds of every record
    discovered. *)
Lemma scan_lines_Forall (U : Py.Unicode) (P : dict -> Prop) :
  (forall line caps url,
     Re.search U Sxsapi.heading_re line = Some caps ->
     Sxsapi.clean_url (Re.group 2 caps) = Some url ->
     P (<["title" := Py.VStr (Py.strip (Re.group 1 caps))]>
          (<["url" := Py.VStr url]>
             (<["price" := Py.VStr (Py.strip (Re.group 3 caps))]> ∅)))) ->
  (forall line caps p,
     Re.search U Sxsapi.list_duration_re line = Some caps ->
     P p -> P (<["duration" := Py.VStr (Re.group 1 caps)]> p)) ->
  (forall line caps p,
     Re.search U Sxsapi.list_deadline_re line = Some caps ->
     P p -> P (<["deadline" := Py.VStr (Re.group 1 caps)]> p)) ->
  forall (lines : list str) (projects : list dict) (cur : dict) (ps : list dict),
    Forall P projects ->
    (cur = ∅ \/ P cur) ->
    Sxsapi.scan_lines U lines projects cur = Some ps ->
    Forall P ps.
Proof.
  intros Hhead Hdur Hdead.
  assert (Hflush : forall projects cur,
            Forall P projects -> (cur = ∅ \/ P cur) ->
            Forall P (Sxsapi.flush projects cur)).
  { intros projects cur Hp Hc. unfold Sxsapi.flush.
    destruct (dict_truthy cur) eqn:Ht; [|done].
    apply Forall_app. split; [done|]. constructor; [|done].
    destruct Hc as [->|]; [|done]. by apply dict_truthy_true in Ht. }
  assert (Hcur : forall cur, dict_truthy cur = true -> (cur = ∅ \/ P cur) -> P cur).
  { intros cur Ht [->|]; [|done]. by apply dict_truthy_true in Ht. }
  induction lines as [|raw rest IH]; intros projects cur ps Hp Hc.
  - simpl. intros [= <-]. by apply Hflush.
  - cbn [Sxsapi.scan_lines].
    match goal with
    | |- context [if ?b then Sxsapi.scan_lines U rest projects cur else _] =>
        destruct b
    end; [by apply IH|].
    destruct (Re.search U Sxsapi.heading_re (Py.strip raw)) as [caps|] eqn:Hh.
    + destruct (Sxsapi.clean_url (Re.group 2 caps)) as [url|] eqn:Hu; [|done].
      apply IH; [by apply Hflush|]. right. by apply (Hhead (Py.strip raw)).
    + destruct (Re.search U Sxsapi.list_duration_re (Py.strip raw))
        as [caps|] eqn:Hd.
      { destruct (dict_truthy cur) eqn:Ht; apply IH; try done.
        right. apply (Hdur (Py.strip raw)); [done|]. by apply Hcur. }
      destruct (Re.search U Sxsapi.list_deadline_re (Py.strip raw))
        as [caps|] eqn:Hl.
      { destruct (dict_truthy cur) eqn:Ht; apply IH; try done.
        right. apply (Hdead (Py.strip raw)); [done|]. by apply Hcur. }
      by apply IH.
Qed.

Lemma captured_heading_title (U : Py.Unicode) (t : str) :
  captured U Sxsapi.heading_re 1 t -> 93%N ∉ t.
Proof.
  unfold Sxsapi.heading_re, Re.star, Re.plus, Re.lit. cbn [captured].
  intros H. split_cases; try done. apply lang_none_of in H as [_ H].
  rewrite Forall_forall in H. intros Hin. apply H in Hin. simpl in Hin. done.
Qed.

Lemma captured_heading_price (U : Py.Unicode) (t : str) :
  captured U Sxsapi.heading_re 3 t -> is_budget U t.
Proof.
  unfold Sxsapi.heading_re, Re.star, Re.plus, Re.lit. cbn [captured].
  intros H. split_cases; try done. by apply lang_budget.
Qed.

Lemma captured_list_duration (U : Py.Unicode) (t : str) :
  captured U Sxsapi.list_duration_re 1 t -> is_duration U t.
Proof.
  unfold Sxsapi.list_duration_re, Re.star, Re.plus, Re.lit. cbn [captured].
  intros H. split_cases; try by apply lang_duration.
Qed.

Lemma captured_list_deadline (U : Py.Unicode) (t : str) :
  captured U Sxsapi.list_deadline_re 1 t -> is_date U t.
Proof.
  unfold Sxsapi.list_deadline_re, Sxsapi.date_re, Re.star, Re.lit.
  cbn [captured]. intros H. split_cases; try by apply lang_date.
Qed.

Lemma well_formed_listing_insert (U : Py.Unicode) (k : string) (t : str)
  (p : dict) :
  (k = "duration" /\ is_duration U t) \/ (k = "deadline" /\ is_date U t) ->
  well_formed_listing U p -> well_formed_listing U (<[k := Py.VStr t]> p).
Proof.
  intros Hk (Ht & Hu & Hp & Hdu & Hde & Hdom).
  assert (Hne : k <> "title" /\ k <> "url" /\ k <> "price")
    by (destruct Hk as [[-> _]|[-> _]]; done).
  destruct Hne as (? & ? & ?).
  split; [|split; [|split; [|split; [|split]]]].
  - by rewrite lookup_insert_ne.
  - by rewrite lookup_insert_ne.
  - by rewrite lookup_insert_ne.
  - intros v. destruct Hk as [[-> Hk]|[-> Hk]].
    + rewrite lookup_insert_eq. intros [= <-]. by exists t.
    + rewrite lookup_insert_ne by done. apply Hdu.
  - intros v. destruct Hk as [[-> Hk]|[-> Hk]].
    + rewrite lookup_insert_ne by done. apply Hde.
    + rewrite lookup_insert_eq. intros [= <-]. by exists t.
  - rewrite dom_insert. apply union_least; [|done].
    apply singleton_subseteq_l.
    rewrite !elem_of_union, !elem_of_singleton.
    destruct Hk as [[-> _]|[-> _]]; tauto.
Qed.

(** X2: every record discovered on a sxsapi list page has a title without a
    closing bracket, a link that is empty or starts with http, and a budget
    made of budget characters; its duration and deadline, when present, are a
    number of days (or the words for a duration to be agreed) and a date;
    it has no other field. *)
Theorem sxsapi_listings_are_well_formed (U : Py.Unicode) (markdown : str) :
  exists projects,
    Sxsapi.extract_project_links U markdown = Some projects
    /\ Forall (well_formed_listing U) projects.
Proof.
  destruct (sxsapi_discovery_total U markdown) as [projects H].
  exists projects. split; [done|]. revert H.
  apply scan_lines_Forall; [| | |done|by left].
  - intros line caps url Hs Hu.
    split; [|split; [|split; [|split; [|split]]]].
    + eexists. split; [by simplify_map_eq|].
      apply strip_not_elem_of, (captured_heading_title U).
      by apply (search_group U _ 1 line).
    + exists url. split; [by simplify_map_eq|].
      apply (clean_url_result (Re.group 2 caps)). by left.
    + eexists. split; [by simplify_map_eq|].
      assert (Hb : is_budget U (Re.group 3 caps))
        by (apply (captured_heading_price U); by apply (search_group U _ 3 line)).
      split.
      * destruct Hb as [_ Hb]. rewrite Forall_forall in *.
        intros c Hc. by apply Hb, strip_elem_of.
      * intros HU. rewrite (strip_budget U _ HU Hb). by destruct Hb.
    + intros v Hv. by simplify_map_eq.
    + intros v Hv. by simplify_map_eq.
    + rewrite !dom_insert, dom_empty.
      intros x. rewrite !elem_of_union, !elem_of_singleton, elem_of_empty. tauto.
  - intros line caps p Hs Hp. apply well_formed_listing_insert; [|done].
    left. split; [done|]. apply (captured_list_duration U).
    by apply (search_group U _ 1 line).
  - intros line caps p Hs Hp. apply well_formed_listing_insert; [|done].
    right. split; [done|]. apply (captured_list_deadline U).
    by apply (search_group U _ 1 line).
Qed.

(** ** The shape of a cleaned URL *)

Lemma replace_from_In (skip : nat) (old s : str) (c : N) :
  In c (Py.replace_from skip old [] s) -> In c s.
Proof.
  revert skip. induction s as [|d s IH]; intros skip; [by destruct skip|].
  cbn [Py.replace_from]. destruct skip as [|k].
  - destruct (Py.startswith (d :: s) old); cbn [app].
    + intros H. right. by apply IH in H.
    + intros [->|H]; [by left|]. right. by apply IH in H.
  - intros H. right. by apply IH in H.
Qed.

Lemma replace_elem_of (old s : str) (c : N) :
  c ∈ Py.replace old [] s -> c ∈ s.
Proof. rewrite !list_elem_of_In. apply replace_from_In. Qed.

Lemma startswith_nil (s : str) : Py.startswith s [] = true.
Proof. by destruct s. Qed.

(** Removing a character leaves none of it. *)
Lemma replace_char_gone (c : N) (s : str) : c ∉ Py.replace [c] [] s.
Proof.
  unfold Py.replace. induction s as [|d s IH]; [apply not_elem_of_nil|].
  cbn [Py.replace_from Py.startswith length Nat.sub app].
  rewrite startswith_nil.
  destruct (N.eqb_spec c d) as [->|Hcd]; cbn [andb]; [done|].
  rewrite not_elem_of_cons. by split.
Qed.

(** A text where [old] does not occur is left as it is. *)
Lemma replace_absent (old new s : str) :
  Py.contains old s = false -> Py.replace old new s = s.
Proof.
  unfold Py.replace. induction s as [|d s IH]; [done|].
  cbn [Py.contains Py.replace_from]. intros H.
  apply orb_false_iff in H as [Hs Hc].
  rewrite Hs. by rewrite IH.
Qed.

Lemma contains_char_absent (c : N) (s : str) :
  c ∉ s -> Py.contains [c] s = false.
Proof.
  induction s as [|d s IH]; [done|]. rewrite not_elem_of_cons. intros [Hd Hs].
  cbn [Py.contains Py.startswith]. rewrite (IH Hs), startswith_nil.
  by destruct (N.eqb_spec c d).
Qed.

Lemma take_while_Forall (p : N -> bool) (s : str) :
  Forall (fun c => p c = true) (Py.take_while p s).
Proof.
  induction s as [|c s IH]; simpl; [done|].
  destruct (p c) eqn:Hc; [by constructor|done].
Qed.

(** The first token of a text holds no whitespace. *)
Lemma first_token_no_space (s tok : str) :
  head (Py.split_ws s) = Some tok ->
  tok <> [] /\ Forall (fun c => Py.isspace c = false) tok.
Proof.
  rewrite tokens_head.
  destruct (Py.drop_while Py.isspace s) as [|c rest] eqn:Hd; [done|].
  intros [= <-]. apply drop_while_head in Hd. split.
  - cbn [Py.take_while]. unfold nonspace. by rewrite Hd.
  - eapply Forall_impl; [apply (take_while_Forall nonspace (c :: rest))|].
    intros d. unfold nonspace. by rewrite negb_true_iff.
Qed.

Lemma take_while_all (p : N -> bool) (s : str) :
  Forall (fun c => p c = true) s -> Py.take_while p s = s.
Proof. induction 1 as [|c s Hc _ IH]; simpl; [done|]. by rewrite Hc, IH. Qed.

(** A text without whitespace is its own first token. *)
Lemma first_token_self (s : str) :
  s <> [] -> Forall (fun c => Py.isspace c = false) s ->
  head (Py.split_ws s) = Some s.
Proof.
  intros Hne H. rewrite tokens_head, (drop_while_none _ s H).
  destruct s as [|c s]; [done|]. f_equal. apply take_while_all.
  eapply Forall_impl; [exact H|]. intros d Hd. unfold nonspace. by rewrite Hd.
Qed.

Lemma url_literals :
  Sxsapi.base_url
  = [104; 116; 116; 112; 115; 58; 47; 47; 115; 120; 115; 97; 112; 105; 46;
     99; 111; 109]%N
  /\ Yuanjisong.base_url
     = [104; 116; 116; 112; 115; 58; 47; 47; 119; 119; 119; 46; 121; 117; 97;
        110; 106; 105; 115; 111; 110; 103; 46; 99; 111; 109]%N
  /\ Py.u "javascript:" = [106; 97; 118; 97; 115; 99; 114; 105; 112; 116; 58]%N
  /\ Py.u "http" = [104; 116; 116; 112]%N
  /\ Py.u ">" = [62]%N.
Proof. vm_compute. by repeat split. Qed.

Ltac not_in_literal :=
  let H := fresh in
  intros H; repeat (apply elem_of_cons in H as [H|H]; [discriminate H|]);
  by apply elem_of_nil in H.

Lemma site_prefixes :
  site_prefix Sxsapi.base_url /\ site_prefix Yuanjisong.base_url.
Proof.
  destruct url_literals as (-> & -> & Hjs & Hhttp & _).
  unfold site_prefix. rewrite Hjs, Hhttp.
  split; (split; [|split; [|split]]).
  - repeat constructor.
  - not_in_literal.
  - intros t. reflexivity.
  - intros t. reflexivity.
  - repeat constructor.
  - not_in_literal.
  - intros t. reflexivity.
  - intros t. reflexivity.
Qed.

Lemma clean_url_for_shape (base url r : str) :
  site_prefix base ->
  clean_url_for base url = Some r ->
  r = [] \/ clean_shape r.
Proof.
  intros (Hb2 & Hb3 & Hb4 & Hb5). unfold clean_url_for.
  destruct (head (Py.split_ws url)) as [tok|] eqn:Htok; [|done].
  apply first_token_no_space in Htok as [_ Htok]. cbv zeta.
  set (t := Py.replace (Py.u ">") [] (Py.replace (Py.u "</") [] tok)).
  assert (Ht1 : Forall (fun c => Py.isspace c = false) t).
  { rewrite Forall_forall in *. intros c Hc.
    by apply Htok, (replace_elem_of (Py.u "</")), (replace_elem_of (Py.u ">")). }
  assert (Ht2 : 62%N ∉ t).
  { unfold t. destruct url_literals as (_ & _ & _ & _ & ->).
    apply replace_char_gone. }
  destruct (Py.contains (Py.u "javascript:") t) eqn:Hjs;
    [intros [= <-]; by left|].
  destruct (Py.startswith t (Py.u "http")) eqn:Hs; cbn [negb];
    intros [= <-]; right.
  - done.
  - split; [apply Hb5|]. split; [by apply Forall_app|].
    split; [by rewrite not_elem_of_app|]. by rewrite Hb4.
Qed.

(** X4: whatever [clean_url] returns is the empty string or a text that
    starts with http and holds no whitespace, no [>] and no javascript
    scheme. *)
Theorem clean_url_output_shape (url r : str) :
  Sxsapi.clean_url url = Some r \/ Yuanjisong.clean_url url = Some r ->
  r = [] \/ clean_shape r.
Proof.
  destruct site_prefixes as [Hs Hy].
  intros [H|H]; [by apply (clean_url_for_shape _ url r Hs)
                |by apply (clean_url_for_shape _ url r Hy)].
Qed.

Lemma clean_url_output_shape_witness :
  Py.u "https://sxsapi.com/post/1" = []
  \/ clean_shape (Py.u "https://sxsapi.com/post/1").
Proof.
  apply (clean_url_output_shape (Py.u " /post/1> x")).
  left. vm_compute. reflexivity.
Defined.

Lemma clean_url_for_fixed (base r : str) :
  r <> [] -> clean_shape r -> Py.contains (Py.u "</") r = false ->
  clean_url_for base r = Some r.
Proof.
  intros Hne (Hhttp & Hsp & Hgt & Hjs) Hlt. unfold clean_url_for.
  rewrite (first_token_self r Hne Hsp). cbv zeta.
  rewrite (replace_absent (Py.u "</")) by done.
  destruct url_literals as (_ & _ & _ & _ & Hu). rewrite Hu.
  rewrite (replace_absent [62%N]) by (by apply contains_char_absent).
  by rewrite Hjs, Hhttp.
Qed.

(** X5: [clean_url] leaves its own result as it is: a result that is not
    empty and holds no [</] is returned unchanged when cleaned again. *)
Theorem clean_url_is_idempotent (url r : str) :
  r <> [] -> Py.contains (Py.u "</") r = false ->
  (Sxsapi.clean_url url = Some r -> Sxsapi.clean_url r = Some r)
  /\ (Yuanjisong.clean_url url = Some r -> Yuanjisong.clean_url r = Some r).
Proof.
  intros Hne Hlt. split; intros H;
    (destruct (clean_url_output_shape url r) as [?|Hshape]; [auto|done|]);
    by apply clean_url_for_fixed.
Qed.

Lemma clean_url_is_idempotent_witness :
  (Sxsapi.clean_url (Py.u "https://sxsapi.com/post/1 x")
   = Some (Py.u "https://sxsapi.com/post/1") ->
   Sxsapi.clean_url (Py.u "https://sxsapi.com/post/1")
   = Some (Py.u "https://sxsapi.com/post/1"))
  /\ (Yuanjisong.clean_url (Py.u "https://sxsapi.com/post/1 x")
      = Some (Py.u "https://sxsapi.com/post/1") ->
      Yuanjisong.clean_url (Py.u "https://sxsapi.com/post/1")
      = Some (Py.u "https://sxsapi.com/post/1")).
Proof.
  apply (clean_url_is_idempotent (Py.u "https://sxsapi.com/post/1 x")).
  - vm_compute. discriminate.
  - vm_compute. reflexivity.
Defined.

(** The condition on [</] is needed: removing [>] can bring a [<] and a
    [/] together, and the second cleaning removes them. *)
Example clean_url_is_not_idempotent_on_brackets :
  Sxsapi.clean_url (Py.u "/a<>/b") = Some (Py.u "https://sxsapi.com/a</b")
  /\ Sxsapi.clean_url (Py.u "https://sxsapi.com/a</b")
     = Some (Py.u "https://sxsapi.com/ab").
Proof. split; vm_compute; reflexivity. Qed.

(** ** The request helper and its sessions *)

(** X6: the request helper leaks no session: the sessions held before the
    call plus those it opens are those it closes plus the one it leaves in
    place; it closes exactly one session per transport error, and opens at most
    three. *)
Theorem make_request_leaks_no_session (net : nat -> Base.outcome)
  (c : Base.client) :
  let c1 := snd (Base._make_request net c) in
  let new := added net c in
  (held c + inits new = closes new + held c1)%nat
  /\ closes new = length (errors new)
  /\ (inits new <= 3)%nat.
Proof.
  intros c1 new. subst c1 new. unfold held.
  destruct (make_request_added net c) as (_ & -> & _ & ->).
  generalize (Base.session c). clear c. intros b.
  unfold Base._make_request. cbn [seq Base.attempts].
  destruct b;
    destruct (net 0%nat) as [t0|s0|e0];
    destruct (net 1%nat) as [t1|s1|e1];
    destruct (net 2%nat) as [t2|s2|e2];
    vm_compute; repeat split; lia.
Qed.
(** ** The pagination loop, page by page *)

(** What a loop that stops has done: it called the pages from its first one
    on without a gap, went on only past pages that were not empty and under
    the cap, and added the listings of those pages. *)
Lemma turns_trace
  (scrape_page : nat -> Base.state -> Base.page_result * Base.state)
  (max_pages : Z) (n : nat) :
  forall s why s1,
    Base.turns scrape_page max_pages n s = Base.Stop why s1 ->
    exists k pages,
      (1 <= k <= n)%nat
      /\ Base.calls s1 = Base.calls s ++ seq (Base.page s) k
      /\ (forall p, (Base.page s <= p < Base.page s + k - 1)%nat ->
                    Base.cap_reached max_pages p = false)
      /\ Base.all_jobs s1 = Base.all_jobs s ++ concat pages
      /\ Forall (fun l => l <> []) pages
      /\ (k - 1 <= length pages <= k)%nat.
Proof.
  induction n as [|n IH]; intros s why s1; [done|].
  rewrite turns_S. unfold Base.scrape_step.
  destruct (scrape_page (Base.page s) (Base.st s)) as [[[|d l]|] st1].
  - intros [= <- <-]. exists 1%nat, []. simpl.
    rewrite app_nil_r. repeat split; try done; try lia; intros; lia.
  - destruct (Base.cap_reached max_pages (Base.page s)) eqn:Hcap.
    + intros [= <- <-]. exists 1%nat, [d :: l]. simpl.
      rewrite app_nil_r.
      split; [lia|]. split; [done|]. split; [intros; lia|]. split; [done|].
      split; [by repeat constructor|lia].
    + intros H. apply IH in H as (k & pages & Hk & Hcalls & Hcaps & Hjobs & Hne & Hlen).
      simpl in *. exists (S k), ((d :: l) :: pages).
      split; [lia|]. split; [by rewrite Hcalls, <- app_assoc|].
      split; [|split; [by rewrite Hjobs, <- app_assoc|]].
      * intros p Hp. destruct (decide (p = Base.page s)) as [->|]; [done|].
        apply Hcaps. lia.
      * split; [by constructor|]. simpl. lia.
  - intros [= <- <-]. exists 1%nat, []. simpl.
    rewrite app_nil_r. repeat split; try done; try lia; intros; lia.
Qed.

(** What a loop that stops has done, tied to what [scrape_page] returned:
    the pages it went past returned the lists it added, one after the other,
    and the page it stopped at was the last of them (the cap was reached) or
    the next one (it returned nothing, or raised). *)
Lemma turns_returned
  (scrape_page : nat -> Base.state -> Base.page_result * Base.state)
  (max_pages : Z) (n : nat) :
  forall s why s1,
    Base.turns scrape_page max_pages n s = Base.Stop why s1 ->
    exists k pages st_mid,
      (1 <= k <= n)%nat
      /\ Base.calls s1 = Base.calls s ++ seq (Base.page s) k
      /\ Base.all_jobs s1 = Base.all_jobs s ++ concat pages
      /\ returned_in_turn scrape_page (Base.page s) (Base.st s) pages st_mid
      /\ match why with
         | Base.ReachedMax =>
             length pages = k /\ Base.st s1 = st_mid
             /\ Base.cap_reached max_pages (Base.page s + k - 1) = true
         | Base.NoProjects =>
             S (length pages) = k
             /\ scrape_page (Base.page s + k - 1)%nat st_mid
                = (Base.Returned [], Base.st s1)
         | Base.PageError =>
             S (length pages) = k
             /\ scrape_page (Base.page s + k - 1)%nat st_mid
                = (Base.Raised, Base.st s1)
         end.
Proof.
  induction n as [|n IH]; intros s why s1; [done|].
  rewrite turns_S. unfold Base.scrape_step.
  destruct (scrape_page (Base.page s) (Base.st s)) as [[[|d l]|] st1] eqn:Hp.
  - intros [= <- <-]. exists 1%nat, [], (Base.st s). simpl.
    rewrite app_nil_r. replace (Base.page s + 1 - 1)%nat with (Base.page s) by lia.
    split; [lia|]. by repeat split.
  - destruct (Base.cap_reached max_pages (Base.page s)) eqn:Hcap.
    + intros [= <- <-]. exists 1%nat, [d :: l], st1. simpl.
      rewrite app_nil_r.
      replace (Base.page s + 1 - 1)%nat with (Base.page s) by lia.
      split; [lia|]. split; [done|]. split; [done|]. split; [|done].
      split; [done|]. by exists st1.
    + intros H.
      apply IH in H as (k & pages & st_mid & Hk & Hcalls & Hjobs & Hret & Hend).
      simpl in *. exists (S k), ((d :: l) :: pages), st_mid.
      split; [lia|]. split; [by rewrite Hcalls, <- app_assoc|].
      split; [by rewrite Hjobs, <- app_assoc|]. split.
      * simpl. split; [done|]. by exists st1.
      * replace (Base.page s + S k - 1)%nat with (S (Base.page s) + k - 1)%nat
          by lia.
        destruct why; simpl; destruct Hend as [Hlen Hend]; split; auto.
  - intros [= <- <-]. exists 1%nat, [], (Base.st s). simpl.
    rewrite app_nil_r. replace (Base.page s + 1 - 1)%nat with (Base.page s) by lia.
    split; [lia|]. by repeat split.
Qed.

Lemma returned_in_turn_nonempty
  (scrape_page : nat -> Base.state -> Base.page_result * Base.state)
  (pages : list (list dict)) :
  forall page st st',
    returned_in_turn scrape_page page st pages st' ->
    Forall (fun l => l <> []) pages.
Proof.
  induction pages as [|l rest IH]; intros page st st'; [done|].
  simpl. intros (Hl & st1 & _ & H). constructor; [done|]. by apply IH in H.
Qed.

(** X7: a run of [scrape] that returns has called [scrape_page] for the
    pages 1, 2, ..., k without a gap. The pages it went past returned, one
    after the other from the initial state, the lists [pages], none of them
    empty, and the list it returns is their concatenation, which the final
    save writes. It stopped at page k because the cap was reached there
    ([pages] has k lists) or because page k returned the empty list or raised
    ([pages] has k - 1 lists). *)
Theorem scrape_visits_consecutive_pages
  (scrape_page : nat -> Base.state -> Base.page_result * Base.state)
  (max_pages : Z) (writable : bool) (fuel : nat) (st0 : Base.state)
  (jobs : list dict) (calls : list nat) (st1 : Base.state) :
  Base.scrape scrape_page max_pages writable fuel st0 = Some (jobs, calls, st1) ->
  exists k pages st_mid st_end,
    calls = seq 1 k /\ (1 <= k <= fuel)%nat
    /\ jobs = concat pages /\ Forall (fun l => l <> []) pages
    /\ (k - 1 <= length pages <= k)%nat
    /\ returned_in_turn scrape_page 1 st0 pages st_mid
    /\ st1 = Base.save_results writable (concat pages) st_end
    /\ ((length pages = k /\ st_end = st_mid
         /\ Base.cap_reached max_pages k = true)
        \/ (S (length pages) = k
            /\ (scrape_page k st_mid = (Base.Returned [], st_end)
                \/ scrape_page k st_mid = (Base.Raised, st_end)))).
Proof.
  unfold Base.scrape.
  destruct (Base.turns scrape_page max_pages fuel (Base.start st0))
    as [|why s1] eqn:H; [done|].
  intros [= <- <- <-].
  apply turns_returned in H as (k & pages & st_mid & Hk & Hcalls & Hjobs & Hret & Hend).
  cbn [Base.start Base.page Base.st Base.calls Base.all_jobs app] in *.
  replace (1 + k - 1)%nat with k in Hend by lia.
  exists k, pages, st_mid, (Base.st s1).
  split; [done|]. split; [done|]. split; [done|].
  split; [by apply returned_in_turn_nonempty in Hret|].
  assert (Hlen : (k - 1 <= length pages <= k)%nat)
    by (destruct why; destruct Hend as [Hl _]; lia).
  split; [done|]. split; [done|]. split; [by rewrite Hjobs|].
  destruct why.
  - right. destruct Hend as [? ?]. split; [done|]. by left.
  - left. by destruct Hend as (? & ? & ?).
  - right. destruct Hend as [? ?]. split; [done|]. by right.
Qed.

Lemma scrape_visits_consecutive_pages_witness :
  exists k pages st_mid st_end,
    [1; 2; 3]%nat = seq 1 k /\ (1 <= k <= 5)%nat
    /\ [first_job; second_job] = concat pages
    /\ Forall (fun l : list dict => l <> []) pages
    /\ (k - 1 <= length pages <= k)%nat
    /\ returned_in_turn scrape_three_pages 1 Base.initial pages st_mid
    /\ {| Base.output_file := Some [first_job; second_job];
          Base.requested := [1; 2; 3]%nat |}
       = Base.save_results true (concat pages) st_end
    /\ ((length pages = k /\ st_end = st_mid
         /\ Base.cap_reached 10 k = true)
        \/ (S (length pages) = k
            /\ (scrape_three_pages k st_mid = (Base.Returned [], st_end)
                \/ scrape_three_pages k st_mid = (Base.Raised, st_end)))).
Proof.
  apply (scrape_visits_consecutive_pages scrape_three_pages 10 true 5
           Base.initial).
  vm_compute. reflexivity.
Defined.

(** The run of the witness, spelled out: two pages in turn, then the empty
    third. *)
Example three_pages_in_turn :
  returned_in_turn scrape_three_pages 1 Base.initial [[first_job]; [second_job]]
    {| Base.output_file := Some [second_job]; Base.requested := [1; 2]%nat |}
  /\ scrape_three_pages 3
       {| Base.output_file := Some [second_job]; Base.requested := [1; 2]%nat |}
     = (Base.Returned [],
        {| Base.output_file := Some []; Base.requested := [1; 2; 3]%nat |}).
Proof.
  split; [|vm_compute; reflexivity]. simpl.
  split; [done|]. eexists. split; [vm_compute; reflexivity|].
  split; [done|]. eexists. split; [vm_compute; reflexivity|]. reflexivity.
Qed.

(** X8: with a [max_pages] other than zero, [scrape] returns after at most
    [max_pages] pages (one page when [max_pages] is negative), whatever the
    pages hold. *)
Theorem scrape_stops_at_max_pages
  (scrape_page : nat -> Base.state -> Base.page_result * Base.state)
  (max_pages : Z) (writable : bool) (fuel : nat) (st0 : Base.state) :
  max_pages <> 0%Z ->
  (1 <= fuel)%nat ->
  (max_pages <= Z.of_nat fuel)%Z ->
  exists jobs k st1,
    Base.scrape scrape_page max_pages writable fuel st0
    = Some (jobs, seq 1 k, st1)
    /\ (1 <= k)%nat /\ (Z.of_nat k <= Z.max 1 max_pages)%Z.
Proof.
  intros Hne Hfuel Hcap. unfold Base.scrape.
  destruct (turns_stop_within_cap scrape_page max_pages fuel (Base.start st0))
    as (why & s1 & H); [done..|simpl; lia|].
  rewrite H.
  apply turns_trace in H as (k & pages & Hk & Hcalls & Hcaps & _).
  simpl in *. exists (Base.all_jobs s1), k, (Base.save_results writable (Base.all_jobs s1) (Base.st s1)).
  rewrite Hcalls. split; [done|]. split; [lia|].
  destruct (decide (k = 1%nat)) as [->|Hk1]; [lia|].
  specialize (Hcaps (k - 1)%nat ltac:(lia)).
  unfold Base.cap_reached in Hcaps.
  apply andb_false_iff in Hcaps as [Hc|Hc].
  - apply negb_false_iff, Z.eqb_eq in Hc. done.
  - apply Z.leb_gt in Hc. lia.
Qed.

Lemma scrape_stops_at_max_pages_witness :
  exists jobs k st1,
    Base.scrape scrape_three_pages 2 true 2 Base.initial
    = Some (jobs, seq 1 k, st1)
    /\ (1 <= k)%nat /\ (Z.of_nat k <= Z.max 1 2)%Z.
Proof. apply scrape_stops_at_max_pages; [discriminate|lia|lia]. Defined.
(** ** The result of a sxsapi page, candidate by candidate *)

Lemma sxsapi_details_have_no_url (U : Py.Unicode) (markdown : str) :
  Sxsapi.extract_project_details U markdown !! "url" = None.
Proof. by apply sxsapi_unmatched_absent. Qed.

Lemma enrich_kept (U : Py.Unicode) (response : Sxsapi.crawl) (p : dict) :
  has_url p ->
  exists rs,
    Sxsapi.enrich U response p = Some rs
    /\ Forall2 enriches rs (if left_out U response then [] else [p]).
Proof.
  intros [url Hu]. unfold Sxsapi.enrich, left_out. rewrite Hu.
  assert (Hsame : Forall2 enriches [p] [p]) by (by repeat constructor).
  destruct response as [| |markdown]; [by exists [p]..|].
  destruct (bool_decide (markdown = [])); [by exists [p]|]. cbn [negb andb].
  destruct (dict_truthy _) eqn:Ht.
  - apply dict_truthy_true in Ht. rewrite bool_decide_eq_false_2 by done.
    eexists. split; [done|]. repeat constructor.
    + apply dict_update_dom.
    + rewrite dict_update_lookup_other; [done|].
      apply sxsapi_details_have_no_url.
  - apply dict_truthy_false in Ht. rewrite bool_decide_eq_true_2 by done.
    by exists [].
Qed.

Lemma enrich_all_kept (U : Py.Unicode) (detail_page : nat -> Sxsapi.crawl)
  (projects : list dict) :
  Forall has_url projects ->
  forall i detailed,
    exists rs,
      Sxsapi.enrich_all U detail_page i projects detailed = Some (detailed ++ rs)
      /\ Forall2 enriches rs (kept U detail_page i projects).
Proof.
  induction 1 as [|p rest Hp _ IH]; intros i detailed.
  - exists []. by rewrite app_nil_r.
  - cbn [Sxsapi.enrich_all kept].
    destruct (enrich_kept U (detail_page i) p Hp) as (r1 & -> & H1).
    destruct (IH (S i) (detailed ++ r1)) as (r2 & -> & H2).
    exists (r1 ++ r2). rewrite app_assoc. split; [done|]. by apply Forall2_app.
Qed.

(** X9: a sxsapi list page that is fetched gives one record for each
    candidate that is not left out, in the order of discovery; each record
    holds the fields and the link of its candidate; the list is returned and
    saved. *)
Theorem sxsapi_page_result_by_candidate (U : Py.Unicode) (src : Sxsapi.page_src)
  (page : nat) (st : Base.state) (markdown : str) :
  Sxsapi.list_page src = Sxsapi.CrawlMarkdown markdown ->
  markdown <> [] ->
  exists projects detailed,
    Sxsapi.extract_project_links U markdown = Some projects
    /\ Sxsapi.scrape_page U src page st
       = (Base.Returned detailed,
          Base.save_results (Sxsapi.writable src) detailed (Base.request page st))
    /\ Forall2 enriches detailed (kept U (Sxsapi.detail_page src) 0 projects)
    /\ (length detailed <= length projects)%nat.
Proof.
  intros Hl Hne. unfold Sxsapi.scrape_page. rewrite Hl.
  rewrite bool_decide_eq_false_2 by done.
  destruct (sxsapi_discovery_total U markdown) as [projects Hp]. rewrite Hp.
  destruct (enrich_all_kept U (Sxsapi.detail_page src) projects
              (sxsapi_discovered_have_url U _ _ Hp) 0%nat []) as (rs & -> & Hrs).
  exists projects, rs. simpl. split; [done|]. split; [done|]. split; [done|].
  apply Forall2_length in Hrs. rewrite Hrs. clear.
  generalize 0%nat. induction projects as [|p rest IH]; intros i; [done|].
  cbn [kept]. rewrite length_app. specialize (IH (S i)).
  destruct (left_out U _); simpl; lia.
Qed.

Lemma sxsapi_page_result_by_candidate_witness :
  exists projects detailed,
    Sxsapi.extract_project_links Py.ascii_unicode
      (Py.u "## [ First ](https://sxsapi.com/post/1) ￥ 100") = Some projects
    /\ Sxsapi.scrape_page Py.ascii_unicode (three_pages 1) 1 Base.initial
       = (Base.Returned detailed,
          Base.save_results (Sxsapi.writable (three_pages 1)) detailed
            (Base.request 1 Base.initial))
    /\ Forall2 enriches detailed
         (kept Py.ascii_unicode (Sxsapi.detail_page (three_pages 1)) 0 projects)
    /\ (length detailed <= length projects)%nat.
Proof.
  apply (sxsapi_page_result_by_candidate Py.ascii_unicode (three_pages 1) 1
           Base.initial).
  - reflexivity.
  - vm_compute. discriminate.
Defined.

(** ** Which pages raise *)

(** X10: [scrape_page] of the yuanjisong scraper never raises; that of the
    sxsapi scraper raises exactly when the fetch of the list page does; so the
    yuanjisong loop never stops for an exception. *)
Theorem scrape_page_exceptions (U : Py.Unicode) :
  (forall src page st,
     exists projects st1,
       Yuanjisong.scrape_page U src page st = (Base.Returned projects, st1))
  /\ (forall src page st,
        (exists st1, Sxsapi.scrape_page U src page st = (Base.Raised, st1))
        <-> Sxsapi.list_page src = Sxsapi.CrawlRaises)
  /\ (forall site max_pages n s why s1,
        Base.turns (fun page st => Yuanjisong.scrape_page U (site page) page st)
          max_pages n s = Base.Stop why s1 ->
        why <> Base.PageError).
Proof.
  split; [apply yuanjisong_page_returns|]. split.
  - intros src page st. split.
    + intros [st1 H]. by apply sxsapi_page_raises_only_on_fetch in H.
    + intros H. unfold Sxsapi.scrape_page. rewrite H. by eexists.
  - intros site max_pages n. induction n as [|n IH]; intros s why s1; [done|].
    rewrite turns_S. unfold Base.scrape_step.
    destruct (yuanjisong_page_returns U (site (Base.page s)) (Base.page s)
                (Base.st s)) as (projects & st1 & ->).
    destruct projects as [|d l]; [by intros [= <- _]|].
    destruct (Base.cap_reached max_pages (Base.page s));
      [by intros [= <- _]|apply IH].
Qed.

Lemma dict_update_empty (project : dict) : dict_update project ∅ = project.
Proof. unfold dict_update. apply (left_id_L ∅ (∪)). Qed.

(** Every yuanjisong detail task of a candidate with a [url] returns the
    candidate with the extraction result merged into it. *)
Lemma scrape_detail_exact (U : Py.Unicode) (d : Yuanjisong.detail_src)
  (project : dict) :
  has_url project ->
  Yuanjisong._scrape_detail_page U d project
  = Some (dict_update project (merged_details U d)).
Proof.
  intros [url Hu]. unfold Yuanjisong._scrape_detail_page, merged_details.
  rewrite Hu.
  destruct (30000 <? Yuanjisong.arun_ms d)%N; [by rewrite dict_update_empty|].
  destruct (Yuanjisong.fetched d) as [| |[] [soup|]];
    try by rewrite dict_update_empty.
  destruct (dict_truthy _) eqn:Ht; [done|].
  apply dict_truthy_false in Ht. by rewrite Ht, dict_update_empty.
Qed.

(** The sxsapi loop appends the candidate with the extraction result merged
    into it, or nothing at all when the candidate is left out. *)
Lemma sxsapi_enrich_exact (U : Py.Unicode) (response : Sxsapi.crawl)
  (project : dict) :
  has_url project ->
  Sxsapi.enrich U response project
  = Some (if left_out U response then []
          else [dict_update project (sxsapi_details U response)]).
Proof.
  intros [url Hu]. unfold Sxsapi.enrich, left_out, sxsapi_details. rewrite Hu.
  destruct response as [| |markdown]; try by rewrite dict_update_empty.
  destruct (bool_decide (markdown = [])); [by rewrite dict_update_empty|].
  cbn [negb andb]. destruct (dict_truthy _) eqn:Ht.
  - apply dict_truthy_true in Ht. by rewrite bool_decide_eq_false_2.
  - apply dict_truthy_false in Ht. by rewrite bool_decide_eq_true_2.
Qed.

(** C6 fails in the sxsapi scraper, by the defect of C1: for a candidate
    whose detail page is fetched with text no field rule matches, the loop
    produces no enriched record at all, so none that has the keys of the
    candidate. Everywhere else enrichment is the merge the claim describes:
    every yuanjisong task, and every turn of the sxsapi loop that does not
    leave its candidate out, gives the candidate updated with the extraction
    result, which has every key of the candidate and the value of the
    extraction result for every key of the result. *)
Theorem enrichment_merges_or_yields_nothing (U : Py.Unicode) :
  (forall d project,
     has_url project ->
     Yuanjisong._scrape_detail_page U d project
     = Some (dict_update project (merged_details U d)))
  /\ (forall response project,
        has_url project ->
        Sxsapi.enrich U response project
        = Some (if left_out U response then []
                else [dict_update project (sxsapi_details U response)]))
  /\ (forall project details : dict,
        dom project ⊆ dom (dict_update project details)
        /\ (forall key v,
              details !! key = Some v ->
              dict_update project details !! key = Some v)
        /\ (forall key,
              details !! key = None ->
              dict_update project details !! key = project !! key))
  /\ has_url widget
  /\ left_out Py.ascii_unicode (Sxsapi.CrawlMarkdown (Py.u "hello")) = true
  /\ Sxsapi.enrich Py.ascii_unicode (Sxsapi.CrawlMarkdown (Py.u "hello")) widget
     = Some [].
Proof.
  split; [exact (scrape_detail_exact U)|].
  split; [exact (sxsapi_enrich_exact U)|].
  split.
  { intros project details. split; [apply dict_update_dom|].
    split; [apply dict_update_lookup|apply dict_update_lookup_other]. }
  split; [by eexists|]. split; vm_compute; reflexivity.
Qed.

(** ** Pagination over a sxsapi site that leaves a candidate out *)

(** A sxsapi list page that is fetched with text returns, and saves, the
    records of the candidates that are not left out. *)
Lemma sxsapi_page_kept (U : Py.Unicode) (src : Sxsapi.page_src) (page : nat)
  (st : Base.state) (markdown : str) (projects : list dict) :
  Sxsapi.list_page src = Sxsapi.CrawlMarkdown markdown ->
  markdown <> [] ->
  Sxsapi.extract_project_links U markdown = Some projects ->
  exists detailed,
    Sxsapi.scrape_page U src page st
    = (Base.Returned detailed,
       Base.save_results (Sxsapi.writable src) detailed (Base.request page st))
    /\ Forall2 enriches detailed (kept U (Sxsapi.detail_page src) 0 projects).
Proof.
  intros Hl Hne Hp. unfold Sxsapi.scrape_page. rewrite Hl.
  rewrite bool_decide_eq_false_2 by done. rewrite Hp.
  destruct (enrich_all_kept U (Sxsapi.detail_page src) projects
              (sxsapi_discovered_have_url U _ _ Hp) 0%nat []) as (rs & -> & Hrs).
  by exists rs.
Qed.

(** A sxsapi list page on which discovery finds nothing returns the empty
    list. *)
Lemma sxsapi_page_empty (U : Py.Unicode) (src : Sxsapi.page_src) (page : nat)
  (st : Base.state) (markdown : str) :
  Sxsapi.list_page src = Sxsapi.CrawlMarkdown markdown ->
  Sxsapi.extract_project_links U markdown = Some [] ->
  exists st1,
    Sxsapi.scrape_page U src page st = (Base.Returned [], st1)
    /\ Base.requested st1 = Base.requested st ++ [page].
Proof.
  intros Hl Hp. unfold Sxsapi.scrape_page. rewrite Hl.
  destruct (bool_decide (markdown = [])); [by eexists|].
  rewrite Hp. simpl. eexists. split; [done|].
  unfold Base.save_results. by destruct (Sxsapi.writable src).
Qed.

(** Where no page loses all its candidates the sxsapi run does what C3
    says: with candidates kept on pages 1 and 2 and none discovered on page
    3, it requests pages 1, 2 and 3 and no other, and returns, and writes to
    the platform file, the records of pages 1 and 2. *)
Lemma sxsapi_stops_at_first_empty_discovery (U : Py.Unicode)
  (site : nat -> Sxsapi.page_src) (md1 md2 md3 : str) (ps1 ps2 : list dict)
  (writable : bool) (fuel : nat) :
  Sxsapi.list_page (site 1%nat) = Sxsapi.CrawlMarkdown md1 -> md1 <> [] ->
  Sxsapi.extract_project_links U md1 = Some ps1 ->
  kept U (Sxsapi.detail_page (site 1%nat)) 0 ps1 <> [] ->
  Sxsapi.list_page (site 2%nat) = Sxsapi.CrawlMarkdown md2 -> md2 <> [] ->
  Sxsapi.extract_project_links U md2 = Some ps2 ->
  kept U (Sxsapi.detail_page (site 2%nat)) 0 ps2 <> [] ->
  Sxsapi.list_page (site 3%nat) = Sxsapi.CrawlMarkdown md3 ->
  Sxsapi.extract_project_links U md3 = Some [] ->
  (3 <= fuel)%nat ->
  exists l1 l2 st1,
    Forall2 enriches l1 (kept U (Sxsapi.detail_page (site 1%nat)) 0 ps1)
    /\ Forall2 enriches l2 (kept U (Sxsapi.detail_page (site 2%nat)) 0 ps2)
    /\ Sxsapi.scrape U site 10 writable fuel Base.initial
       = Some (l1 ++ l2, [1%nat; 2%nat; 3%nat], st1)
    /\ Base.requested st1 = [1%nat; 2%nat; 3%nat]
    /\ (writable = true -> Base.output_file st1 = Some (l1 ++ l2)).
Proof.
  intros H1 Hn1 Hp1 Hk1 H2 Hn2 Hp2 Hk2 H3 Hp3 Hfuel.
  destruct fuel as [|[|[|fuel]]]; try lia.
  set (sp := fun page st => Sxsapi.scrape_page U (site page) page st).
  destruct (sxsapi_page_kept U (site 1%nat) 1 Base.initial md1 ps1 H1 Hn1 Hp1)
    as (l1 & Hs1 & Hl1).
  set (st1 := Base.save_results (Sxsapi.writable (site 1%nat)) l1
                (Base.request 1 Base.initial)) in *.
  destruct (sxsapi_page_kept U (site 2%nat) 2 st1 md2 ps2 H2 Hn2 Hp2)
    as (l2 & Hs2 & Hl2).
  set (st2 := Base.save_results (Sxsapi.writable (site 2%nat)) l2
                (Base.request 2 st1)) in *.
  destruct (sxsapi_page_empty U (site 3%nat) 3 st2 md3 H3 Hp3)
    as (st3 & Hs3 & Hr3).
  assert (Hne1 : l1 <> []).
  { intros ->. apply Forall2_nil_inv_l in Hl1. done. }
  assert (Hne2 : l2 <> []).
  { intros ->. apply Forall2_nil_inv_l in Hl2. done. }
  exists l1, l2, (Base.save_results writable (l1 ++ l2) st3).
  split; [done|]. split; [done|]. split; [|split].
  - unfold Sxsapi.scrape, Base.scrape, Base.start. fold sp.
    rewrite turns_S, (scrape_step_nonempty sp _ _ l1 st1) by done.
    change (Base.cap_reached 10 _) with false. cbv iota.
    rewrite turns_S, (scrape_step_nonempty sp _ _ l2 st2) by done.
    change (Base.cap_reached 10 _) with false. cbv iota.
    rewrite turns_S, (scrape_step_empty sp _ _ st3) by done.
    done.
  - assert (Hreq : Base.requested (Base.save_results writable (l1 ++ l2) st3)
                   = Base.requested st3)
      by (unfold Base.save_results; by destruct writable).
    rewrite Hreq, Hr3. subst st2 st1. unfold Base.save_results, Base.request.
    by destruct (Sxsapi.writable (site 1%nat)), (Sxsapi.writable (site 2%nat)).
  - by intros ->.
Qed.

(** C3 fails in the sxsapi scraper, by the defect of C1. On a site whose
    pages 1 and 2 each hold a heading, so that discovery finds a candidate on
    each, and whose page 3 holds none, the one candidate of page 1 is left
    out because its detail page holds text no field rule matches; page 1 then
    returns the empty list, the loop takes it for the end of the listing, and
    the run with [max_pages = 10] ends after page 1: pages 2 and 3 are never
    requested, and the list returned and written is empty. The same site with
    a detail page the extractor reads is walked as C3 says. *)
Theorem left_out_candidate_ends_pagination :
  Sxsapi.list_page (left_out_site 1) = Sxsapi.CrawlMarkdown one_heading
  /\ Sxsapi.extract_project_links Py.ascii_unicode one_heading = Some [widget]
  /\ Sxsapi.list_page (left_out_site 2)
     = Sxsapi.CrawlMarkdown
         (Py.u "## [ Second ](https://sxsapi.com/post/2) ￥ 200")
  /\ Sxsapi.extract_project_links Py.ascii_unicode
       (Py.u "## [ Second ](https://sxsapi.com/post/2) ￥ 200")
     = Some [second_listing]
  /\ Sxsapi.list_page (left_out_site 3)
     = Sxsapi.CrawlMarkdown (Py.u "no more projects")
  /\ Sxsapi.extract_project_links Py.ascii_unicode (Py.u "no more projects")
     = Some []
  /\ left_out Py.ascii_unicode (Sxsapi.detail_page (left_out_site 1) 0) = true
  /\ Sxsapi.scrape_page Py.ascii_unicode (left_out_site 1) 1 Base.initial
     = (Base.Returned [],
        {| Base.output_file := Some []; Base.requested := [1%nat] |})
  /\ Sxsapi.scrape Py.ascii_unicode left_out_site 10 true 5 Base.initial
     = Some ([], [1%nat],
             {| Base.output_file := Some []; Base.requested := [1%nat] |})
  /\ Sxsapi.scrape Py.ascii_unicode three_pages 10 true 5 Base.initial
     = Some ([first_job; second_job], [1; 2; 3]%nat,
             {| Base.output_file := Some [first_job; second_job];
                Base.requested := [1; 2; 3]%nat |}).
Proof. repeat split; vm_compute; reflexivity. Qed.
